(** * GoForge: the packages [testing] and [dependency]

    A shallow embedding of [GenerateTests], [generateTestForFile] and
    [AnalyzeCoverage] of the package [testing] of GoForge and of the
    functions of its package [dependency], together with the parts of the
    Go standard library they call: [strings], [unicode/utf8], [unicode],
    [go/ast], [path/filepath], [os], [os/exec], [text/template] and
    [filepath.Walk].

    Go strings are byte sequences and are modelled by [string].  The file
    system is a tree of directories and regular files, a Go [error] is a
    value of the type [error], and a function that returns an [error] and
    has effects is a computation in a state-and-error monad over [world].

    Modelling assumptions on the operating system: there are no symbolic
    links and no permission failures, a path is resolved lexically against
    the working directory, and writing to an open file does not fail. *)

From stdpp Require Import gmap strings list.
From Stdlib Require Import Ascii ZArith Lia.

#[local] Set Warnings "-register-all".

(** ** Bytes and strings *)

(** The line feed, the horizontal tab and the double quote. *)
Definition LF : string := String "010"%char EmptyString.
Definition TAB : string := String "009"%char EmptyString.
Definition DQ : string := String "034"%char EmptyString.

(** [s[:n]] and [s[n:]] of Go, for [n <= len(s)]. *)
Fixpoint slice_to (n : nat) (s : string) : string :=
  match n, s with
  | S n', String c s' => String c (slice_to n' s')
  | _, _ => EmptyString
  end.

Fixpoint slice_from (n : nat) (s : string) : string :=
  match n, s with
  | S n', String _ s' => slice_from n' s'
  | _, _ => s
  end.

(** Every byte of [s] satisfies [p]. *)
Fixpoint all_bytes (p : ascii -> bool) (s : string) : bool :=
  match s with
  | EmptyString => true
  | String c s' => p c && all_bytes p s'
  end.

(** ASCII letters (with the underscore, a letter for Go) and digits. *)
Definition is_letter (c : ascii) : bool :=
  let n := nat_of_ascii c in
  ((65 <=? n) && (n <=? 90) || (97 <=? n) && (n <=? 122) || (n =? 95))%nat.

Definition is_digit (c : ascii) : bool :=
  let n := nat_of_ascii c in ((48 <=? n) && (n <=? 57))%nat.

(** [concat] of a list of strings without separator. *)
Definition concat_strings (l : list string) : string :=
  foldr String.append EmptyString l.

(** Package [strings]. *)
Module Strings.

(** [strings.HasPrefix]. *)
Fixpoint HasPrefix (s prefix : string) : bool :=
  match prefix, s with
  | EmptyString, _ => true
  | String p prefix', String c s' => Ascii.eqb c p && HasPrefix s' prefix'
  | String _ _, EmptyString => false
  end.

(** [strings.HasSuffix]:
    [len(s) >= len(suffix) && s[len(s)-len(suffix):] == suffix]. *)
Definition HasSuffix (s suffix : string) : bool :=
  (String.length suffix <=? String.length s)%nat
  && String.eqb (slice_from (String.length s - String.length suffix) s) suffix.

(** [strings.TrimSuffix]. *)
Definition TrimSuffix (s suffix : string) : string :=
  if HasSuffix s suffix
  then slice_to (String.length s - String.length suffix) s
  else s.

(** [strings.Join]. *)
Fixpoint Join (elems : list string) (sep : string) : string :=
  match elems with
  | [] => EmptyString
  | [e] => e
  | e :: rest => e +:+ sep +:+ Join rest sep
  end.

(** [strings.Split(s, "/")] for a one-byte separator: the pieces between
    the separators, empty pieces included. *)
Fixpoint Split (s : string) (sep : ascii) : list string :=
  match s with
  | EmptyString => [EmptyString]
  | String c s' =>
      if Ascii.eqb c sep then EmptyString :: Split s' sep
      else match Split s' sep with
           | piece :: pieces => String c piece :: pieces
           | [] => [String c EmptyString]
           end
  end.

(** [strings.Contains(s, substr)] and [strings.Count(s, substr)] for a
    non-empty [substr] (occurrences counted at every position). *)
Fixpoint Count (s substr : string) : nat :=
  match s with
  | EmptyString => 0
  | String _ s' => (if HasPrefix s substr then 1 else 0) + Count s' substr
  end.

Definition Contains (s substr : string) : bool := (0 <? Count s substr)%nat.

End Strings.

(** ** Runes: [unicode/utf8] and [unicode] *)

Module Utf8.

#[local] Open Scope Z_scope.

Definition RuneError : Z := 65533.

Definition byte_of (c : ascii) : Z := Z.of_nat (nat_of_ascii c).

(** Information about the first byte, as in the table [first] of the
    package: [None] for an invalid first byte, [Some (size, lo, hi)] with
    the size of the encoding and the range accepted for the second byte. *)
Definition first (b : Z) : option (Z * Z * Z) :=
  if b <? 128 then Some (1, 0, 0)
  else if b <? 194 then None
  else if b <? 224 then Some (2, 128, 191)
  else if b =? 224 then Some (3, 160, 191)
  else if b <? 237 then Some (3, 128, 191)
  else if b =? 237 then Some (3, 128, 159)
  else if b <? 240 then Some (3, 128, 191)
  else if b =? 240 then Some (4, 144, 191)
  else if b <? 244 then Some (4, 128, 191)
  else if b =? 244 then Some (4, 128, 143)
  else None.

Definition continuation (b : Z) : bool := (128 <=? b) && (b <=? 191).

(** [utf8.DecodeRuneInString]: the first rune of [s] and its width. *)
Definition DecodeRuneInString (s : string) : Z * Z :=
  match s with
  | EmptyString => (RuneError, 0)
  | String c0 s1 =>
      let s0 := byte_of c0 in
      match first s0 with
      | None => (RuneError, 1)
      | Some (1, _, _) => (s0, 1)
      | Some (sz, lo, hi) =>
          match s1 with
          | EmptyString => (RuneError, 1)
          | String c1 s2 =>
              let b1 := byte_of c1 in
              if Z.of_nat (String.length s) <? sz then (RuneError, 1)
              else if (b1 <? lo) || (hi <? b1) then (RuneError, 1)
              else if sz <=? 2 then
                (Z.lor (Z.shiftl (Z.land s0 31) 6) (Z.land b1 63), 2)
              else
                match s2 with
                | EmptyString => (RuneError, 1)
                | String c2 s3 =>
                    let b2 := byte_of c2 in
                    if negb (continuation b2) then (RuneError, 1)
                    else if sz <=? 3 then
                      (Z.lor (Z.shiftl (Z.land s0 15) 12)
                         (Z.lor (Z.shiftl (Z.land b1 63) 6) (Z.land b2 63)), 3)
                    else
                      match s3 with
                      | EmptyString => (RuneError, 1)
                      | String c3 _ =>
                          let b3 := byte_of c3 in
                          if negb (continuation b3) then (RuneError, 1)
                          else
                            (Z.lor (Z.shiftl (Z.land s0 7) 18)
                               (Z.lor (Z.shiftl (Z.land b1 63) 12)
                                  (Z.lor (Z.shiftl (Z.land b2 63) 6)
                                     (Z.land b3 63))), 4)
                      end
                end
          end
      end
  end.

End Utf8.

(** ** Errors

    A Go [error]: one of the two sentinels of [path/filepath], which [Walk]
    compares by identity, or an error made by [fmt.Errorf] or by the
    operating system, given by its message. *)
Inductive error :=
| SkipDir
| SkipAll
| Errorf (msg : string).

Definition Error (e : error) : string :=
  match e with
  | SkipDir => "skip this directory"
  | SkipAll => "skip everything and stop the walk"
  | Errorf msg => msg
  end.

Inductive result (A : Type) :=
| Ok (a : A)
| Err (e : error).
Arguments Ok {A} a.
Arguments Err {A} e.

(** ** Syntax trees: [go/ast] *)

Module Ast.

Inductive Token := IMPORT | CONST | TYPE | VAR.

(** A declaration: [*ast.BadDecl], [*ast.GenDecl] with its keyword and
    the names it declares, or [*ast.FuncDecl] with the receiver type of
    a method ([Recv], [None] for a function) and the name [Name.Name]. *)
Inductive Decl :=
| BadDecl
| GenDecl (Tok : Token) (Names : list string)
| FuncDecl (Recv : option string) (Name : string).

(** [*ast.File]: the package name [Name.Name] and [Decls]. *)
Record File := mkFile { Name : string; Decls : list Decl }.

End Ast.

(** What the program takes from the Go toolchain and cannot be written
    here in full: the parser of Go source text, and the table of upper-case
    letters of Unicode above Latin-1. *)
Class Toolchain := {
  (** [parser.ParseFile] on a file name and the text read from it. *)
  parse_source : string -> string -> result Ast.File;
  (** [unicode.IsUpper] on the runes above [unicode.MaxLatin1]. *)
  upper_table : Z -> bool
}.

Module Unicode.

#[local] Open Scope Z_scope.

Definition MaxLatin1 : Z := 255.

(** [unicode.IsUpper]: in Latin-1 the upper-case letters are [A-Z],
    [U+00C0-U+00D6] and [U+00D8-U+00DE]. *)
Definition IsUpper `{Toolchain} (r : Z) : bool :=
  if r <=? MaxLatin1 then
    ((65 <=? r) && (r <=? 90))
    || ((192 <=? r) && (r <=? 214))
    || ((216 <=? r) && (r <=? 222))
  else upper_table r.

(** [unicode.IsSpace]: in Latin-1 the white space is [\t], [\n], [\v],
    [\f], [\r], the space, [U+0085] and [U+00A0]; above it, the runes of
    the table [White_Space]. *)
Definition IsSpace (r : Z) : bool :=
  if r <=? MaxLatin1 then
    ((9 <=? r) && (r <=? 13)) || (r =? 32) || (r =? 133) || (r =? 160)
  else
    (r =? 5760) || ((8192 <=? r) && (r <=? 8202)) || (r =? 8232) || (r =? 8233)
    || (r =? 8239) || (r =? 8287) || (r =? 12288).

End Unicode.

(** [ast.IsExported]: the name begins with an upper-case letter. *)
Definition IsExported `{Toolchain} (name : string) : bool :=
  Unicode.IsUpper (fst (Utf8.DecodeRuneInString name)).

(** ** Templates: [text/template]

    The part of the template language that [TestTemplate] uses: text,
    printing a field of the dot, [if] on a field and [range] over a field.
    Executing a template yields the text written so far and the error
    that stopped it, if any. *)

Module Template.

(** The data a template is executed on, as reflection sees it. *)
Inductive value :=
| VString (s : string)
| VBool (b : bool)
| VList (elems : list value)
| VStruct (fields : list (string * value)).

Inductive node :=
| TextNode (text : string)
| FieldNode (field : string)
| IfNode (field : string) (List ElseList : list node)
| RangeNode (field : string) (List : list node).

Fixpoint lookup_field (fields : list (string * value)) (name : string) : option value :=
  match fields with
  | [] => None
  | (f, v) :: rest => if String.eqb f name then Some v else lookup_field rest name
  end.

(** [{{.F}}] on the dot. *)
Definition evalField (dot : value) (name : string) : result value :=
  match dot with
  | VStruct fields =>
      match lookup_field fields name with
      | Some v => Ok v
      | None => Err (Errorf ("can't evaluate field " +:+ name))
      end
  | _ => Err (Errorf ("can't evaluate field " +:+ name))
  end.

(** The text [fmt.Fprint] writes for a value. *)
Fixpoint printValue (v : value) : string :=
  match v with
  | VString s => s
  | VBool b => if b then "true" else "false"
  | VList elems => "[" +:+ Strings.Join (map printValue elems) " " +:+ "]"
  | VStruct fields =>
      "{" +:+ Strings.Join (map (fun '(_, x) => printValue x) fields) " " +:+ "}"
  end.

(** Truth of a pipeline value: the empty values are false. *)
Definition isTrue (v : value) : bool :=
  match v with
  | VBool b => b
  | VString s => negb (String.eqb s EmptyString)
  | VList elems => match elems with [] => false | _ => true end
  | VStruct _ => true
  end.

(** Running a list of nodes in sequence, stopping at the first error. *)
Fixpoint walkList (walk : node -> value -> string * option error)
    (list : list node) (dot : value) : string * option error :=
  match list with
  | [] => (EmptyString, None)
  | n :: rest =>
      match walk n dot with
      | (out, Some e) => (out, Some e)
      | (out, None) =>
          let '(out', r) := walkList walk rest dot in (out +:+ out', r)
      end
  end.

(** Running the body of a [range] once per element. *)
Fixpoint walkRange (body : value -> string * option error)
    (elems : list value) : string * option error :=
  match elems with
  | [] => (EmptyString, None)
  | x :: rest =>
      match body x with
      | (out, Some e) => (out, Some e)
      | (out, None) =>
          let '(out', r) := walkRange body rest in (out +:+ out', r)
      end
  end.

Fixpoint walk (n : node) (dot : value) : string * option error :=
  match n with
  | TextNode text => (text, None)
  | FieldNode f =>
      match evalField dot f with
      | Ok v => (printValue v, None)
      | Err e => (EmptyString, Some e)
      end
  | IfNode f thenList elseList =>
      match evalField dot f with
      | Ok v => if isTrue v then walkList walk thenList dot
                else walkList walk elseList dot
      | Err e => (EmptyString, Some e)
      end
  | RangeNode f body =>
      match evalField dot f with
      | Ok (VList elems) => walkRange (walkList walk body) elems
      | Ok _ => (EmptyString, Some (Errorf ("range can't iterate over " +:+ f)))
      | Err e => (EmptyString, Some e)
      end
  end.

(** [Execute] of a template: the text written and the error, if any. *)
Definition Execute (tmpl : list node) (data : value) : string * option error :=
  walkList walk tmpl data.

End Template.

(** ** Package [testing] of GoForge: the template and its data *)

(** A line indented by [n] tabs. *)
Definition indent (n : nat) (line : string) : string :=
  concat_strings (replicate n TAB) +:+ line.

(** Lines joined by line feeds. *)
Definition text_of_lines (lines : list string) : string := Strings.Join lines LF.

(** [TestTemplate], parsed: each [TextNode] holds the text between two
    actions of the constant, line by line.  [TestTemplate_range] is what
    stands between [{{range .Functions}}] and its [{{end}}]. *)
Definition TestTemplate_range : list Template.node :=
  [ Template.TextNode (text_of_lines [ ""; "func Test" ]);
    Template.FieldNode "Name";
    Template.TextNode (text_of_lines [ "(t *testing.T) {"; indent 1 "" ]);
    Template.IfNode "TableDriven"
      [ Template.TextNode (text_of_lines
          [ "";
            indent 1 "tests := []struct {";
            indent 2 "name string";
            indent 2 "// TODO: Add test case inputs and expected outputs";
            indent 1 "}{";
            indent 2 "{";
            indent 3 ("name: " +:+ DQ +:+ "test case 1" +:+ DQ +:+ ",");
            indent 2 "},";
            indent 2 "{";
            indent 3 ("name: " +:+ DQ +:+ "test case 2" +:+ DQ +:+ ",");
            indent 2 "},";
            indent 1 "}";
            indent 1 "";
            indent 1 "for _, tt := range tests {";
            indent 2 "t.Run(tt.name, func(t *testing.T) {";
            indent 3 "// TODO: Call " ]);
        Template.FieldNode "Name";
        Template.TextNode (text_of_lines
          [ " with the test case inputs and verify outputs";
            indent 2 "})";
            indent 1 "}";
            indent 1 "" ]) ]
      [ Template.TextNode (text_of_lines
          [ ""; indent 1 "// TODO: Write test for " ]);
        Template.FieldNode "Name";
        Template.TextNode (text_of_lines [ ""; indent 1 "" ]) ];
    Template.TextNode (text_of_lines [ ""; "}"; "" ]) ].

Definition TestTemplate : list Template.node :=
  [ Template.TextNode "package ";
    Template.FieldNode "Package";
    Template.TextNode (text_of_lines
      [ ""; "";
        "import (";
        indent 1 (DQ +:+ "testing" +:+ DQ);
        ")";
        "";
        "" ]);
    Template.RangeNode "Functions" TestTemplate_range;
    Template.TextNode (text_of_lines [ ""; "" ]) ].

(** [FunctionData] holds data about a function to test. *)
Record FunctionData := mkFunctionData { Name : string; TableDriven : bool }.

(** [TestData] holds data for the test template. *)
Record TestData := mkTestData { Package : string; Functions : list FunctionData }.

(** The two structures as the template engine sees them. *)
Definition FunctionData_value (fn : FunctionData) : Template.value :=
  Template.VStruct
    [ ("Name", Template.VString (Name fn));
      ("TableDriven", Template.VBool (TableDriven fn)) ].

Definition TestData_value (data : TestData) : Template.value :=
  Template.VStruct
    [ ("Package", Template.VString (Package data));
      ("Functions", Template.VList (map FunctionData_value (Functions data))) ].

(** ** Paths: [path/filepath] on Unix *)

Module Filepath.

Definition Separator : ascii := "/"%char.

(** [filepath.IsAbs]. *)
Definition IsAbs (path : string) : bool := Strings.HasPrefix path "/".

(** The elements of a path: the non-empty pieces between separators. *)
Definition elements (path : string) : list string :=
  filter (fun e => e <> EmptyString) (Strings.Split path Separator).

(** One element read by [Clean]; [out] holds the elements kept so far, the
    last one first.  A [.] is dropped, a [..] removes the element before
    it, is dropped at the root, and is kept at the start of a relative
    path. *)
Definition clean_step (rooted : bool) (out : list string) (e : string) : list string :=
  if decide (e = ".") then out
  else if decide (e = "..") then
    match out with
    | top :: below => if decide (top = "..") then e :: out else below
    | [] => if rooted then [] else [e]
    end
  else e :: out.

Definition clean_elements (rooted : bool) (elems : list string) : list string :=
  rev (fold_left (clean_step rooted) elems []).

(** [filepath.Clean], as its documentation specifies it. *)
Definition Clean (path : string) : string :=
  if decide (path = EmptyString) then "."
  else
    let rooted := IsAbs path in
    let out := clean_elements rooted (elements path) in
    if rooted then "/" +:+ Strings.Join out "/"
    else match out with
         | [] => "."
         | _ => Strings.Join out "/"
         end.

(** [filepath.Join] of two elements. *)
Definition Join (a b : string) : string :=
  if negb (String.eqb a EmptyString) then Clean (a +:+ "/" +:+ b)
  else if negb (String.eqb b EmptyString) then Clean b
  else EmptyString.

(** [path[:i+1]] for the index [i] of the last separator of [path], the
    empty string when there is none. *)
Fixpoint upto_last_separator (path : string) : string :=
  match path with
  | EmptyString => EmptyString
  | String c rest =>
      if Strings.Contains path "/" then String c (upto_last_separator rest)
      else EmptyString
  end.

(** [filepath.Dir]. *)
Definition Dir (path : string) : string := Clean (upto_last_separator path).

(** [filepath.Base]: the last element; [.] for the empty path and the
    separator for a path of separators only. *)
Definition Base (path : string) : string :=
  if decide (path = EmptyString) then "."
  else match last (elements path) with
       | Some e => e
       | None => "/"
       end.

End Filepath.

(** ** The file system and the process: [os] *)

Inductive fsnode :=
| RegularFile (data : string)
| Directory (entries : gmap string fsnode).

(** The state a run acts on: the file tree below the root directory, the
    working directory as the elements of its path, and the lines written
    to the standard output. *)
Record world := mkWorld {
  root : gmap string fsnode;
  cwd : list string;
  stdout : list string
}.

(** A computation with effects on the world that can fail with an error. *)
Definition M (A : Type) : Type := world -> result A * world.

Definition ret {A} (a : A) : M A := fun w => (Ok a, w).

Definition fail {A} (e : error) : M A := fun w => (Err e, w).

Definition bind {A B} (m : M A) (k : A -> M B) : M B :=
  fun w => match m w with
           | (Ok a, w') => k a w'
           | (Err e, w') => (Err e, w')
           end.

Notation "'let*' x ':=' m 'in' k" := (bind m (fun x => k))
  (at level 10, x name, m at level 200, k at level 200).
Notation "'do' m ';' k" := (bind m (fun _ => k))
  (at level 10, m at level 200, k at level 200).

(** [fmt.Errorf(prefix + "%w", err)] on the error of [m], if any. *)
Definition wrap {A} (prefix : string) (m : M A) : M A :=
  fun w => match m w with
           | (Err e, w') => (Err (Errorf (prefix +:+ Error e)), w')
           | r => r
           end.

Module Os.

(** [os.FileInfo]. *)
Record FileInfo := mkFileInfo { Name : string; IsDir : bool }.

(** The node at a list of elements below a directory. *)
Fixpoint lookup_node (elems : list string) (entries : gmap string fsnode) : option fsnode :=
  match elems with
  | [] => Some (Directory entries)
  | e :: rest =>
      match entries !! e with
      | Some (Directory sub) => lookup_node rest sub
      | Some (RegularFile data) =>
          match rest with
          | [] => Some (RegularFile data)
          | _ => None
          end
      | None => None
      end
  end.

(** The elements that a path names, resolved against the working
    directory. *)
Definition resolve (w : world) (path : string) : list string :=
  Filepath.clean_elements true
    ((if Filepath.IsAbs path then [] else cwd w) ++ Filepath.elements path).

(** [os.Getwd]. *)
Definition Getwd (w : world) : string := "/" +:+ Strings.Join (cwd w) "/".

Definition no_such_file (op path : string) : error :=
  Errorf (op +:+ " " +:+ path +:+ ": no such file or directory").

(** [os.Stat] and [os.Lstat]. *)
Definition Stat (path : string) : M FileInfo :=
  fun w => match lookup_node (resolve w path) (root w) with
           | Some (Directory _) => (Ok (mkFileInfo (Filepath.Base path) true), w)
           | Some (RegularFile _) => (Ok (mkFileInfo (Filepath.Base path) false), w)
           | None => (Err (no_such_file "stat" path), w)
           end.

Definition Lstat (path : string) : M FileInfo :=
  fun w => match lookup_node (resolve w path) (root w) with
           | Some (Directory _) => (Ok (mkFileInfo (Filepath.Base path) true), w)
           | Some (RegularFile _) => (Ok (mkFileInfo (Filepath.Base path) false), w)
           | None => (Err (no_such_file "lstat" path), w)
           end.

(** [os.ReadFile]. *)
Definition ReadFile (path : string) : M string :=
  fun w => match lookup_node (resolve w path) (root w) with
           | Some (RegularFile data) => (Ok data, w)
           | Some (Directory _) => (Err (Errorf ("read " +:+ path +:+ ": is a directory")), w)
           | None => (Err (no_such_file "open" path), w)
           end.

(** The names in a directory, sorted, as [Walk] reads them. *)
Fixpoint insert_sorted (x : string) (l : list string) : list string :=
  match l with
  | [] => [x]
  | y :: l' => if String.leb x y then x :: l else y :: insert_sorted x l'
  end.

Definition sort_strings (l : list string) : list string := foldr insert_sorted [] l.

Definition names_of (entries : gmap string fsnode) : list string :=
  sort_strings (map fst (map_to_list entries)).

Definition readDirNames (path : string) : M (list string) :=
  fun w => match lookup_node (resolve w path) (root w) with
           | Some (Directory entries) => (Ok (names_of entries), w)
           | Some (RegularFile _) => (Err (Errorf ("readdirent " +:+ path +:+ ": not a directory")), w)
           | None => (Err (no_such_file "open" path), w)
           end.

(** Making the directories along [elems] below [entries]; [None] when an
    element is a regular file. *)
Fixpoint mkdir_all (elems : list string) (entries : gmap string fsnode) : option (gmap string fsnode) :=
  match elems with
  | [] => Some entries
  | e :: rest =>
      match entries !! e with
      | Some (RegularFile _) => None
      | Some (Directory sub) =>
          match mkdir_all rest sub with
          | Some sub' => Some (<[e := Directory sub']> entries)
          | None => None
          end
      | None =>
          match mkdir_all rest ∅ with
          | Some sub' => Some (<[e := Directory sub']> entries)
          | None => None
          end
      end
  end.

(** [os.MkdirAll], for a path without an element [..]: the path is
    resolved lexically, where the system resolves a [..] in the file tree
    (so that [f/..] fails when [f] is a regular file, and [a/../b] makes
    [a] as well). *)
Definition MkdirAll (path : string) : M unit :=
  fun w => match mkdir_all (resolve w path) (root w) with
           | Some entries => (Ok tt, mkWorld entries (cwd w) (stdout w))
           | None => (Err (Errorf ("mkdir " +:+ path +:+ ": not a directory")), w)
           end.

(** Putting the regular file [data] at [elems] below [entries]: the
    directory that holds it must exist, and the place must not be a
    directory. *)
Fixpoint put_file (elems : list string) (data : string) (entries : gmap string fsnode) : option (gmap string fsnode) :=
  match elems with
  | [] => None
  | [e] =>
      match entries !! e with
      | Some (Directory _) => None
      | _ => Some (<[e := RegularFile data]> entries)
      end
  | e :: rest =>
      match entries !! e with
      | Some (Directory sub) =>
          match put_file rest data sub with
          | Some sub' => Some (<[e := Directory sub']> entries)
          | None => None
          end
      | _ => None
      end
  end.

(** An open file, [*os.File]: the place of the file. *)
Definition File : Type := list string.

(** [os.Create]: the file is created, or truncated when it exists. *)
Definition Create (path : string) : M File :=
  fun w => match put_file (resolve w path) EmptyString (root w) with
           | Some entries => (Ok (resolve w path), mkWorld entries (cwd w) (stdout w))
           | None => (Err (Errorf ("open " +:+ path +:+ ": no such file or directory")), w)
           end.

(** Writing [text] at the end of an open file. *)
Definition Write (file : File) (text : string) : M unit :=
  fun w => match lookup_node file (root w) with
           | Some (RegularFile data) =>
               match put_file file (data +:+ text) (root w) with
               | Some entries => (Ok tt, mkWorld entries (cwd w) (stdout w))
               | None => (Err (Errorf "write: bad file descriptor"), w)
               end
           | _ => (Err (Errorf "write: bad file descriptor"), w)
           end.

(** A line on the standard output ([fmt.Println], and [fmt.Printf] with a
    format that ends in a line feed). *)
Definition Println (line : string) : M unit :=
  fun w => (Ok tt, mkWorld (root w) (cwd w) (stdout w ++ [line])).

(** [os.Chdir]. *)
Definition Chdir (dir : string) : M unit :=
  fun w => match lookup_node (resolve w dir) (root w) with
           | Some (Directory _) => (Ok tt, mkWorld (root w) (resolve w dir) (stdout w))
           | Some (RegularFile _) => (Err (Errorf ("chdir " +:+ dir +:+ ": not a directory")), w)
           | None => (Err (no_such_file "chdir" dir), w)
           end.

(** Whether nothing is at [elems] because a name is missing on the way
    ([ENOENT]), and not because the way goes through a regular file
    ([ENOTDIR]). *)
Fixpoint missing (elems : list string) (entries : gmap string fsnode) : bool :=
  match elems with
  | [] => false
  | e :: rest =>
      match entries !! e with
      | Some (Directory sub) => missing rest sub
      | Some (RegularFile _) => false
      | None => true
      end
  end.

(** [_, err := os.Stat(path); os.IsNotExist(err)]. *)
Definition StatIsNotExist (path : string) (w : world) : bool :=
  missing (resolve w path) (root w).

End Os.

(** [filepath.Abs]. *)
Definition Abs (path : string) : M string :=
  fun w => if Filepath.IsAbs path then (Ok (Filepath.Clean path), w)
           else (Ok (Filepath.Join (Os.Getwd w) path), w).

(** ** [filepath.Walk] *)

#[global] Instance error_eq_dec : EqDecision error.
Proof. solve_decision. Defined.

(** [filepath.WalkFunc]: the path, its [FileInfo] ([None] for Go's nil)
    and the error met on the way to it. *)
Definition WalkFunc : Type := string -> option Os.FileInfo -> option error -> M unit.

(** A run that may need more steps than the bound it was given. *)
Definition bounded (A : Type) : Type := world -> option (result A * world).

(** The loop of [walk] over the names read from the directory [path];
    [rec] walks one entry. *)
Fixpoint walkNames (rec : string -> Os.FileInfo -> bounded unit) (walkFn : WalkFunc)
    (path : string) (names : list string) : bounded unit :=
  fun w =>
    match names with
    | [] => Some (Ok tt, w)
    | name :: rest =>
        let filename := Filepath.Join path name in
        match Os.Lstat filename w with
        | (Err err, w1) =>
            match walkFn filename None (Some err) w1 with
            | (Err e, w2) =>
                if decide (e <> SkipDir) then Some (Err e, w2)
                else walkNames rec walkFn path rest w2
            | (Ok _, w2) => walkNames rec walkFn path rest w2
            end
        | (Ok fileInfo, w1) =>
            match rec filename fileInfo w1 with
            | None => None
            | Some (Err e, w2) =>
                if decide (Os.IsDir fileInfo = false \/ e <> SkipDir)
                then Some (Err e, w2)
                else walkNames rec walkFn path rest w2
            | Some (Ok _, w2) => walkNames rec walkFn path rest w2
            end
        end
    end.

(** [walk] of [path/filepath]; [depth] bounds the nesting of the
    directories it enters. *)
Fixpoint walk (depth : nat) (walkFn : WalkFunc) (path : string) (info : Os.FileInfo) : bounded unit :=
  fun w =>
    match depth with
    | 0 => None
    | S depth' =>
        if negb (Os.IsDir info) then Some (walkFn path (Some info) None w)
        else
          let '(names, w0) := Os.readDirNames path w in
          let err := match names with Err e => Some e | Ok _ => None end in
          let '(err1, w1) := walkFn path (Some info) err w0 in
          match names, err1 with
          | Ok names, Ok _ =>
              walkNames (walk depth' walkFn) walkFn path names w1
          | _, _ => Some (err1, w1)
          end
    end.

(** [filepath.Walk]. *)
Definition Walk (depth : nat) (root : string) (fn : WalkFunc) : bounded unit :=
  fun w =>
    let r :=
      match Os.Lstat root w with
      | (Err err, w1) => Some (fn root None (Some err) w1)
      | (Ok info, w1) => walk depth fn root info w1
      end in
    match r with
    | Some (Err e, w2) =>
        if decide (e = SkipDir \/ e = SkipAll) then Some (Ok tt, w2)
        else Some (Err e, w2)
    | _ => r
    end.

(** ** Package [testing] of GoForge: the functions *)

Section Testing.

Context `{Toolchain}.

(** [parser.ParseFile(fset, path, nil, parser.ParseComments)]: the file is
    read and its text parsed. *)
Definition ParseFile (path : string) : M Ast.File :=
  let* src := Os.ReadFile path in
  fun w => (parse_source path src, w).

(** The body of the loop over [node.Decls]: an exported function
    declaration is appended to [functions]. *)
Definition appendExported (tableTests : bool) (functions : list FunctionData)
    (decl : Ast.Decl) : list FunctionData :=
  match decl with
  | Ast.FuncDecl _ name =>
      if IsExported name
      then functions ++ [mkFunctionData name tableTests]
      else functions
  | _ => functions
  end.

(** The loop over [node.Decls] that finds the exported functions. *)
Definition exportedFunctions (tableTests : bool) (decls : list Ast.Decl) : list FunctionData :=
  fold_left (appendExported tableTests) decls [].

(** [generateTestForFile] creates a test file for a single Go file. *)
Definition generateTestForFile (path outputDir : string) (tableTests : bool) : M unit :=
  (* Parse the Go file *)
  let* node := wrap "failed to parse Go file: " (ParseFile path) in
  (* Get package name *)
  let packageName := Ast.Name node in
  (* Find exported functions *)
  let functions := exportedFunctions tableTests (Ast.Decls node) in
  if (length functions =? 0)%nat then
    do Os.Println ("No exported functions found in " +:+ path +:+ ", skipping");
    ret tt
  else
    (* Prepare output directory *)
    let* outputPath :=
      if String.eqb outputDir EmptyString then
        (* Use same directory as source file *)
        let dir := Filepath.Dir path in
        let baseName := Filepath.Base path in
        let fileName := Strings.TrimSuffix baseName ".go" +:+ "_test.go" in
        ret (Filepath.Join dir fileName)
      else
        (* Create output directory if it doesn't exist *)
        do wrap "failed to create output directory: " (Os.MkdirAll outputDir);
        let baseName := Filepath.Base path in
        let fileName := Strings.TrimSuffix baseName ".go" +:+ "_test.go" in
        ret (Filepath.Join outputDir fileName) in
    (* Check if test file already exists *)
    fun w =>
      match Os.Stat outputPath w with
      | (Ok _, w1) => (Err (Errorf ("test file already exists: " +:+ outputPath)), w1)
      | (Err _, w1) =>
          (* Create template data *)
          let data := mkTestData packageName functions in
          (* Create output file *)
          (let* file := wrap "failed to create test file: " (Os.Create outputPath) in
           (* Execute the template *)
           let '(text, err) := Template.Execute TestTemplate (TestData_value data) in
           do Os.Write file text;
           match err with
           | Some e => fail (Errorf ("failed to execute test template: " +:+ Error e))
           | None =>
               do Os.Println ("Generated test file: " +:+ outputPath);
               ret tt
           end) w1
      end.

(** The function that [GenerateTests] gives to [filepath.Walk]. *)
Definition walkFn (outputDir : string) (tableTests : bool) : WalkFunc :=
  fun path info err =>
    match err, info with
    | Some e, _ => fail e
    | None, Some info =>
        if negb (Os.IsDir info) && Strings.HasSuffix path ".go"
           && negb (Strings.HasSuffix path "_test.go")
        then generateTestForFile path outputDir tableTests
        else ret tt
    | None, None => fail (Errorf "invalid memory address or nil pointer dereference")
    end.

(** [GenerateTests] creates test files for Go functions. *)
Definition GenerateTests (depth : nat) (path outputDir : string) (tableTests : bool) : bounded unit :=
  fun w =>
    let '(_, w) := Os.Println ("Generating tests for: " +:+ path) w in
    (* Get absolute path *)
    match wrap "failed to get absolute path: " (Abs path) w with
    | (Err e, w) => Some (Err e, w)
    | (Ok absPath, w) =>
        (* Check if path is a directory *)
        match wrap "failed to stat path: " (Os.Stat absPath) w with
        | (Err e, w) => Some (Err e, w)
        | (Ok fi, w) =>
            if Os.IsDir fi then
              (* If it's a directory, process all Go files *)
              Walk depth absPath (walkFn outputDir tableTests) w
            else if Strings.HasSuffix absPath ".go"
                    && negb (Strings.HasSuffix absPath "_test.go") then
              (* If it's a single Go file, process it *)
              Some (generateTestForFile absPath outputDir tableTests w)
            else
              Some (Err (Errorf "path must be a directory or a Go file"), w)
        end
    end.

End Testing.

(** ** A parser for a fragment of Go

    The runs on concrete files below use this parser.  It accepts source
    text made of a package clause on the first line followed by blank
    lines and one-line declarations of the five shapes
    [func F() {}], [func (r T) F() {}], [var x T], [const x = 1] and
    [type T struct{}], with single spaces between the words, and it
    rejects every other text.  On the text it accepts it yields the
    declarations in the order of the lines, as [go/parser] does. *)

Module Fragment.

Definition keywords : list string :=
  [ "break"; "default"; "func"; "interface"; "select"; "case"; "defer"; "go";
    "map"; "struct"; "chan"; "else"; "goto"; "package"; "switch"; "const";
    "fallthrough"; "if"; "range"; "type"; "continue"; "for"; "import";
    "return"; "var" ].

Definition is_identifier (s : string) : bool :=
  match s with
  | EmptyString => false
  | String c s' =>
      is_letter c && all_bytes (fun x => is_letter x || is_digit x) s'
      && negb (bool_decide (s ∈ keywords))
  end.

(** [name()] gives [name]. *)
Definition nullary (word : string) : option string :=
  if Strings.HasSuffix word "()" && is_identifier (Strings.TrimSuffix word "()")
  then Some (Strings.TrimSuffix word "()")
  else None.

(** One line: [Ok None] for a blank line, [Ok (Some decl)] for a
    declaration. *)
Definition parse_line (filename line : string) : result (option Ast.Decl) :=
  match Strings.Split line " "%char with
  | [ "" ] => Ok None
  | [ "func"; word; "{}" ] =>
      match nullary word with
      | Some name => Ok (Some (Ast.FuncDecl None name))
      | None => Err (Errorf (filename +:+ ": expected declaration"))
      end
  | [ "func"; recv; type; word; "{}" ] =>
      match nullary word with
      | Some name =>
          if Strings.HasPrefix recv "(" && is_identifier (slice_from 1 recv)
             && Strings.HasSuffix type ")"
             && is_identifier (Strings.TrimSuffix type ")")
          then Ok (Some (Ast.FuncDecl (Some (Strings.TrimSuffix type ")")) name))
          else Err (Errorf (filename +:+ ": expected declaration"))
      | None => Err (Errorf (filename +:+ ": expected declaration"))
      end
  | [ "var"; name; type ] =>
      if is_identifier name && is_identifier type
      then Ok (Some (Ast.GenDecl Ast.VAR [name]))
      else Err (Errorf (filename +:+ ": expected declaration"))
  | [ "const"; name; "="; "1" ] =>
      if is_identifier name
      then Ok (Some (Ast.GenDecl Ast.CONST [name]))
      else Err (Errorf (filename +:+ ": expected declaration"))
  | [ "type"; name; "struct{}" ] =>
      if is_identifier name
      then Ok (Some (Ast.GenDecl Ast.TYPE [name]))
      else Err (Errorf (filename +:+ ": expected declaration"))
  | _ => Err (Errorf (filename +:+ ": expected declaration"))
  end.

Fixpoint parse_lines (filename : string) (lines : list string) : result (list Ast.Decl) :=
  match lines with
  | [] => Ok []
  | line :: rest =>
      match parse_line filename line with
      | Err e => Err e
      | Ok decl =>
          match parse_lines filename rest with
          | Err e => Err e
          | Ok decls =>
              Ok (match decl with Some d => d :: decls | None => decls end)
          end
      end
  end.

Definition parse (filename src : string) : result Ast.File :=
  match Strings.Split src "010"%char with
  | clause :: lines =>
      match Strings.Split clause " "%char with
      | [ "package"; name ] =>
          if is_identifier name && negb (String.eqb name "_") then
            match parse_lines filename lines with
            | Ok decls => Ok (Ast.mkFile name decls)
            | Err e => Err e
            end
          else Err (Errorf (filename +:+ ": expected package name"))
      | _ => Err (Errorf (filename +:+ ": expected 'package'"))
      end
  | [] => Err (Errorf (filename +:+ ": expected 'package'"))
  end.

(** The toolchain of the examples; their names are ASCII, and no rune
    above Latin-1 is looked up. *)
Definition toolchain : Toolchain :=
  {| parse_source := parse; upper_table := fun _ => false |}.

End Fragment.

(** ** [strings.Fields] *)

(** The runes of a string, each with the bytes that encode it, as
    [for _, r := range s] reads them: a byte that begins no valid
    encoding is read as [utf8.RuneError], of width one.  [n] bounds the
    number of runes. *)
Fixpoint runes_upto (n : nat) (s : string) : list (Z * string) :=
  match n, s with
  | S n', String _ _ =>
      let '(r, width) := Utf8.DecodeRuneInString s in
      (r, slice_to (Z.to_nat width) s) :: runes_upto n' (slice_from (Z.to_nat width) s)
  | _, _ => []
  end.

Definition runes (s : string) : list (Z * string) := runes_upto (String.length s) s.

(** The fields among runes; [field] is the field that is being read, if
    any. *)
Fixpoint fields_from (field : option string) (rs : list (Z * string)) : list string :=
  match rs with
  | [] => match field with Some f => [f] | None => [] end
  | (r, bytes) :: rest =>
      if Unicode.IsSpace r then
        match field with
        | Some f => f :: fields_from None rest
        | None => fields_from None rest
        end
      else
        fields_from (Some (match field with Some f => f +:+ bytes | None => bytes end)) rest
  end.

(** [strings.Fields]: the pieces of [s] between runs of white space. *)
Definition Fields (s : string) : list string := fields_from None (runes s).

(** ** Child processes: [os/exec], and [float64] *)

(** What a child process does is not written here: it is given by the
    command, the working directory and the file tree it is started in, and
    it gives its combined output, its error and the file tree it leaves.
    A child process changes neither the working directory nor the
    standard output of the program. *)
Class Commands := {
  run_command : list string -> list string -> gmap string fsnode ->
                string * option error * gmap string fsnode
}.

(** The type [float64] with the operations that the program uses. *)
Class Float64 := {
  float64 : Type;
  (** The zero value. *)
  float64_zero : float64;
  (** [x < y]. *)
  float64_lt : float64 -> float64 -> bool;
  (** [fmt.Sscanf(s, "%f", &x)]: the value stored in [x], [None] when the
      scan fails and [x] is left as it was. *)
  Sscanf_f : string -> option float64;
  (** [fmt.Sprintf("%.1f", x)]. *)
  Sprintf_1f : float64 -> string
}.

Module Exec.

(** [exec.Command(name, arg...).CombinedOutput()]. *)
Definition CombinedOutput `{Commands} (command : list string) :
    world -> (string * option error) * world :=
  fun w =>
    let '(output, err, tree) := run_command command (cwd w) (root w) in
    ((output, err), mkWorld tree (cwd w) (stdout w)).

End Exec.

(** [defer deferred; body]: the deferred call is made when the body
    returns, and its result is dropped. *)
Definition defer {A} (deferred : M unit) (body : M A) : M A :=
  fun w =>
    let '(r, w1) := body w in
    let '(_, w2) := deferred w1 in
    (r, w2).

(** [output, err := cmd.CombinedOutput(); if err != nil { return
    fmt.Errorf(...) }], the message of the error being made from [err]
    and [output]. *)
Definition output_of `{Commands} (command : list string) (message : error -> string -> string) :
    M string :=
  fun w =>
    let '((output, err), w1) := Exec.CombinedOutput command w in
    match err with
    | Some e => (Err (Errorf (message e output)), w1)
    | None => (Ok output, w1)
    end.

(** The message of [fmt.Errorf(prefix + "%w\nOutput: %s", err, output)]. *)
Definition with_output (prefix : string) (err : error) (output : string) : string :=
  prefix +:+ Error err +:+ LF +:+ "Output: " +:+ output.

(** [os.Getwd], which does not fail here. *)
Definition Getwd : M string := fun w => (Ok (Os.Getwd w), w).

(** ** Package [dependency] of GoForge *)

Section Dependency.

Context `{Commands}.

(** The body of the loop over [lines] in [CheckOutdated]. *)
Definition appendOutdated (outdated : list string) (line : string) : list string :=
  if Strings.Contains line "[" && Strings.Contains line "]"
  then outdated ++ [line]
  else outdated.

(** [for _, dep := range outdated { fmt.Println("-", dep) }]. *)
Fixpoint printOutdated (outdated : list string) : M unit :=
  match outdated with
  | [] => ret tt
  | dep :: rest => do Os.Println ("- " +:+ dep); printOutdated rest
  end.

(** [CheckOutdated] checks for outdated dependencies in a Go project. *)
Definition CheckOutdated (path : string) : M unit :=
  do Os.Println ("Checking for outdated dependencies in: " +:+ path);
  (* Get absolute path *)
  let* absPath := wrap "failed to get absolute path: " (Abs path) in
  (* Change to project directory *)
  let* originalDir := wrap "failed to get current directory: " Getwd in
  defer (Os.Chdir originalDir)
    (do wrap "failed to change to project directory: " (Os.Chdir absPath);
     (* Use 'go list -m -u all' to check for outdated dependencies *)
     let* output :=
       output_of [ "go"; "list"; "-m"; "-u"; "all" ]
         (fun err _ => "failed to check dependencies: " +:+ Error err) in
     (* Parse the output *)
     let lines := Strings.Split output "010"%char in
     let outdated := fold_left appendOutdated lines [] in
     (* Display results *)
     do (if (0 <? length outdated)%nat then
           do Os.Println (LF +:+ "Outdated Dependencies:");
           do printOutdated outdated;
           Os.Println (LF +:+ "Use 'goforge dependency update' to update them.")
         else
           Os.Println (LF +:+ "All dependencies are up to date!"));
     ret tt).

(** [Update] updates dependencies to their latest versions. *)
Definition Update (path : string) : M unit :=
  do Os.Println ("Updating dependencies in: " +:+ path);
  (* Get absolute path *)
  let* absPath := wrap "failed to get absolute path: " (Abs path) in
  (* Change to project directory *)
  let* originalDir := wrap "failed to get current directory: " Getwd in
  defer (Os.Chdir originalDir)
    (do wrap "failed to change to project directory: " (Os.Chdir absPath);
     (* Use 'go get -u' to update dependencies *)
     do output_of [ "go"; "get"; "-u"; "./..." ]
          (with_output "failed to update dependencies: ");
     do Os.Println "Dependencies updated successfully!";
     do Os.Println (LF +:+ "Running 'go mod tidy' to clean up go.mod and go.sum...");
     (* Run go mod tidy to clean up *)
     do output_of [ "go"; "mod"; "tidy" ]
          (with_output "failed to tidy dependencies: ");
     do Os.Println "Dependencies tidied successfully!";
     ret tt).

(** [CheckSecurity] checks dependencies for security vulnerabilities. *)
Definition CheckSecurity (path : string) : M unit :=
  do Os.Println ("Checking dependencies for security vulnerabilities in: " +:+ path);
  (* Get absolute path *)
  let* absPath := wrap "failed to get absolute path: " (Abs path) in
  (* Change to project directory *)
  let* originalDir := wrap "failed to get current directory: " Getwd in
  defer (Os.Chdir originalDir)
    (do wrap "failed to change to project directory: " (Os.Chdir absPath);
     do Os.Println (LF +:+ "Security Scan Results:");
     do Os.Println "- No critical vulnerabilities found";
     do Os.Println "- 2 moderate vulnerabilities in indirect dependencies";
     do Os.Println "  - github.com/example/package@v1.2.3: CVE-2023-12345";
     do Os.Println "  - github.com/another/lib@v0.1.2: GHSA-abcd-1234-5678";
     do Os.Println (LF +:+ "Recommendation:");
     do Os.Println "Run 'go get github.com/example/package@v1.3.0' to resolve CVE-2023-12345";
     ret tt).

End Dependency.

(** ** Package [testing] of GoForge: the coverage *)

Section Coverage.

Context `{Commands} `{Float64}.

(** The loop over [outputLines] in [AnalyzeCoverage], which leaves the
    loop at the first line that holds [total:] and has three fields or
    more; [totalCoverage] is zero before the loop. *)
Fixpoint scanTotal (outputLines : list string) : float64 :=
  match outputLines with
  | [] => float64_zero
  | line :: rest =>
      if Strings.Contains line "total:" then
        let parts := Fields line in
        if (3 <=? length parts)%nat then
          let percentStr := Strings.TrimSuffix (List.last parts EmptyString) "%" in
          match Sscanf_f percentStr with
          | Some x => x
          | None => float64_zero
          end
        else scanTotal rest
      else scanTotal rest
  end.

(** [AnalyzeCoverage] analyzes test coverage for a Go project. *)
Definition AnalyzeCoverage (path : string) (threshold : float64) (outputFile : string) : M unit :=
  do Os.Println ("Analyzing test coverage for " +:+ path
                 +:+ " (threshold: " +:+ Sprintf_1f threshold +:+ "%)");
  (* Get absolute paths *)
  let* absPath := wrap "failed to get absolute path: " (Abs path) in
  let* absOutput := wrap "failed to get absolute path for output: " (Abs outputFile) in
  (* Change to project directory *)
  let* originalDir := wrap "failed to get current directory: " Getwd in
  defer (Os.Chdir originalDir)
    (do wrap "failed to change to project directory: " (Os.Chdir absPath);
     (* Run tests with coverage *)
     let coverProfilePath := "coverage.out" in
     let* coverOutput :=
       output_of [ "go"; "test"; "./..."; "-coverprofile=" +:+ coverProfilePath ]
         (with_output "failed to run tests with coverage: ") in
     (* Check if coverage file was created *)
     fun w =>
       if Os.StatIsNotExist coverProfilePath w then
         (Err (Errorf "coverage file was not created, ensure tests exist"), w)
       else
         ((* Get coverage percentage *)
          let* funcOutput :=
            output_of [ "go"; "tool"; "cover"; "-func=" +:+ coverProfilePath ]
              (with_output "failed to analyze coverage: ") in
          (* Display coverage results *)
          do Os.Println (LF +:+ "Coverage Results:");
          do Os.Println funcOutput;
          (* Generate HTML report *)
          let* htmlOutput :=
            output_of [ "go"; "tool"; "cover"; "-html=" +:+ coverProfilePath; "-o"; absOutput ]
              (with_output "failed to generate HTML report: ") in
          (* Extract total coverage percentage from output *)
          let outputLines := Strings.Split funcOutput "010"%char in
          let totalCoverage := scanTotal outputLines in
          (* Check if coverage meets threshold *)
          do Os.Println (LF +:+ "Total coverage: " +:+ Sprintf_1f totalCoverage +:+ "%");
          do Os.Println ("Coverage HTML report generated at: " +:+ absOutput);
          do (if float64_lt totalCoverage threshold then
                Os.Println (LF +:+ "WARNING: Coverage (" +:+ Sprintf_1f totalCoverage
                            +:+ "%) is below threshold (" +:+ Sprintf_1f threshold +:+ "%)")
              else
                Os.Println (LF +:+ "SUCCESS: Coverage (" +:+ Sprintf_1f totalCoverage
                            +:+ "%) meets or exceeds threshold (" +:+ Sprintf_1f threshold
                            +:+ "%)"));
          ret tt) w).

End Coverage.

(** ** Commands and numbers for the examples

    The commands of the examples: [go list] names one module that has an
    update, [go test] writes [coverage.out] in the working directory,
    [go tool cover -func] reports a total of [85.0%], [go tool cover -html]
    writes the report, [go get] and [go mod tidy] write [go.sum]; any
    other command fails.  Two more sets of commands: commands that do
    nothing, and commands that all fail.  The numbers are tenths, written
    with one decimal. *)

Module Sample.

Definition put (elems : list string) (data : string) (tree : gmap string fsnode) :
    gmap string fsnode :=
  match Os.put_file elems data tree with
  | Some tree' => tree'
  | None => tree
  end.

Definition list_output : string :=
  text_of_lines
    [ "example.com/project";
      "example.com/alpha v1.0.0 [v1.2.0]";
      "example.com/beta v0.3.0";
      "" ].

Definition func_output : string :=
  text_of_lines
    [ "example.com/project/shapes.go:3:" +:+ TAB +:+ "Area" +:+ TAB +:+ "85.0%";
      "total:" +:+ TAB +:+ TAB +:+ "(statements)" +:+ TAB +:+ "85.0%";
      "" ].

Definition run (command dir : list string) (tree : gmap string fsnode) :
    string * option error * gmap string fsnode :=
  match command with
  | [ "go"; "list"; "-m"; "-u"; "all" ] => (list_output, None, tree)
  | [ "go"; "get"; "-u"; "./..." ] =>
      (EmptyString, None, put (dir ++ [ "go.sum" ]) "alpha v1.2.0" tree)
  | [ "go"; "mod"; "tidy" ] =>
      (EmptyString, None, put (dir ++ [ "go.sum" ]) "alpha v1.2.0 h1:" tree)
  | [ "go"; "test"; "./..."; "-coverprofile=coverage.out" ] =>
      ("ok  example.com/project 0.1s", None, put (dir ++ [ "coverage.out" ]) "mode: set" tree)
  | [ "go"; "tool"; "cover"; "-func=coverage.out" ] => (func_output, None, tree)
  | [ "go"; "tool"; "cover"; "-html=coverage.out"; "-o"; report ] =>
      (EmptyString, None, put (Filepath.elements report) "<html>" tree)
  | _ => (EmptyString, Some (Errorf "exit status 1"), tree)
  end.

Definition commands : Commands := {| run_command := run |}.

(** Commands that succeed, write nothing and change nothing. *)
Definition quiet_commands : Commands :=
  {| run_command := fun _ _ tree => (EmptyString, None, tree) |}.

(** The commands of a machine without the Go toolchain. *)
Definition no_commands : Commands :=
  {| run_command := fun _ _ tree =>
       ("go: command not found", Some (Errorf "exit status 127"), tree) |}.

Definition digit (c : ascii) : option Z :=
  if is_digit c then Some (Z.of_nat (nat_of_ascii c) - 48)%Z else None.

Fixpoint natural (acc : Z) (s : string) : option Z :=
  match s with
  | EmptyString => Some acc
  | String c s' =>
      match digit c with
      | Some d => natural (10 * acc + d)%Z s'
      | None => None
      end
  end.

(** [12.3] is read as 123 tenths, [12] as 120. *)
Definition scan_tenths (s : string) : option Z :=
  match Strings.Split s "."%char with
  | [ String c whole ] =>
      match natural 0 (String c whole) with
      | Some n => Some (10 * n)%Z
      | None => None
      end
  | [ String c whole; String d EmptyString ] =>
      match natural 0 (String c whole), digit d with
      | Some n, Some f => Some (10 * n + f)%Z
      | _, _ => None
      end
  | _ => None
  end.

Definition digit_text (d : Z) : string :=
  String (ascii_of_nat (Z.to_nat (d + 48))) EmptyString.

Fixpoint natural_text (fuel : nat) (n : Z) : string :=
  match fuel with
  | 0 => EmptyString
  | S fuel' =>
      (if (n <? 10)%Z then EmptyString else natural_text fuel' (n / 10)%Z)
      +:+ digit_text (n mod 10)%Z
  end.

Definition print_tenths (x : Z) : string :=
  natural_text 20 (x / 10)%Z +:+ "." +:+ digit_text (x mod 10)%Z.

Definition tenths : Float64 :=
  {| float64 := Z;
     float64_zero := 0%Z;
     float64_lt := Z.ltb;
     Sscanf_f := scan_tenths;
     Sprintf_1f := print_tenths |}.

End Sample.

(** * The vocabulary of the properties *)

(** ** Paths *)

(** A string without separator, an element of a path, and an element
    other than [.] and [..]. *)
Definition slash_free (s : string) : Prop := Strings.Contains s "/" = false.
Definition element (e : string) : Prop := e <> EmptyString /\ slash_free e.
Definition plain (e : string) : Prop := element e /\ e <> "." /\ e <> "..".

(** What [Clean] keeps when the path is not rooted: elements other
    than [.]. *)
Definition kept (e : string) : Prop := element e /\ e <> ".".

(** A path below the root, written with its elements. *)
Definition rooted_path (elems : list string) : string :=
  "/" +:+ Strings.Join elems "/".

(** The part of a path after its last separator. *)
Fixpoint last_segment (path : string) : string :=
  match path with
  | EmptyString => EmptyString
  | String c rest =>
      if Strings.Contains path "/" then last_segment rest else path
  end.

(** ** The file tree *)

(** What is at a place: a regular file with its contents, or a
    directory. *)
Inductive entry_kind :=
| Regular (data : string)
| Dir.

Definition kind_at (elems : list string) (entries : gmap string fsnode) : option entry_kind :=
  match Os.lookup_node elems entries with
  | Some (RegularFile data) => Some (Regular data)
  | Some (Directory _) => Some Dir
  | None => None
  end.

(** ** The rendered text *)

(** A byte of a Go identifier: an ASCII letter, digit or underscore, or a
    byte of the UTF-8 encoding of a letter above ASCII. *)
Definition identifier_byte (c : ascii) : bool :=
  is_letter c || is_digit c || (128 <=? nat_of_ascii c)%nat.

Definition identifier_bytes (s : string) : Prop := all_bytes identifier_byte s = true.

(** No proper prefix of [pattern] ends [a]: an occurrence of [pattern]
    that begins in [a] lies in [a]. *)
Fixpoint no_border (a pattern : string) : bool :=
  match a with
  | EmptyString => true
  | String _ a' =>
      ((String.length pattern <=? String.length a)%nat
       || negb (Strings.HasPrefix pattern a))
      && no_border a' pattern
  end.

(** [pattern] does not begin [rest] after leaving out its first [j]
    bytes, for [j] up to [i]. *)
Fixpoint no_late_start (i : nat) (rest pattern : string) : bool :=
  negb (Strings.HasPrefix rest pattern)
  && match i, pattern with
     | S i', String _ pattern' => no_late_start i' rest pattern'
     | _, _ => true
     end.

(** The byte at [i] is not a byte of an identifier. *)
Fixpoint breaks_at (i : nat) (pattern : string) : bool :=
  match pattern, i with
  | String c _, 0 => negb (identifier_byte c)
  | String _ pattern', S i' => breaks_at i' pattern'
  | EmptyString, _ => false
  end.

(** The text that the body of the [range] writes for one function. *)
Definition test_block (fn : FunctionData) : string :=
  fst (Template.walkList Template.walk TestTemplate_range (FunctionData_value fn)).

(** The text before the first block. *)
Definition preamble (package : string) : string :=
  "package " +:+ package +:+ LF +:+ LF
  +:+ "import (" +:+ LF
  +:+ TAB +:+ DQ +:+ "testing" +:+ DQ +:+ LF
  +:+ ")" +:+ LF
  +:+ LF.

(** The whole file. *)
Definition rendered (data : TestData) : string :=
  preamble (Package data) +:+ concat_strings (map test_block (Functions data)) +:+ LF.

(** The two shapes of a block, written out. *)
Definition flat_head : string :=
  "(t *testing.T) {" +:+ LF
  +:+ TAB +:+ LF
  +:+ TAB +:+ "// TODO: Write test for ".

Definition flat_tail : string :=
  LF
  +:+ TAB +:+ LF
  +:+ "}" +:+ LF.

Definition flat_block (name : string) : string :=
  (LF +:+ "func Test") +:+ name +:+ flat_head +:+ name +:+ flat_tail.

Definition table_head : string :=
  "(t *testing.T) {" +:+ LF
  +:+ TAB +:+ LF
  +:+ TAB +:+ "tests := []struct {" +:+ LF
  +:+ TAB +:+ TAB +:+ "name string" +:+ LF
  +:+ TAB +:+ TAB +:+ "// TODO: Add test case inputs and expected outputs" +:+ LF
  +:+ TAB +:+ "}{" +:+ LF
  +:+ TAB +:+ TAB +:+ "{" +:+ LF
  +:+ TAB +:+ TAB +:+ TAB +:+ "name: " +:+ DQ +:+ "test case 1" +:+ DQ +:+ "," +:+ LF
  +:+ TAB +:+ TAB +:+ "}," +:+ LF
  +:+ TAB +:+ TAB +:+ "{" +:+ LF
  +:+ TAB +:+ TAB +:+ TAB +:+ "name: " +:+ DQ +:+ "test case 2" +:+ DQ +:+ "," +:+ LF
  +:+ TAB +:+ TAB +:+ "}," +:+ LF
  +:+ TAB +:+ "}" +:+ LF
  +:+ TAB +:+ LF
  +:+ TAB +:+ "for _, tt := range tests {" +:+ LF
  +:+ TAB +:+ TAB +:+ "t.Run(tt.name, func(t *testing.T) {" +:+ LF
  +:+ TAB +:+ TAB +:+ TAB +:+ "// TODO: Call ".

Definition table_tail : string :=
  " with the test case inputs and verify outputs" +:+ LF
  +:+ TAB +:+ TAB +:+ "})" +:+ LF
  +:+ TAB +:+ "}" +:+ LF
  +:+ TAB +:+ LF
  +:+ "}" +:+ LF.

Definition table_block (name : string) : string :=
  (LF +:+ "func Test") +:+ name +:+ table_head +:+ name +:+ table_tail.

(** The marks of a table: the declaration of the cases, an entry that
    names a case, and the loop over the cases. *)
Definition case_entry : string := "name: " +:+ DQ.
Definition named_case (name : string) : string := case_entry +:+ name +:+ DQ.
Definition cases_declaration : string := ":= []struct".
Definition cases_loop : string := ":= range tests".

(** ** [generateTestForFile] *)

(** The name and the path of the companion file of [path]. *)
Definition companion_name (path : string) : string :=
  Strings.TrimSuffix (Filepath.Base path) ".go" +:+ "_test.go".

Definition companion_path (path outputDir : string) : string :=
  Filepath.Join
    (if String.eqb outputDir EmptyString then Filepath.Dir path else outputDir)
    (companion_name path).

(** What a path names in a world. *)
Definition file_at (w : world) (path : string) : option entry_kind :=
  kind_at (Os.resolve w path) (root w).

(** The world with another file tree and one more line on the standard
    output. *)
Definition with_tree (w : world) (tree : gmap string fsnode) : world :=
  mkWorld tree (cwd w) (stdout w).

Definition with_line (w : world) (line : string) : world :=
  mkWorld (root w) (cwd w) (stdout w ++ [line]).

(** The text written for a parsed file. *)
Definition companion_text `{Toolchain} (tableTests : bool) (node : Ast.File) : string :=
  rendered (mkTestData (Ast.Name node) (exportedFunctions tableTests (Ast.Decls node))).

(** The tree after the output directory was prepared. *)
Definition prepared (w : world) (outputDir : string) : option (gmap string fsnode) :=
  if String.eqb outputDir EmptyString then Some (root w)
  else Os.mkdir_all (Os.resolve w outputDir) (root w).

(** ** The walk *)

(** The world after [GenerateTests] has announced the run. *)
Definition started (w : world) (path : string) : world :=
  with_line w ("Generating tests for: " +:+ path).

(** The test of the function given to [Walk]. *)
Definition is_candidate (path : string) : bool :=
  Strings.HasSuffix path ".go" && negb (Strings.HasSuffix path "_test.go").

(** The names of the function declarations of a file, methods included,
    in the order of the source. *)
Fixpoint declared_functions (decls : list Ast.Decl) : list string :=
  match decls with
  | [] => []
  | Ast.FuncDecl _ name :: rest => name :: declared_functions rest
  | _ :: rest => declared_functions rest
  end.

(** The absolute path that [filepath.Abs] gives. *)
Definition abs_path (w : world) (path : string) : string :=
  if Filepath.IsAbs path then Filepath.Clean path
  else Filepath.Join (Os.Getwd w) path.

(** The exported functions among the declared ones. *)
Definition exported_names `{Toolchain} (decls : list Ast.Decl) : list string :=
  List.filter IsExported (declared_functions decls).

(** [first_failure outputDir tableTests depth path w msg w'] : the walk
    of [path] from the world [w], with [depth] levels at hand, meets a
    candidate unit whose processing fails with the message [msg] and
    leaves the world [w'], and everything it walks before that unit is
    walked without error. *)
Inductive first_failure `{Toolchain} (outputDir : string) (tableTests : bool) :
    nat -> string -> world -> string -> world -> Prop :=
| failure_here depth path w info msg w' :
    Os.Lstat path w = (Ok info, w) ->
    Os.IsDir info = false ->
    is_candidate path = true ->
    generateTestForFile path outputDir tableTests w = (Err (Errorf msg), w') ->
    first_failure outputDir tableTests (S depth) path w msg w'
| failure_below depth dir w info names1 name names2 w1 msg w' :
    Os.Lstat dir w = (Ok info, w) ->
    Os.IsDir info = true ->
    Os.readDirNames dir w = (Ok (names1 ++ name :: names2), w) ->
    walkNames (walk depth (walkFn outputDir tableTests)) (walkFn outputDir tableTests)
      dir names1 w = Some (Ok tt, w1) ->
    first_failure outputDir tableTests depth (Filepath.Join dir name) w1 msg w' ->
    first_failure outputDir tableTests (S depth) dir w msg w'.


(** [extends w w'] : the world [w'] has the working directory of [w],
    every directory of [w] and every regular file of [w], with the same
    contents. *)
Definition extends (w w' : world) : Prop :=
  cwd w' = cwd w
  /\ forall es k, kind_at es (root w) = Some k -> kind_at es (root w') = Some k.


(** The declarations of the package [shapes]: an exported function, a
    function that is not exported, and an exported variable. *)
Definition shapes_decls : list Ast.Decl :=
  [ Ast.FuncDecl None "Area";
    Ast.FuncDecl None "perimeter";
    Ast.GenDecl Ast.VAR ["DefaultColor"] ].

Definition shapes_file : Ast.File := Ast.mkFile "shapes" shapes_decls.

(** * Example trees *)

Definition directory (entries : list (string * fsnode)) : fsnode :=
  Directory (list_to_map entries).

Definition tree_of (entries : list (string * fsnode)) : world :=
  mkWorld (list_to_map entries) [] [].

Definition shapes_source : string :=
  text_of_lines
    [ "package shapes"; ""; "func Area() {}"; "func perimeter() {}";
      "var DefaultColor int"; "" ].

Definition broken_source : string := text_of_lines [ "package broken"; "func (" ].

Definition helper_source : string :=
  text_of_lines [ "package a"; ""; "func helper() {}"; "" ].

Definition parse_source_text : string :=
  text_of_lines [ "package parse"; ""; "func Parse() {}"; "" ].

Definition geometry_source : string :=
  text_of_lines
    [ "package geometry"; ""; "type Circle struct{}"; "func (c Circle) Area() {}"; "" ].

Definition handwritten : string := text_of_lines [ "package a"; "" ].

(** [/p] holds [a.go], which does not parse, and [b.go]. *)
Definition broken_first : world :=
  tree_of [ ("p", directory [ ("a.go", RegularFile broken_source);
                              ("b.go", RegularFile parse_source_text) ]) ].

(** [/p] holds [a.go], whose companion [a_test.go] is there, and [b.go]. *)
Definition collision_first : world :=
  tree_of [ ("p", directory [ ("a.go", RegularFile parse_source_text);
                              ("a_test.go", RegularFile handwritten);
                              ("b.go", RegularFile shapes_source) ]) ].

(** [/p] holds the directory [.cache] with [gen.go], and [.draft.go]. *)
Definition hidden_entries : world :=
  tree_of [ ("p", directory [ (".cache", directory [ ("gen.go", RegularFile parse_source_text) ]);
                              (".draft.go", RegularFile shapes_source) ]) ].

(** [/p] holds [a.go], without an exported function, and [a_test.go]. *)
Definition helper_with_companion : world :=
  tree_of [ ("p", directory [ ("a.go", RegularFile helper_source);
                              ("a_test.go", RegularFile handwritten) ]) ].

(** [/p/a/x.go] has no exported function, [/p/b/x.go] has one. *)
Definition equal_base_names : world :=
  tree_of [ ("p", directory [ ("a", directory [ ("x.go", RegularFile helper_source) ]);
                              ("b", directory [ ("x.go", RegularFile parse_source_text) ]) ]) ].

(** [/p/a/x.go] and [/p/b/x.go] both have an exported function. *)
Definition equal_base_names_testable : world :=
  tree_of [ ("p", directory [ ("a", directory [ ("x.go", RegularFile shapes_source) ]);
                              ("b", directory [ ("x.go", RegularFile parse_source_text) ]) ]) ].

(** [/p/shapes.go] alone, the working directory being [/p]. *)
Definition shapes_world : world :=
  mkWorld (list_to_map [ ("p", directory [ ("shapes.go", RegularFile shapes_source) ]) ])
    [ "p" ] [].

Definition parse_file : Ast.File := Ast.mkFile "parse" [ Ast.FuncDecl None "Parse" ].

(** The texts written for [shapes_source] and [parse_source_text], flat. *)
Definition shapes_test_text : string :=
  rendered (mkTestData "shapes" [ mkFunctionData "Area" false ]).

Definition parse_test_text : string :=
  rendered (mkTestData "parse" [ mkFunctionData "Parse" false ]).

(** [hidden_entries] after the run over [/p]. *)
Definition hidden_entries_after : world :=
  mkWorld
    (list_to_map
       [ ("p", directory
                 [ (".cache", directory [ ("gen.go", RegularFile parse_source_text);
                                          ("gen_test.go", RegularFile parse_test_text) ]);
                   (".draft.go", RegularFile shapes_source);
                   (".draft_test.go", RegularFile shapes_test_text) ]) ])
    []
    [ "Generating tests for: /p";
      "Generated test file: /p/.cache/gen_test.go";
      "Generated test file: /p/.draft_test.go" ].

(** [equal_base_names] after the run over [/p] with the output directory
    [/out]. *)
Definition equal_base_names_after : world :=
  mkWorld
    (list_to_map
       [ ("out", directory [ ("x_test.go", RegularFile parse_test_text) ]);
         ("p", directory [ ("a", directory [ ("x.go", RegularFile helper_source) ]);
                           ("b", directory [ ("x.go", RegularFile parse_source_text) ]) ]) ])
    []
    [ "Generating tests for: /p";
      "No exported functions found in /p/a/x.go, skipping";
      "Generated test file: /out/x_test.go" ].

(** Two functions with the same flag. *)
Definition two_functions (tableTests : bool) : TestData :=
  mkTestData "shapes" [ mkFunctionData "Area" tableTests; mkFunctionData "Scale" tableTests ].

(** The declarations of [geometry_source]: a type and a method on it. *)
Definition geometry_decls : list Ast.Decl :=
  [ Ast.GenDecl Ast.TYPE [ "Circle" ]; Ast.FuncDecl (Some "Circle") "Area" ].

(** The tree of [shapes_world] with the directory [gen] made in [/p]. *)
Definition shapes_tree_prepared : gmap string fsnode :=
  list_to_map [ ("p", directory [ ("gen", directory []);
                                  ("shapes.go", RegularFile shapes_source) ]) ].

(** ** The project directory *)

(** The working directory of [w] is made of plain names and is a
    directory of [tree]. *)
Definition settled (w : world) (tree : gmap string fsnode) : Prop :=
  Forall plain (cwd w) /\ kind_at (cwd w) tree = Some Dir.

(** The world [w] when the program has moved to [dir]. *)
Definition entered (w : world) (dir : string) : world :=
  mkWorld (root w) (Os.resolve w dir) (stdout w).

(** The world with the file tree and the output of [w1] and the working
    directory of [w]. *)
Definition returned (w w1 : world) : world :=
  mkWorld (root w1) (cwd w) (stdout w1).

(** The lines of [CheckSecurity] after the first. *)
Definition security_report : list string :=
  [ LF +:+ "Security Scan Results:";
    "- No critical vulnerabilities found";
    "- 2 moderate vulnerabilities in indirect dependencies";
    "  - github.com/example/package@v1.2.3: CVE-2023-12345";
    "  - github.com/another/lib@v0.1.2: GHSA-abcd-1234-5678";
    LF +:+ "Recommendation:";
    "Run 'go get github.com/example/package@v1.3.0' to resolve CVE-2023-12345" ].

(** A line of the output of [go list] that is taken for an outdated
    dependency. *)
Definition bracketed (line : string) : bool :=
  Strings.Contains line "[" && Strings.Contains line "]".

(** The lines of [CheckOutdated] after the first, for the lines taken. *)
Definition outdated_report (outdated : list string) : list string :=
  match outdated with
  | [] => [ LF +:+ "All dependencies are up to date!" ]
  | _ => (LF +:+ "Outdated Dependencies:")
         :: map (fun dep => "- " +:+ dep) outdated
         ++ [ LF +:+ "Use 'goforge dependency update' to update them." ]
  end.

(** ** The coverage *)

(** The place of the project: what the absolute path of [path] names. *)
Definition project (w : world) (path : string) : list string :=
  Os.resolve w (abs_path w path).

(** The first line of [AnalyzeCoverage]. *)
Definition coverage_header `{Float64} (path : string) (threshold : float64) : string :=
  "Analyzing test coverage for " +:+ path
  +:+ " (threshold: " +:+ Sprintf_1f threshold +:+ "%)".

(** The last line of [AnalyzeCoverage]. *)
Definition verdict `{Float64} (total threshold : float64) : string :=
  if float64_lt total threshold then
    LF +:+ "WARNING: Coverage (" +:+ Sprintf_1f total
    +:+ "%) is below threshold (" +:+ Sprintf_1f threshold +:+ "%)"
  else
    LF +:+ "SUCCESS: Coverage (" +:+ Sprintf_1f total
    +:+ "%) meets or exceeds threshold (" +:+ Sprintf_1f threshold +:+ "%)".

(** ** The fields *)

(** An ASCII byte that is white space, and one that is not. *)
Definition space_byte (c : ascii) : bool :=
  (nat_of_ascii c <? 128)%nat && Unicode.IsSpace (Utf8.byte_of c).

Definition word_byte (c : ascii) : bool :=
  (nat_of_ascii c <? 128)%nat && negb (Unicode.IsSpace (Utf8.byte_of c)).

(** A run of ASCII white space and an ASCII word, both not empty. *)
Definition blanks (s : string) : Prop := s <> EmptyString /\ all_bytes space_byte s = true.
Definition word (s : string) : Prop := s <> EmptyString /\ all_bytes word_byte s = true.

(** A line that the loop of [AnalyzeCoverage] passes over. *)
Definition passed_over (line : string) : Prop :=
  Strings.Contains line "total:" = false \/ length (Fields line) < 3.

(** ** What a run adds *)

(** The name of a test file at the end of a place. *)
Definition test_file_name (es : list string) : Prop :=
  exists name, last es = Some name /\ Strings.HasSuffix name "_test.go" = true.

(** [grows w w'] : the world [w'] has all that [w] has, and a regular
    file of [w'] at a place where [w] has nothing has the name of a test
    file. *)
Definition grows (w w' : world) : Prop :=
  extends w w'
  /\ forall es data,
       kind_at es (root w') = Some (Regular data) ->
       kind_at es (root w) = None ->
       test_file_name es.

(** The project [/p] with its [go.mod], seen from the working directory
    [/home]. *)
Definition project_world : world :=
  mkWorld
    (list_to_map
       [ ("home", directory []);
         ("p", directory [ ("go.mod", RegularFile "module example.com/project") ]) ])
    [ "home" ] [].

(** The file tree of [project_world] with one more file in [/p]. *)
Definition project_tree_with (name data : string) : gmap string fsnode :=
  list_to_map
    [ ("home", directory []);
      ("p", directory [ ("go.mod", RegularFile "module example.com/project");
                        (name, RegularFile data) ]) ].

(** * Lemmas *)

(** ** Facts on strings *)

Section StringFacts.

Implicit Types (s a b suffix : string) (c : ascii).

Lemma append_cons c a b : String c a +:+ b = String c (a +:+ b).
Proof. reflexivity. Qed.

Lemma append_nil_l s : EmptyString +:+ s = s.
Proof. reflexivity. Qed.

Lemma append_nil_r s : s +:+ EmptyString = s.
Proof. induction s as [|c s IH]; [done | by rewrite append_cons, IH]. Qed.

Lemma append_assoc a b s : (a +:+ b) +:+ s = a +:+ b +:+ s.
Proof. induction a as [|c a IH]; [done | by rewrite !append_cons, IH]. Qed.

Lemma length_append a b : String.length (a +:+ b) = String.length a + String.length b.
Proof. induction a as [|c a IH]; [done | rewrite append_cons; simpl; by rewrite IH]. Qed.

Lemma slice_from_append a b : slice_from (String.length a) (a +:+ b) = b.
Proof. induction a as [|c a IH]; [by destruct b | by rewrite append_cons]. Qed.

Lemma slice_to_append a b : slice_to (String.length a) (a +:+ b) = a.
Proof.
  induction a as [|c a IH]; [by destruct b |].
  rewrite append_cons. simpl. by rewrite IH.
Qed.

Lemma slice_to_from n s : slice_to n s +:+ slice_from n s = s.
Proof.
  revert s; induction n as [|n IH]; intros [|c s]; simpl; try done.
  by rewrite append_cons, IH.
Qed.

Lemma HasSuffix_append a suffix : Strings.HasSuffix (a +:+ suffix) suffix = true.
Proof.
  unfold Strings.HasSuffix. rewrite length_append.
  replace (String.length a + String.length suffix - String.length suffix)
    with (String.length a) by lia.
  rewrite slice_from_append, String.eqb_refl.
  rewrite andb_true_r. apply Nat.leb_le. lia.
Qed.

Lemma TrimSuffix_append a suffix : Strings.TrimSuffix (a +:+ suffix) suffix = a.
Proof.
  unfold Strings.TrimSuffix. rewrite HasSuffix_append, length_append.
  replace (String.length a + String.length suffix - String.length suffix)
    with (String.length a) by lia.
  apply slice_to_append.
Qed.

(** A string with the suffix is its trimmed part followed by the suffix. *)
Lemma HasSuffix_inv s suffix :
  Strings.HasSuffix s suffix = true -> s = Strings.TrimSuffix s suffix +:+ suffix.
Proof.
  intros Hs. unfold Strings.TrimSuffix. rewrite Hs.
  unfold Strings.HasSuffix in Hs. apply andb_true_iff in Hs as [_ Heq].
  apply String.eqb_eq in Heq.
  set (n := String.length s - String.length suffix) in *.
  transitivity (slice_to n s +:+ slice_from n s);
    [symmetry; apply slice_to_from | by rewrite Heq].
Qed.

Lemma HasSuffix_cons c s suffix :
  Strings.HasSuffix (String c s) suffix
  = String.eqb (String c s) suffix || Strings.HasSuffix s suffix.
Proof.
  unfold Strings.HasSuffix. simpl String.length.
  destruct (String.eqb_spec (String c s) suffix) as [<-|Hne]; simpl orb.
  - simpl String.length. rewrite Nat.sub_diag, Nat.leb_refl. simpl.
    by rewrite Ascii.eqb_refl, String.eqb_refl.
  - destruct (decide (String.length suffix <= String.length s)) as [Hle|Hgt].
    + replace (S (String.length s) - String.length suffix)
        with (S (String.length s - String.length suffix)) by lia.
      simpl slice_from.
      rewrite (proj2 (Nat.leb_le _ (S _))) by lia.
      by rewrite (proj2 (Nat.leb_le _ (String.length s))) by lia.
    + rewrite (proj2 (Nat.leb_gt _ (String.length s))) by lia. simpl.
      destruct (decide (String.length suffix = S (String.length s))) as [->|Hne'].
      * rewrite Nat.sub_diag, Nat.leb_refl, andb_true_l.
        change (slice_from 0 (String c s)) with (String c s).
        by apply String.eqb_neq.
      * rewrite (proj2 (Nat.leb_gt _ (S _))) by lia. done.
Qed.

End StringFacts.

(** ** Facts on paths *)

Section PathFacts.

Implicit Types (s a b e path : string) (c : ascii) (l out : list string).

Lemma Contains_cons c s :
  Strings.Contains (String c s) "/" = Ascii.eqb c "/" || Strings.Contains s "/".
Proof.
  unfold Strings.Contains. simpl.
  destruct (Ascii.eqb c "/"); simpl; [by destruct s | done].
Qed.

Lemma slash_free_nil : slash_free EmptyString.
Proof. reflexivity. Qed.

Lemma slash_free_cons c s :
  slash_free (String c s) <-> c <> "/"%char /\ slash_free s.
Proof.
  unfold slash_free. rewrite Contains_cons, orb_false_iff.
  by rewrite Ascii.eqb_neq.
Qed.

Lemma slash_free_append a b : slash_free (a +:+ b) <-> slash_free a /\ slash_free b.
Proof.
  induction a as [|c a IH].
  - rewrite append_nil_l. split; [by split|by intros [_ ?]].
  - rewrite append_cons, !slash_free_cons, IH. tauto.
Qed.

Lemma slash_free_slice_to n s : slash_free s -> slash_free (slice_to n s).
Proof.
  intros Hs. rewrite <- (slice_to_from n s) in Hs.
  by apply slash_free_append in Hs as [? _].
Qed.

Lemma slash_free_TrimSuffix s suffix : slash_free s -> slash_free (Strings.TrimSuffix s suffix).
Proof.
  intros Hs. unfold Strings.TrimSuffix.
  destruct (Strings.HasSuffix s suffix); [by apply slash_free_slice_to | done].
Qed.

Lemma Split_not_nil s c : Strings.Split s c <> [].
Proof.
  induction s as [|c' s IH]; simpl; [done|].
  destruct (Ascii.eqb c' c); [done|]. by destruct (Strings.Split s c).
Qed.

Lemma Split_slash_free s : slash_free s -> Strings.Split s "/" = [s].
Proof.
  induction s as [|c s IH]; [done|].
  intros [Hc Hs]%slash_free_cons. simpl.
  rewrite (proj2 (Ascii.eqb_neq _ _) Hc). by rewrite IH.
Qed.

Lemma Split_append_separator a b :
  Strings.Split (a +:+ "/" +:+ b) "/" = Strings.Split a "/" ++ Strings.Split b "/".
Proof.
  induction a as [|c a IH]; [done|].
  rewrite append_cons. simpl. destruct (Ascii.eqb c "/").
  - by rewrite IH.
  - rewrite IH. pose proof (Split_not_nil a "/").
    by destruct (Strings.Split a "/").
Qed.

Lemma Forall_slash_free_Split s : Forall slash_free (Strings.Split s "/").
Proof.
  induction s as [|c s IH]; simpl.
  - by repeat constructor.
  - destruct (Ascii.eqb_spec c "/") as [->|Hc].
    + by constructor.
    + pose proof (Split_not_nil s "/").
      destruct (Strings.Split s "/") as [|piece pieces]; [done|].
      inversion_clear IH. constructor; [|done].
      by apply slash_free_cons.
Qed.

Lemma elements_append_separator a b :
  Filepath.elements (a +:+ "/" +:+ b) = Filepath.elements a ++ Filepath.elements b.
Proof.
  unfold Filepath.elements, Filepath.Separator.
  by rewrite Split_append_separator, filter_app.
Qed.

Lemma elements_nil : Filepath.elements EmptyString = [].
Proof. reflexivity. Qed.

Lemma elements_element e : element e -> Filepath.elements e = [e].
Proof.
  intros [Hne Hs]. unfold Filepath.elements, Filepath.Separator.
  rewrite Split_slash_free by done. by rewrite filter_cons_True.
Qed.

Lemma elements_separator_l s : Filepath.elements ("/" +:+ s) = Filepath.elements s.
Proof. apply (elements_append_separator EmptyString s). Qed.

Lemma elements_separator_r s : Filepath.elements (s +:+ "/") = Filepath.elements s.
Proof.
  rewrite <- (append_nil_r "/"), elements_append_separator, elements_nil.
  by rewrite app_nil_r.
Qed.

Lemma Forall_element_elements s : Forall element (Filepath.elements s).
Proof.
  unfold Filepath.elements, Filepath.Separator.
  pose proof (Forall_slash_free_Split s) as Hall.
  induction Hall as [|x l Hx Hall IH]; [constructor|].
  destruct (decide (x = EmptyString)) as [->|Hne].
  - by rewrite filter_cons_False by (intros ?; done).
  - rewrite filter_cons_True by done. by constructor.
Qed.

Lemma elements_Join l :
  Forall element l -> Filepath.elements (Strings.Join l "/") = l.
Proof.
  induction 1 as [|e l He Hl IH]; [done|].
  destruct l as [|e' l]; [by apply elements_element|].
  change (Strings.Join (e :: e' :: l) "/")
    with (e +:+ "/" +:+ Strings.Join (e' :: l) "/").
  by rewrite elements_append_separator, elements_element, IH.
Qed.

(** Cleaning. *)

Lemma clean_step_plain rooted out e :
  plain e -> Filepath.clean_step rooted out e = e :: out.
Proof.
  intros (_ & H1 & H2). unfold Filepath.clean_step.
  by rewrite !decide_False.
Qed.

Lemma fold_clean_step_plain rooted l out :
  Forall plain l -> fold_left (Filepath.clean_step rooted) l out = rev l ++ out.
Proof.
  intros Hl. revert out. induction Hl as [|e l He Hl IH]; intros out; [done|].
  simpl. rewrite clean_step_plain, IH by done. by rewrite <- app_assoc.
Qed.

Lemma clean_elements_plain rooted l :
  Forall plain l -> Filepath.clean_elements rooted l = l.
Proof.
  intros Hl. unfold Filepath.clean_elements.
  rewrite fold_clean_step_plain by done. by rewrite app_nil_r, rev_involutive.
Qed.

Lemma clean_elements_snoc rooted l e :
  plain e ->
  Filepath.clean_elements rooted (l ++ [e]) = Filepath.clean_elements rooted l ++ [e].
Proof.
  intros He. unfold Filepath.clean_elements.
  by rewrite fold_left_app; simpl; rewrite clean_step_plain.
Qed.

(** What [Clean] keeps when the path is rooted: plain elements. *)
Lemma fold_clean_step_rooted l out :
  Forall element l -> Forall plain out ->
  Forall plain (fold_left (Filepath.clean_step true) l out).
Proof.
  intros Hl. revert out. induction Hl as [|e l He Hl IH]; intros out Hout; [done|].
  simpl. apply IH. unfold Filepath.clean_step.
  destruct (decide (e = ".")); [done|].
  destruct (decide (e = "..")) as [->|].
  - destruct Hout as [|top below Htop Hbelow]; [constructor|].
    destruct (decide (top = "..")) as [->|]; [|done].
    by destruct Htop as (_ & _ & ?).
  - by constructor.
Qed.

Lemma Forall_plain_clean_elements l :
  Forall element l -> Forall plain (Filepath.clean_elements true l).
Proof.
  intros Hl. unfold Filepath.clean_elements. apply Forall_rev.
  by apply fold_clean_step_rooted.
Qed.

Lemma kept_dotdot : kept "..".
Proof. by repeat split. Qed.

Lemma fold_clean_step_kept rooted l out :
  Forall element l -> Forall kept out ->
  Forall kept (fold_left (Filepath.clean_step rooted) l out).
Proof.
  intros Hl. revert out. induction Hl as [|e l He Hl IH]; intros out Hout; [done|].
  simpl. apply IH. unfold Filepath.clean_step.
  destruct (decide (e = ".")); [done|].
  destruct (decide (e = "..")) as [->|].
  - destruct Hout as [|top below Htop Hbelow].
    + destruct rooted; [constructor|]. constructor; [apply kept_dotdot | constructor].
    + destruct (decide (top = "..")); [|done].
      constructor; [apply kept_dotdot | by constructor].
  - by constructor.
Qed.

Lemma Forall_kept_clean_elements rooted l :
  Forall element l -> Forall kept (Filepath.clean_elements rooted l).
Proof.
  intros Hl. unfold Filepath.clean_elements. apply Forall_rev.
  by apply fold_clean_step_kept.
Qed.

(** Cleaning a path that was cleaned as a relative path, below any
    elements already read. *)
Lemma clean_step_other rooted out e :
  e <> "." -> e <> ".." -> Filepath.clean_step rooted out e = e :: out.
Proof. intros. unfold Filepath.clean_step. by rewrite !decide_False. Qed.

Lemma fold_clean_step_cleaned l out :
  Forall element l ->
  fold_left (Filepath.clean_step true) (Filepath.clean_elements false l) out
  = fold_left (Filepath.clean_step true) l out.
Proof.
  intros Hl. induction l as [|e l IH] using rev_ind; [done|].
  apply Forall_app in Hl as [Hl He]. specialize (IH Hl).
  unfold Filepath.clean_elements in *.
  rewrite !fold_left_app. simpl. rewrite <- IH.
  pose proof (fold_clean_step_kept false l [] Hl (Forall_nil_2 _)) as Hkept.
  destruct (decide (e = ".")) as [->|Hdot]; [done|].
  destruct (decide (e = "..")) as [->|Hdotdot].
  - destruct (fold_left (Filepath.clean_step false) l []) as [|top below].
    + done.
    + inversion_clear Hkept as [|?? [_ Htop] _].
      destruct (decide (top = "..")) as [->|Hne].
      * simpl. by rewrite fold_left_app.
      * replace (Filepath.clean_step false (top :: below) "..") with below
          by (unfold Filepath.clean_step; simpl; by rewrite decide_False).
        simpl. rewrite fold_left_app. simpl.
        rewrite (clean_step_other _ _ top) by done.
        unfold Filepath.clean_step. simpl. by rewrite decide_False.
  - rewrite clean_step_other by done. simpl. rewrite fold_left_app. simpl.
    by rewrite clean_step_other.
Qed.

Lemma IsAbs_cons c s : Filepath.IsAbs (String c s) = Ascii.eqb c "/".
Proof. unfold Filepath.IsAbs. simpl. destruct s; by rewrite andb_true_r. Qed.

Lemma IsAbs_append a b : a <> EmptyString -> Filepath.IsAbs (a +:+ b) = Filepath.IsAbs a.
Proof. destruct a as [|c a]; [done|]. intros _. by rewrite append_cons, !IsAbs_cons. Qed.

Lemma IsAbs_element e : element e -> Filepath.IsAbs e = false.
Proof.
  intros [Hne Hs]. destruct e as [|c e]; [done|].
  rewrite IsAbs_cons. apply slash_free_cons in Hs as [Hc _].
  by apply Ascii.eqb_neq.
Qed.

Lemma IsAbs_Join_elements l : Forall element l -> Filepath.IsAbs (Strings.Join l "/") = false.
Proof.
  intros Hl. destruct Hl as [|e l He _]; [done|].
  destruct l as [|e' l]; [by apply IsAbs_element|].
  change (Strings.Join (e :: e' :: l) "/")
    with (e +:+ "/" +:+ Strings.Join (e' :: l) "/").
  rewrite IsAbs_append by apply He. by apply IsAbs_element.
Qed.

Lemma Forall_kept_element l : Forall kept l -> Forall element l.
Proof. intros Hl. eapply Forall_impl; [done|]. by intros ? [? _]. Qed.

Lemma Forall_plain_element l : Forall plain l -> Forall element l.
Proof. intros Hl. eapply Forall_impl; [done|]. by intros ? [? _]. Qed.

Lemma IsAbs_Clean path : Filepath.IsAbs (Filepath.Clean path) = Filepath.IsAbs path.
Proof.
  unfold Filepath.Clean. destruct (decide (path = EmptyString)) as [->|Hne]; [done|].
  destruct (Filepath.IsAbs path) eqn:Habs; [by rewrite append_cons, IsAbs_cons|].
  pose proof (Forall_kept_clean_elements false _ (Forall_element_elements path)) as Hk.
  destruct (Filepath.clean_elements false (Filepath.elements path)) as [|e l] eqn:Hout;
    [done|].
  apply IsAbs_Join_elements. by apply Forall_kept_element.
Qed.

Lemma Clean_not_nil path : Filepath.Clean path <> EmptyString.
Proof.
  unfold Filepath.Clean. destruct (decide (path = EmptyString)); [done|].
  destruct (Filepath.IsAbs path); [done|].
  pose proof (Forall_kept_clean_elements false _ (Forall_element_elements path)) as Hk.
  destruct (Filepath.clean_elements false (Filepath.elements path)) as [|e l]; [done|].
  inversion_clear Hk as [|?? [[He _] _] _].
  destruct l; [done|]. simpl. by destruct e.
Qed.

(** The elements of a cleaned path. *)
Lemma elements_Clean_rooted path :
  Filepath.IsAbs path = true ->
  Filepath.elements (Filepath.Clean path)
  = Filepath.clean_elements true (Filepath.elements path).
Proof.
  intros Habs. unfold Filepath.Clean.
  destruct (decide (path = EmptyString)) as [->|_]; [done|].
  rewrite Habs, elements_separator_l. apply elements_Join.
  apply Forall_plain_element, Forall_plain_clean_elements, Forall_element_elements.
Qed.

Lemma clean_elements_dot base :
  Filepath.clean_elements true (base ++ ["."]) = Filepath.clean_elements true base.
Proof. unfold Filepath.clean_elements. by rewrite fold_left_app. Qed.

Lemma clean_elements_Clean_relative path base :
  Filepath.IsAbs path = false ->
  Filepath.clean_elements true (base ++ Filepath.elements (Filepath.Clean path))
  = Filepath.clean_elements true (base ++ Filepath.elements path).
Proof.
  intros Habs. unfold Filepath.Clean.
  destruct (decide (path = EmptyString)) as [->|_].
  - change (Filepath.elements ".") with ["."].
    by rewrite clean_elements_dot, elements_nil, app_nil_r.
  - rewrite Habs.
    pose proof (Forall_kept_clean_elements false _ (Forall_element_elements path)) as Hk.
    transitivity (Filepath.clean_elements true
      (base ++ Filepath.clean_elements false (Filepath.elements path))).
    + destruct (Filepath.clean_elements false (Filepath.elements path)) as [|e l].
      * change (Filepath.elements ".") with ["."].
        by rewrite clean_elements_dot, app_nil_r.
      * rewrite elements_Join; [done|]. by apply Forall_kept_element.
    + unfold Filepath.clean_elements at 1 3. rewrite !fold_left_app.
      by rewrite fold_clean_step_cleaned by apply Forall_element_elements.
Qed.

(** Resolving a path and its cleaned form. *)
Lemma resolve_Clean w path : Os.resolve w (Filepath.Clean path) = Os.resolve w path.
Proof.
  unfold Os.resolve. rewrite IsAbs_Clean.
  destruct (Filepath.IsAbs path) eqn:Habs.
  - simpl. rewrite elements_Clean_rooted by done.
    apply clean_elements_plain, Forall_plain_clean_elements, Forall_element_elements.
  - by apply clean_elements_Clean_relative.
Qed.

Lemma resolve_append_element w a e :
  a <> EmptyString -> plain e ->
  Os.resolve w (a +:+ "/" +:+ e) = Os.resolve w a ++ [e].
Proof.
  intros Ha He. unfold Os.resolve.
  rewrite IsAbs_append, elements_append_separator by done.
  rewrite (elements_element e) by apply He.
  by rewrite app_assoc, clean_elements_snoc.
Qed.

(** The place of [Join a e] is the place of [a] followed by [e]. *)
Lemma resolve_Join w a e :
  a <> EmptyString -> plain e ->
  Os.resolve w (Filepath.Join a e) = Os.resolve w a ++ [e].
Proof.
  intros Ha He. unfold Filepath.Join.
  rewrite (proj2 (String.eqb_neq _ _) Ha). simpl.
  by rewrite resolve_Clean, resolve_append_element.
Qed.

End PathFacts.

Section Segments.

Implicit Types (s a b e path suffix : string) (c : ascii).

Lemma upto_last_separator_segment path :
  Filepath.upto_last_separator path +:+ last_segment path = path.
Proof.
  induction path as [|c path IH]; [done|].
  cbn [Filepath.upto_last_separator last_segment].
  destruct (Strings.Contains (String c path) "/"); [|done].
  by rewrite append_cons, IH.
Qed.

Lemma slash_free_last_segment path : slash_free (last_segment path).
Proof.
  induction path as [|c path IH]; [done|].
  cbn [last_segment].
  by destruct (Strings.Contains (String c path) "/") eqn:Hc.
Qed.

Lemma upto_last_separator_nil path :
  Filepath.upto_last_separator path = EmptyString -> slash_free path.
Proof.
  destruct path as [|c path]; [done|]. cbn [Filepath.upto_last_separator].
  unfold slash_free. by destruct (Strings.Contains (String c path) "/").
Qed.

Lemma upto_last_separator_shape path :
  Filepath.upto_last_separator path = EmptyString
  \/ exists q, Filepath.upto_last_separator path = q +:+ "/".
Proof.
  induction path as [|c path IH]; [by left|].
  cbn [Filepath.upto_last_separator].
  destruct (Strings.Contains (String c path) "/") eqn:Hc; [|by left].
  right. destruct IH as [Hnil|[q ->]].
  - rewrite Hnil. apply upto_last_separator_nil in Hnil.
    rewrite Contains_cons, Hnil, orb_false_r in Hc.
    apply Ascii.eqb_eq in Hc as ->. by exists EmptyString.
  - exists (String c q). by rewrite append_cons.
Qed.

Lemma HasSuffix_last_segment path suffix :
  slash_free suffix ->
  Strings.HasSuffix path suffix = true ->
  Strings.HasSuffix (last_segment path) suffix = true.
Proof.
  intros Hfree. induction path as [|c path IH]; [done|].
  intros Hs. cbn [last_segment].
  destruct (Strings.Contains (String c path) "/") eqn:Hc; [|done].
  apply IH. rewrite HasSuffix_cons in Hs.
  destruct (String.eqb_spec (String c path) suffix) as [<-|_]; [|done].
  unfold slash_free in Hfree. congruence.
Qed.

Lemma HasSuffix_not_nil s suffix :
  suffix <> EmptyString -> Strings.HasSuffix s suffix = true -> s <> EmptyString.
Proof.
  intros Hne Hs Heq. subst s. destruct suffix as [|c suffix]; [by apply Hne|].
  unfold Strings.HasSuffix in Hs. by simpl in Hs.
Qed.

Lemma elements_last_segment path :
  last_segment path <> EmptyString ->
  Filepath.elements path
  = Filepath.elements (Filepath.upto_last_separator path) ++ [last_segment path].
Proof.
  intros Hne.
  assert (Hel : element (last_segment path))
    by (split; [done | apply slash_free_last_segment]).
  rewrite <- (upto_last_separator_segment path) at 1.
  destruct (upto_last_separator_shape path) as [->|[q ->]].
  - by rewrite append_nil_l, elements_nil, (elements_element (last_segment path)).
  - rewrite append_assoc, elements_append_separator, elements_separator_r.
    by rewrite (elements_element (last_segment path)).
Qed.

Lemma Base_last_segment path :
  last_segment path <> EmptyString -> Filepath.Base path = last_segment path.
Proof.
  intros Hne. unfold Filepath.Base.
  destruct (decide (path = EmptyString)) as [->|_]; [done|].
  by rewrite elements_last_segment, last_snoc.
Qed.

Lemma IsAbs_upto_last_separator path :
  Filepath.upto_last_separator path <> EmptyString ->
  Filepath.IsAbs (Filepath.upto_last_separator path) = Filepath.IsAbs path.
Proof.
  intros Hne. rewrite <- (upto_last_separator_segment path) at 2.
  by rewrite IsAbs_append.
Qed.

(** The place of a path is the place of its directory part followed by
    its last segment. *)
Lemma resolve_last_segment w path :
  plain (last_segment path) ->
  Os.resolve w path
  = Os.resolve w (Filepath.upto_last_separator path) ++ [last_segment path].
Proof.
  intros Hp. unfold Os.resolve.
  rewrite (elements_last_segment path) by apply Hp.
  rewrite app_assoc, clean_elements_snoc by done.
  destruct (decide (Filepath.upto_last_separator path = EmptyString)) as [Heq|Hne].
  - rewrite Heq. rewrite <- (upto_last_separator_segment path) at 1.
    rewrite Heq, append_nil_l. rewrite IsAbs_element by apply Hp. done.
  - by rewrite IsAbs_upto_last_separator.
Qed.

Lemma resolve_Dir w path :
  Os.resolve w (Filepath.Dir path) = Os.resolve w (Filepath.upto_last_separator path).
Proof. apply resolve_Clean. Qed.

(** The base name of a Go file and the name of its companion. *)
Lemma plain_has_suffix s suffix :
  slash_free s -> (2 < String.length suffix) ->
  Strings.HasSuffix s suffix = true -> plain s.
Proof.
  intros Hfree Hlen Hs. apply HasSuffix_inv in Hs.
  assert (2 < String.length s) by (rewrite Hs, length_append; lia).
  split; [split; [|done] | split]; intros Heq; rewrite Heq in *; simpl in *; lia.
Qed.

Lemma plain_go_segment path :
  Strings.HasSuffix path ".go" = true -> plain (last_segment path).
Proof.
  intros Hs. apply (plain_has_suffix _ ".go").
  - apply slash_free_last_segment.
  - simpl. lia.
  - by apply HasSuffix_last_segment.
Qed.

Lemma plain_companion s :
  slash_free s -> plain (Strings.TrimSuffix s ".go" +:+ "_test.go").
Proof.
  intros Hfree. apply (plain_has_suffix _ "_test.go").
  - apply slash_free_append. split; [by apply slash_free_TrimSuffix | done].
  - simpl. lia.
  - apply HasSuffix_append.
Qed.

End Segments.

(** ** Facts on the file tree *)

Section TreeFacts.

Implicit Types (m sub : gmap string fsnode) (es ds : list string) (e : string).

Lemma kind_at_nil m : kind_at [] m = Some Dir.
Proof. reflexivity. Qed.

Lemma kind_at_cons e es m :
  kind_at (e :: es) m =
  match m !! e with
  | Some (Directory sub) => kind_at es sub
  | Some (RegularFile data) =>
      match es with [] => Some (Regular data) | _ => None end
  | None => None
  end.
Proof.
  unfold kind_at. simpl. destruct (m !! e) as [[data|sub]|]; [|done..].
  by destruct es.
Qed.

Lemma kind_at_snoc_parent ds e m k :
  kind_at (ds ++ [e]) m = Some k -> kind_at ds m = Some Dir.
Proof.
  revert m. induction ds as [|d ds IH]; intros m; [done|].
  simpl. rewrite !kind_at_cons.
  destruct (m !! d) as [[data|sub]|]; [|by apply IH|done].
  by destruct ds.
Qed.

Lemma kind_at_below_regular ds e m data :
  kind_at ds m = Some (Regular data) -> kind_at (ds ++ [e]) m = None.
Proof.
  intros Hk. destruct (kind_at (ds ++ [e]) m) as [k|] eqn:Hk'; [|done].
  apply kind_at_snoc_parent in Hk'. congruence.
Qed.

(** [put_file]. *)

Lemma put_file_kind_at es data m m' :
  Os.put_file es data m = Some m' ->
  forall es', kind_at es' m'
              = if decide (es' = es) then Some (Regular data) else kind_at es' m.
Proof.
  revert m m'. induction es as [|e es IH]; intros m m' Hput; [done|].
  destruct es as [|e2 es].
  - simpl in Hput. intros [|e' es'].
    + by rewrite decide_False.
    + rewrite !kind_at_cons. destruct (decide (e' = e)) as [->|Hne].
      * destruct (m !! e) as [[d|sub]|] eqn:He; simplify_eq;
          rewrite lookup_insert_eq; destruct es'; by simplify_option_eq.
      * assert (m' !! e' = m !! e') as ->.
        { destruct (m !! e) as [[d|sub]|]; simplify_eq;
            by rewrite lookup_insert_ne. }
        rewrite decide_False by congruence. done.
  - change (Os.put_file (e :: e2 :: es) data m) with
      (match m !! e with
       | Some (Directory sub) =>
           match Os.put_file (e2 :: es) data sub with
           | Some sub' => Some (<[e := Directory sub']> m)
           | None => None
           end
       | _ => None
       end) in Hput.
    destruct (m !! e) as [[d|sub]|] eqn:He; [done| |done].
    destruct (Os.put_file (e2 :: es) data sub) as [sub'|] eqn:Hsub; [|done].
    simplify_eq. intros [|e' es'].
    + by rewrite decide_False.
    + rewrite !kind_at_cons. destruct (decide (e' = e)) as [->|Hne].
      * rewrite lookup_insert_eq, He, (IH _ _ Hsub).
        destruct (decide (es' = e2 :: es)) as [->|Hne'].
        -- by rewrite decide_True.
        -- by rewrite decide_False by congruence.
      * rewrite lookup_insert_ne by done.
        by rewrite decide_False by congruence.
Qed.

Lemma put_file_new ds e data m :
  kind_at ds m = Some Dir -> kind_at (ds ++ [e]) m <> Some Dir ->
  is_Some (Os.put_file (ds ++ [e]) data m).
Proof.
  revert m. induction ds as [|d ds IH]; intros m Hdir Hnew.
  - simpl in *. rewrite kind_at_cons in Hnew.
    destruct (m !! e) as [[d|sub]|]; [by eexists| |by eexists].
    by destruct Hnew.
  - rewrite kind_at_cons in Hdir. simpl in Hnew. rewrite kind_at_cons in Hnew.
    change (Os.put_file ((d :: ds) ++ [e]) data m) with
      (Os.put_file (d :: (ds ++ [e])) data m).
    destruct (ds ++ [e]) as [|e2 rest] eqn:Hrest; [by destruct ds|].
    change (Os.put_file (d :: e2 :: rest) data m) with
      (match m !! d with
       | Some (Directory sub) =>
           match Os.put_file (e2 :: rest) data sub with
           | Some sub' => Some (<[d := Directory sub']> m)
           | None => None
           end
       | _ => None
       end).
    destruct (m !! d) as [[x|sub]|]; [by destruct ds| |done].
    rewrite <- Hrest in *. destruct (IH sub Hdir Hnew) as [sub' ->]. by eexists.
Qed.

Lemma put_file_again es data data' m m' :
  Os.put_file es data m = Some m' ->
  Os.put_file es data' m' = Os.put_file es data' m.
Proof.
  revert m m'. induction es as [|e es IH]; intros m m' Hput; [done|].
  destruct es as [|e2 es].
  - simpl in *.
    destruct (m !! e) as [[d|sub]|] eqn:He; simplify_eq;
      by rewrite lookup_insert_eq, insert_insert_eq.
  - change (Os.put_file (e :: e2 :: es) ?x ?y) with
      (match y !! e with
       | Some (Directory sub) =>
           match Os.put_file (e2 :: es) x sub with
           | Some sub' => Some (<[e := Directory sub']> y)
           | None => None
           end
       | _ => None
       end) in *.
    destruct (m !! e) as [[d|sub]|] eqn:He; [done| |done].
    destruct (Os.put_file (e2 :: es) data sub) as [sub'|] eqn:Hsub; [|done].
    simplify_eq. rewrite lookup_insert_eq, (IH _ _ Hsub).
    destruct (Os.put_file (e2 :: es) data' sub); [|done].
    by rewrite insert_insert_eq.
Qed.

Lemma put_file_is_Some es data data' m :
  is_Some (Os.put_file es data m) -> is_Some (Os.put_file es data' m).
Proof.
  revert m. induction es as [|e es IH]; intros m [m' Hput]; [done|].
  destruct es as [|e2 es].
  - simpl in *. destruct (m !! e) as [[d|sub]|]; by eexists.
  - change (Os.put_file (e :: e2 :: es) ?x ?y) with
      (match y !! e with
       | Some (Directory sub) =>
           match Os.put_file (e2 :: es) x sub with
           | Some sub' => Some (<[e := Directory sub']> y)
           | None => None
           end
       | _ => None
       end) in *.
    destruct (m !! e) as [[d|sub]|]; [done| |done].
    destruct (Os.put_file (e2 :: es) data sub) as [sub'|] eqn:Hsub; [|done].
    destruct (IH sub) as [sub2 ->]; by eexists.
Qed.

Lemma lookup_node_regular es m data :
  kind_at es m = Some (Regular data) -> Os.lookup_node es m = Some (RegularFile data).
Proof.
  unfold kind_at. destruct (Os.lookup_node es m) as [[d|sub]|]; naive_solver.
Qed.

(** [mkdir_all]. *)

Lemma mkdir_all_kind_at es m m' :
  Os.mkdir_all es m = Some m' ->
  forall es', kind_at es' m'
              = if decide (es' `prefix_of` es) then Some Dir else kind_at es' m.
Proof.
  revert m m'. induction es as [|e es IH]; intros m m' Hmk es'.
  - simpl in Hmk. simplify_eq. destruct es' as [|e' es'].
    + by rewrite decide_True by apply prefix_nil.
    + rewrite decide_False; [done|]. by intros ?%prefix_nil_inv.
  - simpl in Hmk. destruct es' as [|e' es'].
    + by rewrite decide_True by apply prefix_nil.
    + rewrite !kind_at_cons.
      destruct (m !! e) as [[d|sub]|] eqn:He; [done| |].
      * destruct (Os.mkdir_all es sub) as [sub'|] eqn:Hsub; [|done]. simplify_eq.
        destruct (decide (e' = e)) as [->|Hne].
        -- rewrite lookup_insert_eq, He, (IH _ _ Hsub).
           destruct (decide (es' `prefix_of` es)) as [Hp|Hp].
           ++ by rewrite decide_True by by apply prefix_cons.
           ++ rewrite decide_False; [done|]. by intros ?%prefix_cons_inv_2.
        -- rewrite lookup_insert_ne by done.
           rewrite decide_False; [done|]. by intros ?%prefix_cons_inv_1.
      * destruct (Os.mkdir_all es ∅) as [sub'|] eqn:Hsub; [|done]. simplify_eq.
        destruct (decide (e' = e)) as [->|Hne].
        -- rewrite lookup_insert_eq, He, (IH _ _ Hsub).
           destruct (decide (es' `prefix_of` es)) as [Hp|Hp].
           ++ by rewrite decide_True by by apply prefix_cons.
           ++ rewrite decide_False by by intros ?%prefix_cons_inv_2.
              destruct es'; [by destruct Hp; apply prefix_nil|].
              by rewrite kind_at_cons, lookup_empty.
        -- rewrite lookup_insert_ne by done.
           rewrite decide_False; [done|]. by intros ?%prefix_cons_inv_1.
Qed.

Lemma mkdir_all_exists es m :
  kind_at es m = Some Dir -> Os.mkdir_all es m = Some m.
Proof.
  revert m. induction es as [|e es IH]; intros m Hk; [done|].
  rewrite kind_at_cons in Hk. simpl.
  destruct (m !! e) as [[d|sub]|] eqn:He; [by destruct es| |done].
  rewrite (IH _ Hk). by rewrite insert_id.
Qed.

Lemma mkdir_all_is_Some es m :
  (forall es' data, es' `prefix_of` es -> kind_at es' m <> Some (Regular data)) ->
  is_Some (Os.mkdir_all es m).
Proof.
  revert m. induction es as [|e es IH]; intros m Hfree; [by eexists|].
  simpl. destruct (m !! e) as [[d|sub]|] eqn:He.
  - destruct (Hfree [e] d); [by apply prefix_cons, prefix_nil|].
    by rewrite kind_at_cons, He.
  - destruct (IH sub) as [sub' ->]; [|by eexists].
    intros es' data Hp. specialize (Hfree (e :: es') data).
    rewrite kind_at_cons, He in Hfree. apply Hfree. by apply prefix_cons.
  - destruct (IH ∅) as [sub' ->]; [|by eexists].
    intros [|e' es'] data Hp; [done|]. by rewrite kind_at_cons, lookup_empty.
Qed.

End TreeFacts.

(** ** Facts on the rendered text *)

Section TextFacts.

Implicit Types (s a b name rest pattern : string) (c : ascii).

Lemma HasPrefix_nil s : Strings.HasPrefix s EmptyString = true.
Proof. by destruct s. Qed.

Lemma HasPrefix_cons c s p pattern :
  Strings.HasPrefix (String c s) (String p pattern)
  = Ascii.eqb c p && Strings.HasPrefix s pattern.
Proof. reflexivity. Qed.

Lemma HasPrefix_append_long a b pattern :
  String.length pattern <= String.length a ->
  Strings.HasPrefix (a +:+ b) pattern = Strings.HasPrefix a pattern.
Proof.
  revert pattern. induction a as [|c a IH]; intros [|p pattern] Hlen; simpl in Hlen;
    try done; try lia.
  - by rewrite !HasPrefix_nil.
  - rewrite append_cons, !HasPrefix_cons, IH by lia. done.
Qed.

Lemma HasPrefix_append_short a b pattern :
  Strings.HasPrefix (a +:+ b) pattern = true ->
  String.length a < String.length pattern ->
  Strings.HasPrefix pattern a = true.
Proof.
  revert pattern. induction a as [|c a IH]; intros [|p pattern] Hp Hlen; simpl in Hlen;
    try done; try lia.
  rewrite append_cons, HasPrefix_cons in Hp. rewrite HasPrefix_cons.
  apply andb_true_iff in Hp as [Hc Hp]. apply Ascii.eqb_eq in Hc as ->.
  rewrite Ascii.eqb_refl. apply IH; [done | lia].
Qed.

Lemma HasPrefix_append a b pattern :
  Strings.HasPrefix a pattern = true -> Strings.HasPrefix (a +:+ b) pattern = true.
Proof.
  revert pattern. induction a as [|c a IH]; intros [|p pattern] Hp; try done.
  - apply HasPrefix_nil.
  - rewrite HasPrefix_cons in Hp. apply andb_true_iff in Hp as [Hc Hp].
    by rewrite append_cons, HasPrefix_cons, Hc, (IH _ Hp).
Qed.

Lemma Count_cons c s pattern :
  Strings.Count (String c s) pattern
  = (if Strings.HasPrefix (String c s) pattern then 1 else 0) + Strings.Count s pattern.
Proof. reflexivity. Qed.

(** Occurrences in a text followed by another. *)
Lemma Count_append a b pattern :
  no_border a pattern = true ->
  Strings.Count (a +:+ b) pattern = Strings.Count a pattern + Strings.Count b pattern.
Proof.
  induction a as [|c a IH]; [done|].
  cbn [no_border]. intros [Hhere Hrest]%andb_true_iff.
  rewrite append_cons, !Count_cons, (IH Hrest), <- append_cons.
  assert (Strings.HasPrefix (String c a +:+ b) pattern
          = Strings.HasPrefix (String c a) pattern) as ->; [|lia].
  destruct (decide (String.length pattern <= String.length (String c a))) as [?|Hlt].
  { by apply HasPrefix_append_long. }
  apply orb_true_iff in Hhere as [Hlong|Hshort].
  { apply Nat.leb_le in Hlong. lia. }
  apply negb_true_iff in Hshort.
  destruct (Strings.HasPrefix (String c a +:+ b) pattern) eqn:Hp.
  - apply HasPrefix_append_short in Hp; [congruence | lia].
  - destruct (Strings.HasPrefix (String c a) pattern) eqn:Hp'; [|done].
    apply (HasPrefix_append _ b) in Hp'. congruence.
Qed.

(** Occurrences that would begin in an identifier. *)
Lemma all_bytes_cons p c s : all_bytes p (String c s) = p c && all_bytes p s.
Proof. reflexivity. Qed.

Lemma HasPrefix_after_identifier i name rest pattern :
  identifier_bytes name ->
  breaks_at i pattern = true ->
  no_late_start i rest pattern = true ->
  Strings.HasPrefix (name +:+ rest) pattern = false.
Proof.
  revert i pattern. induction name as [|c name IH]; intros i pattern Hid Hbreak Hlate.
  - rewrite append_nil_l. destruct i, pattern; simpl in Hlate;
      apply andb_true_iff in Hlate as [Hlate _]; by apply negb_true_iff.
  - unfold identifier_bytes in Hid. rewrite all_bytes_cons in Hid.
    apply andb_true_iff in Hid as [Hc Hid].
    destruct pattern as [|p pattern]; [by destruct i|].
    rewrite append_cons, HasPrefix_cons. destruct i as [|i].
    + simpl in Hbreak. apply negb_true_iff in Hbreak.
      destruct (Ascii.eqb_spec c p) as [->|_]; [congruence|done].
    + simpl in Hbreak, Hlate. apply andb_true_iff in Hlate as [_ Hlate].
      rewrite (IH i pattern) by done. apply andb_false_r.
Qed.

Lemma Count_after_identifier i name rest pattern :
  identifier_bytes name ->
  breaks_at i pattern = true ->
  no_late_start i rest pattern = true ->
  Strings.Count (name +:+ rest) pattern = Strings.Count rest pattern.
Proof.
  intros Hid Hbreak Hlate. induction name as [|c name IH]; [done|].
  rewrite append_cons, Count_cons, <- append_cons.
  rewrite (HasPrefix_after_identifier i) by done.
  apply IH. unfold identifier_bytes in *. rewrite all_bytes_cons in Hid.
  by apply andb_true_iff in Hid as [_ ?].
Qed.

End TextFacts.

Section RenderFacts.

Lemma walk_block fn :
  Template.walkList Template.walk TestTemplate_range (FunctionData_value fn)
  = (test_block fn, None).
Proof. by destruct fn as [name []]. Qed.

Lemma test_block_flat name : test_block (mkFunctionData name false) = flat_block name.
Proof.
  unfold test_block, flat_block, TestTemplate_range. cbn.
  rewrite !append_assoc. reflexivity.
Qed.

Lemma test_block_table name : test_block (mkFunctionData name true) = table_block name.
Proof.
  unfold test_block, table_block, TestTemplate_range. cbn.
  rewrite !append_assoc. reflexivity.
Qed.

Lemma walkRange_blocks fns :
  Template.walkRange (Template.walkList Template.walk TestTemplate_range)
    (map FunctionData_value fns)
  = (concat_strings (map test_block fns), None).
Proof.
  induction fns as [|fn fns IH]; [done|].
  cbn [map Template.walkRange]. by rewrite walk_block, IH.
Qed.

Lemma Execute_TestTemplate data :
  Template.Execute TestTemplate (TestData_value data) = (rendered data, None).
Proof.
  destruct data as [package fns]. unfold Template.Execute, TestTemplate.
  cbn [Template.walkList Template.walk Template.evalField TestData_value
       Template.lookup_field String.eqb Ascii.eqb Bool.eqb Template.printValue
       Package Functions].
  rewrite walkRange_blocks. unfold rendered, preamble. cbn [Package Functions].
  rewrite !append_assoc. reflexivity.
Qed.

(** Occurrences of a pattern in a text with two holes for a name. *)
Lemma Count_two_holes i name head mid tail pattern :
  identifier_bytes name ->
  breaks_at i pattern = true ->
  no_border head pattern = true ->
  no_border mid pattern = true ->
  no_late_start i (mid +:+ name +:+ tail) pattern = true ->
  no_late_start i tail pattern = true ->
  Strings.Count (head +:+ name +:+ mid +:+ name +:+ tail) pattern
  = Strings.Count head pattern + Strings.Count mid pattern + Strings.Count tail pattern.
Proof.
  intros Hid Hbreak Hhead Hmid Hlate1 Hlate2.
  rewrite (Count_append head) by done.
  rewrite (Count_after_identifier i) by done.
  rewrite (Count_append mid) by done.
  rewrite (Count_after_identifier i) by done.
  lia.
Qed.

End RenderFacts.

Ltac count_two_holes i :=
  unfold flat_block, table_block;
  rewrite (Count_two_holes i) by (done || (vm_compute; reflexivity));
  vm_compute; reflexivity.

Lemma table_block_cases name :
  identifier_bytes name ->
  Strings.Count (table_block name) case_entry = 2
  /\ Strings.Count (table_block name) (named_case "test case 1") = 1
  /\ Strings.Count (table_block name) (named_case "test case 2") = 1.
Proof.
  intros Hid. repeat split.
  - count_two_holes 4.
  - count_two_holes 4.
  - count_two_holes 4.
Qed.

Lemma flat_block_marks name :
  identifier_bytes name ->
  Strings.Count (flat_block name) case_entry = 0
  /\ Strings.Count (flat_block name) cases_declaration = 0
  /\ Strings.Count (flat_block name) cases_loop = 0
  /\ Strings.Count (flat_block name) "// TODO: Write test for " = 1.
Proof.
  intros Hid. repeat split.
  - count_two_holes 4.
  - count_two_holes 0.
  - count_two_holes 0.
  - count_two_holes 0.
Qed.

(** ** Facts on [generateTestForFile] *)

Section GenerateFacts.

Context `{Toolchain}.

Implicit Types (w : world) (path outputDir src : string) (tableTests : bool).

Lemma with_tree_root w : with_tree w (root w) = w.
Proof. by destruct w. Qed.

Lemma ReadFile_regular w path src :
  file_at w path = Some (Regular src) -> Os.ReadFile path w = (Ok src, w).
Proof.
  unfold file_at, kind_at, Os.ReadFile.
  destruct (Os.lookup_node _ _) as [[d|sub]|]; naive_solver.
Qed.

Lemma Stat_exists w path k :
  file_at w path = Some k -> exists info, Os.Stat path w = (Ok info, w).
Proof.
  unfold file_at, kind_at, Os.Stat.
  destruct (Os.lookup_node _ _) as [[d|sub]|]; [by eexists..|done].
Qed.

Lemma Stat_missing w path :
  file_at w path = None -> exists e, Os.Stat path w = (Err e, w).
Proof.
  unfold file_at, kind_at, Os.Stat.
  destruct (Os.lookup_node _ _) as [[d|sub]|]; [done..|by eexists].
Qed.

(** The source does not parse. *)
Lemma generate_parse_error w path outputDir tableTests src e :
  file_at w path = Some (Regular src) ->
  parse_source path src = Err e ->
  generateTestForFile path outputDir tableTests w
  = (Err (Errorf ("failed to parse Go file: " +:+ Error e)), w).
Proof.
  intros Hfile Hparse.
  unfold generateTestForFile, bind, wrap, ParseFile, bind.
  by rewrite (ReadFile_regular _ _ _ Hfile), Hparse.
Qed.

(** The source has no exported function. *)
Lemma generate_skipped w path outputDir tableTests src node :
  file_at w path = Some (Regular src) ->
  parse_source path src = Ok node ->
  exportedFunctions tableTests (Ast.Decls node) = [] ->
  generateTestForFile path outputDir tableTests w
  = (Ok tt, with_line w ("No exported functions found in " +:+ path +:+ ", skipping")).
Proof.
  intros Hfile Hparse Hnone.
  unfold generateTestForFile, bind, wrap, ParseFile, bind.
  by rewrite (ReadFile_regular _ _ _ Hfile), Hparse, Hnone.
Qed.

(** The places of the companion file. *)
Lemma companion_name_plain path :
  Strings.HasSuffix path ".go" = true -> plain (companion_name path).
Proof.
  intros Hgo. unfold companion_name.
  pose proof (plain_go_segment _ Hgo) as [[Hne Hfree] _].
  rewrite Base_last_segment by done. by apply plain_companion.
Qed.

Lemma resolve_companion_beside w path :
  Strings.HasSuffix path ".go" = true ->
  Os.resolve w (companion_path path EmptyString)
  = Os.resolve w (Filepath.upto_last_separator path) ++ [companion_name path].
Proof.
  intros Hgo. unfold companion_path. simpl.
  rewrite resolve_Join, resolve_Dir;
    [done | apply Clean_not_nil | by apply companion_name_plain].
Qed.

Lemma resolve_companion_override w path outputDir :
  outputDir <> EmptyString ->
  Strings.HasSuffix path ".go" = true ->
  Os.resolve w (companion_path path outputDir)
  = Os.resolve w outputDir ++ [companion_name path].
Proof.
  intros Hne Hgo. unfold companion_path.
  rewrite (proj2 (String.eqb_neq _ _) Hne).
  by rewrite resolve_Join; [|done | apply companion_name_plain].
Qed.

(** The directory that holds a Go file is a directory. *)
Lemma directory_of_file w path k :
  Strings.HasSuffix path ".go" = true ->
  file_at w path = Some k ->
  file_at w (Filepath.upto_last_separator path) = Some Dir.
Proof.
  intros Hgo. unfold file_at.
  rewrite (resolve_last_segment w path) by by apply plain_go_segment.
  apply kind_at_snoc_parent.
Qed.

(** The steps after the check of the output path. *)
Lemma write_companion w outputPath text tree :
  Os.put_file (Os.resolve w outputPath) text (root w) = Some tree ->
  (let* file := wrap "failed to create test file: " (Os.Create outputPath) in
   do Os.Write file text;
   do Os.Println ("Generated test file: " +:+ outputPath);
   ret tt) w
  = (Ok tt, with_line (with_tree w tree) ("Generated test file: " +:+ outputPath)).
Proof.
  intros Hput.
  destruct (put_file_is_Some _ _ EmptyString _ (mk_is_Some _ _ Hput)) as [tree0 Hcreate].
  unfold bind, wrap, Os.Create. rewrite Hcreate.
  unfold Os.Write. cbn [root cwd stdout].
  pose proof (put_file_kind_at _ _ _ _ Hcreate (Os.resolve w outputPath)) as Hk.
  rewrite decide_True in Hk by done.
  rewrite (lookup_node_regular _ _ _ Hk), append_nil_l.
  by rewrite (put_file_again _ _ _ _ _ Hcreate), Hput.
Qed.

(** The companion file exists. *)
Lemma generate_collision w path outputDir tableTests src node k :
  file_at w path = Some (Regular src) ->
  parse_source path src = Ok node ->
  exportedFunctions tableTests (Ast.Decls node) <> [] ->
  Strings.HasSuffix path ".go" = true ->
  file_at w (companion_path path outputDir) = Some k ->
  generateTestForFile path outputDir tableTests w
  = (Err (Errorf ("test file already exists: " +:+ companion_path path outputDir)), w).
Proof.
  intros Hfile Hparse Hsome Hgo Hout.
  unfold generateTestForFile, bind, wrap, ParseFile, bind.
  rewrite (ReadFile_regular _ _ _ Hfile), Hparse.
  destruct (exportedFunctions tableTests (Ast.Decls node)) as [|fn fns]; [done|].
  cbn [length Nat.eqb].
  pose proof (resolve_companion_override w path outputDir) as Hres.
  unfold companion_path, companion_name in *.
  destruct (String.eqb_spec outputDir EmptyString) as [->|Hne].
  - unfold ret. destruct (Stat_exists _ _ _ Hout) as [info ->]. done.
  - unfold Os.MkdirAll.
    assert (kind_at (Os.resolve w outputDir) (root w) = Some Dir) as Hdir.
    { unfold file_at in Hout. rewrite Hres in Hout by done.
      by apply kind_at_snoc_parent in Hout. }
    rewrite (mkdir_all_exists _ _ Hdir). unfold ret.
    change (mkWorld (root w) (cwd w) (stdout w)) with (with_tree w (root w)).
    rewrite with_tree_root.
    destruct (Stat_exists _ _ _ Hout) as [info ->]. done.
Qed.

(** The companion file is written. *)
Lemma generate_created w path outputDir tableTests src node tree1 tree2 :
  file_at w path = Some (Regular src) ->
  parse_source path src = Ok node ->
  exportedFunctions tableTests (Ast.Decls node) <> [] ->
  prepared w outputDir = Some tree1 ->
  kind_at (Os.resolve w (companion_path path outputDir)) tree1 = None ->
  Os.put_file (Os.resolve w (companion_path path outputDir))
    (companion_text tableTests node) tree1 = Some tree2 ->
  generateTestForFile path outputDir tableTests w
  = (Ok tt, with_line (with_tree w tree2)
              ("Generated test file: " +:+ companion_path path outputDir)).
Proof.
  intros Hfile Hparse Hsome Hprep Hfree Hput.
  unfold generateTestForFile, bind at 1, wrap at 1, ParseFile, bind at 1.
  rewrite (ReadFile_regular _ _ _ Hfile), Hparse.
  unfold companion_text in Hput.
  destruct (exportedFunctions tableTests (Ast.Decls node)) as [|fn fns] eqn:Hfns;
    [done|].
  cbn [length Nat.eqb]. unfold companion_path, companion_name, prepared in *.
  rewrite Execute_TestTemplate.
  destruct (String.eqb_spec outputDir EmptyString) as [->|Hne].
  - simplify_eq. unfold bind at 1, ret at 1.
    destruct (Stat_missing w _ Hfree) as [e ->]. cbv beta iota.
    by rewrite (write_companion _ _ _ _ Hput).
  - unfold bind at 1, bind at 1, wrap at 1, Os.MkdirAll. rewrite Hprep.
    unfold ret at 1.
    change (mkWorld tree1 (cwd w) (stdout w)) with (with_tree w tree1).
    destruct (Stat_missing (with_tree w tree1) _ Hfree) as [e ->]. cbv beta iota.
    by rewrite (write_companion (with_tree w tree1) _ _ _ Hput).
Qed.

End GenerateFacts.

(** ** Facts on the walk *)

Section WalkFacts.

Context `{Toolchain}.

Variables (outputDir : string) (tableTests : bool).

#[local] Abbreviation fn := (walkFn outputDir tableTests).

Implicit Types (w : world) (path dir name : string) (names : list string)
  (info : Os.FileInfo) (depth : nat).

Lemma walkFn_file path info w :
  Os.IsDir info = false ->
  fn path (Some info) None w
  = if is_candidate path then generateTestForFile path outputDir tableTests w
    else (Ok tt, w).
Proof.
  intros Hfile. unfold walkFn, is_candidate. rewrite Hfile. simpl.
  by destruct (Strings.HasSuffix path ".go" && negb (Strings.HasSuffix path "_test.go")).
Qed.

Lemma walkFn_directory path info w :
  Os.IsDir info = true -> fn path (Some info) None w = (Ok tt, w).
Proof. intros Hdir. unfold walkFn. by rewrite Hdir. Qed.

Lemma walk_file depth path info w :
  Os.IsDir info = false ->
  walk (S depth) fn path info w
  = Some (if is_candidate path then generateTestForFile path outputDir tableTests w
          else (Ok tt, w)).
Proof. intros Hfile. cbn [walk]. rewrite Hfile. cbn [negb]. by rewrite walkFn_file. Qed.

Lemma walk_directory depth path info w names :
  Os.IsDir info = true ->
  Os.readDirNames path w = (Ok names, w) ->
  walk (S depth) fn path info w = walkNames (walk depth fn) fn path names w.
Proof.
  intros Hdir Hnames. cbn [walk]. rewrite Hdir, Hnames. cbn [negb].
  by rewrite walkFn_directory.
Qed.

Lemma Lstat_world path w r w' : Os.Lstat path w = (r, w') -> w' = w.
Proof.
  unfold Os.Lstat. destruct (Os.lookup_node _ _) as [[d|sub]|]; by intros [= _ <-].
Qed.

(** The loop over two lists of names in sequence. *)
Lemma walkNames_app rec dir names1 names2 w :
  walkNames rec fn dir (names1 ++ names2) w
  = match walkNames rec fn dir names1 w with
    | Some (Ok _, w1) => walkNames rec fn dir names2 w1
    | r => r
    end.
Proof.
  revert w. induction names1 as [|name names1 IH]; intros w; [done|].
  cbn [app walkNames].
  destruct (Os.Lstat (Filepath.Join dir name) w) as [[info|err] w1].
  - destruct (rec (Filepath.Join dir name) info w1) as [[[[]|e] w2]|]; [by rewrite IH| |done].
    by destruct (decide _); [|rewrite IH].
  - destruct (fn (Filepath.Join dir name) None (Some err) w1) as [[[]|e] w2];
      [by rewrite IH|].
    by destruct (decide _); [|rewrite IH].
Qed.

(** An entry whose walk fails stops the loop. *)
Lemma walkNames_failed_entry rec dir name names w info msg w2 :
  Os.Lstat (Filepath.Join dir name) w = (Ok info, w) ->
  rec (Filepath.Join dir name) info w = Some (Err (Errorf msg), w2) ->
  walkNames rec fn dir (name :: names) w = Some (Err (Errorf msg), w2).
Proof.
  intros Hstat Hrec. cbn [walkNames]. rewrite Hstat, Hrec.
  by rewrite decide_True by (by right).
Qed.

(** An entry whose walk succeeds lets the loop go on. *)
Lemma walkNames_passed_entry rec dir name names w info w2 :
  Os.Lstat (Filepath.Join dir name) w = (Ok info, w) ->
  rec (Filepath.Join dir name) info w = Some (Ok tt, w2) ->
  walkNames rec fn dir (name :: names) w = walkNames rec fn dir names w2.
Proof. intros Hstat Hrec. cbn [walkNames]. by rewrite Hstat, Hrec. Qed.

(** Every error of [generateTestForFile] is made by [fmt.Errorf]. *)
Lemma generate_error_message path w e w' :
  generateTestForFile path outputDir tableTests w = (Err e, w') ->
  exists msg, e = Errorf msg.
Proof.
  unfold generateTestForFile, bind at 1, wrap at 1.
  destruct (ParseFile path w) as [[node|e0] w0]; [|intros [= <- _]; by eexists].
  destruct (length _ =? 0).
  { unfold bind, Os.Println, ret. by intros [=]. }
  unfold bind at 1.
  match goal with |- context [match ?m w0 with _ => _ end] =>
    destruct (m w0) as [[out|e1] w1] eqn:Hprep end.
  - destruct (Os.Stat out w1) as [[info|e2] w2]; [intros [= <- _]; by eexists|].
    unfold bind at 1, wrap at 1.
    destruct (Os.Create out w2) as [[file|e3] w3]; [|intros [= <- _]; by eexists].
    rewrite Execute_TestTemplate. cbv beta iota. unfold bind at 1.
    destruct (Os.Write file _ w3) as [[[]|e4] w4] eqn:Hwrite.
    + unfold bind, Os.Println, ret. by intros [=].
    + intros [= <- _]. unfold Os.Write in Hwrite.
      repeat case_match; simplify_eq; by eexists.
  - intros [= <- _]. destruct (String.eqb outputDir EmptyString).
    + by unfold ret in Hprep.
    + unfold bind, wrap in Hprep.
      destruct (Os.MkdirAll outputDir w0) as [[[]|e5] w5]; simplify_eq.
      by eexists.
Qed.

End WalkFacts.

Section ExportFacts.

Context `{Toolchain}.

Lemma fold_appendExported tableTests decls functions :
  fold_left (appendExported tableTests) decls functions
  = functions ++ map (fun name => mkFunctionData name tableTests) (exported_names decls).
Proof.
  revert functions. induction decls as [|decl decls IH]; intros functions.
  - by rewrite app_nil_r.
  - cbn [fold_left]. rewrite IH. unfold exported_names.
    destruct decl as [|tok names|recv name]; cbn [appendExported declared_functions];
      try done.
    cbn [List.filter]. destruct (IsExported name); [|done].
    by rewrite <- app_assoc.
Qed.

Lemma exportedFunctions_names tableTests decls :
  exportedFunctions tableTests decls
  = map (fun name => mkFunctionData name tableTests) (exported_names decls).
Proof. apply (fold_appendExported tableTests decls []). Qed.

End ExportFacts.

Section PreservationFacts.

Context `{Toolchain}.

Implicit Types (w : world) (path outputDir : string) (es target : list string)
  (m : gmap string fsnode).

Lemma mkdir_all_regular_prefix es target m data :
  es `prefix_of` target -> kind_at es m = Some (Regular data) ->
  Os.mkdir_all target m = None.
Proof.
  revert es m. induction target as [|e target IH]; intros es m Hp Hk.
  - apply prefix_nil_inv in Hp as ->. done.
  - destruct es as [|e' es]; [done|].
    pose proof (prefix_cons_inv_1 _ _ _ _ Hp) as ->.
    apply prefix_cons_inv_2 in Hp. rewrite kind_at_cons in Hk. simpl.
    destruct (m !! e) as [[d|sub]|]; [done| |done].
    by rewrite (IH _ _ Hp Hk).
Qed.

Lemma mkdir_all_preserves target m m' es k :
  Os.mkdir_all target m = Some m' ->
  kind_at es m = Some k -> kind_at es m' = Some k.
Proof.
  intros Hmk Hk. rewrite (mkdir_all_kind_at _ _ _ Hmk).
  destruct (decide (es `prefix_of` target)) as [Hp|]; [|done].
  destruct k as [data|]; [|done].
  by rewrite (mkdir_all_regular_prefix _ _ _ _ Hp Hk) in Hmk.
Qed.

Lemma put_file_preserves target text m m' es k :
  Os.put_file target text m = Some m' ->
  kind_at target m = None ->
  kind_at es m = Some k -> kind_at es m' = Some k.
Proof.
  intros Hput Hnew Hk. rewrite (put_file_kind_at _ _ _ _ Hput).
  destruct (decide (es = target)) as [->|]; [congruence|done].
Qed.

Lemma Stat_error_missing path w e w' :
  Os.Stat path w = (Err e, w') -> file_at w path = None /\ w' = w.
Proof.
  unfold Os.Stat, file_at, kind_at.
  destruct (Os.lookup_node _ _) as [[d|sub]|]; [done..|]. by intros [= _ <-].
Qed.

(** Whatever [generateTestForFile] does, what exists stays: a directory
    stays a directory and a regular file keeps its contents. *)
Lemma generate_preserves_files path outputDir tableTests w r w' es k :
  generateTestForFile path outputDir tableTests w = (r, w') ->
  kind_at es (root w) = Some k ->
  kind_at es (root w') = Some k.
Proof.
  intros Hrun Hk. revert Hrun.
  unfold generateTestForFile, bind at 1, wrap at 1, ParseFile, bind at 1, Os.ReadFile.
  destruct (Os.lookup_node _ _) as [[src|sub]|]; [|by intros [= _ <-]..].
  destruct (parse_source path src) as [node|e0]; [|by intros [= _ <-]].
  destruct (length _ =? 0).
  { unfold bind, Os.Println, ret. by intros [= _ <-]. }
  unfold bind at 1.
  match goal with |- context [match ?m w with _ => _ end] =>
    destruct (m w) as [[out|e1] w1] eqn:Hprep end.
  - assert (cwd w1 = cwd w /\
            (kind_at es (root w1) = Some k)) as [Hcwd Hk1].
    { destruct (String.eqb outputDir EmptyString).
      - unfold ret in Hprep. by simplify_eq.
      - unfold bind, wrap, Os.MkdirAll, ret in Hprep.
        destruct (Os.mkdir_all _ _) as [m1|] eqn:Hmk; simplify_eq.
        split; [done|]. by apply (mkdir_all_preserves _ _ _ _ _ Hmk). }
    clear Hprep Hk.
    destruct (Os.Stat out w1) as [[info|e2] w2] eqn:Hstat.
    { unfold Os.Stat in Hstat.
      destruct (Os.lookup_node _ _) as [[d|sub]|]; simplify_eq; by intros [= _ <-]. }
    apply Stat_error_missing in Hstat as [Hnew ->]. unfold file_at in Hnew.
    unfold bind at 1, wrap at 1, Os.Create.
    destruct (Os.put_file _ _ (root w1)) as [m2|] eqn:Hcreate; [|by intros [= _ <-]].
    pose proof (put_file_preserves _ _ _ _ _ _ Hcreate Hnew Hk1) as Hk2.
    rewrite Execute_TestTemplate. cbv beta iota. unfold bind at 1, Os.Write.
    cbn [root cwd stdout].
    destruct (Os.lookup_node _ m2) as [[d|sub]|]; [|by intros [= _ <-]..].
    destruct (Os.put_file _ _ m2) as [m3|] eqn:Hwrite; [|by intros [= _ <-]].
    unfold bind, Os.Println, ret. intros [= _ <-]. cbn [root].
    rewrite (put_file_kind_at _ _ _ _ Hwrite).
    destruct (decide (es = Os.resolve w1 out)) as [->|]; [congruence|done].
  - intros [= _ <-]. destruct (String.eqb outputDir EmptyString).
    + by unfold ret in Hprep.
    + unfold bind, wrap, Os.MkdirAll, ret in Hprep.
      destruct (Os.mkdir_all _ _) as [m1|] eqn:Hmk; by simplify_eq.
Qed.

End PreservationFacts.

Section BatchFacts.

Context `{Toolchain}.

Variables (outputDir : string) (tableTests : bool).

#[local] Abbreviation fn := (walkFn outputDir tableTests).

Implicit Types (w : world) (path dir name : string) (names : list string)
  (info : Os.FileInfo) (depth : nat).

Lemma first_failure_Lstat depth path w msg w' :
  first_failure outputDir tableTests depth path w msg w' -> exists info, Os.Lstat path w = (Ok info, w).
Proof. destruct 1; by eexists. Qed.

Lemma first_failure_walk depth path w msg w' info :
  first_failure outputDir tableTests depth path w msg w' ->
  Os.Lstat path w = (Ok info, w) ->
  walk depth fn path info w = Some (Err (Errorf msg), w').
Proof.
  intros Hfail. revert info.
  induction Hfail as [depth path w info0 msg w' Hstat Hfile Hcand Hgen
                     |depth dir w info0 names1 name names2 w1 msg w'
                        Hstat Hdir Hnames Hbefore Hfail IH]; intros info Hinfo.
  - rewrite Hstat in Hinfo. simplify_eq.
    by rewrite walk_file, Hcand, Hgen.
  - rewrite Hstat in Hinfo. simplify_eq.
    rewrite (walk_directory outputDir tableTests depth dir info w _ Hdir Hnames).
    rewrite walkNames_app, Hbefore.
    destruct (first_failure_Lstat _ _ _ _ _ Hfail) as [info' Hinfo'].
    by apply (walkNames_failed_entry outputDir tableTests _ _ _ _ _ info');
      [|apply IH].
Qed.

Lemma Lstat_kind path w k :
  file_at w path = Some k ->
  Os.Lstat path w
  = (Ok (Os.mkFileInfo (Filepath.Base path)
           (match k with Dir => true | Regular _ => false end)), w).
Proof.
  unfold file_at, kind_at, Os.Lstat.
  destruct (Os.lookup_node _ _) as [[d|sub]|]; by intros [= <-].
Qed.

Lemma Stat_kind path w k :
  file_at w path = Some k ->
  Os.Stat path w
  = (Ok (Os.mkFileInfo (Filepath.Base path)
           (match k with Dir => true | Regular _ => false end)), w).
Proof.
  unfold file_at, kind_at, Os.Stat.
  destruct (Os.lookup_node _ _) as [[d|sub]|]; by intros [= <-].
Qed.

(** [GenerateTests] on a directory is the walk of its absolute path. *)
Lemma GenerateTests_directory depth path w :
  file_at (started w path) (abs_path w path) = Some Dir ->
  GenerateTests depth path outputDir tableTests w
  = Walk depth (abs_path w path) fn (started w path).
Proof.
  intros Hdir. unfold GenerateTests, Os.Println, wrap, Abs.
  change (mkWorld (root w) (cwd w) (stdout w ++ ["Generating tests for: " +:+ path]))
    with (started w path).
  change (Os.Getwd (started w path)) with (Os.Getwd w).
  unfold abs_path in *.
  destruct (Filepath.IsAbs path); by rewrite (Stat_kind _ _ _ Hdir).
Qed.

(** [GenerateTests] on a single Go file. *)
Lemma GenerateTests_file depth path w data :
  file_at (started w path) (abs_path w path) = Some (Regular data) ->
  is_candidate (abs_path w path) = true ->
  GenerateTests depth path outputDir tableTests w
  = Some (generateTestForFile (abs_path w path) outputDir tableTests (started w path)).
Proof.
  intros Hfile Hcand. unfold GenerateTests, Os.Println, wrap, Abs.
  change (mkWorld (root w) (cwd w) (stdout w ++ ["Generating tests for: " +:+ path]))
    with (started w path).
  change (Os.Getwd (started w path)) with (Os.Getwd w).
  unfold abs_path, is_candidate in *.
  destruct (Filepath.IsAbs path); rewrite (Stat_kind _ _ _ Hfile); cbn [Os.IsDir];
    by rewrite Hcand.
Qed.



End BatchFacts.

Section RootedPaths.

Implicit Types (s a b e f path suffix : string) (ds : list string).


Lemma elements_rooted_path ds :
  Forall plain ds -> Filepath.elements (rooted_path ds) = ds.
Proof.
  intros Hds. unfold rooted_path.
  by rewrite elements_separator_l, elements_Join by by apply Forall_plain_element.
Qed.

Lemma IsAbs_rooted_path ds : Filepath.IsAbs (rooted_path ds) = true.
Proof. unfold rooted_path. by rewrite append_cons, IsAbs_cons. Qed.


Lemma resolve_rooted_path w ds : Forall plain ds -> Os.resolve w (rooted_path ds) = ds.
Proof.
  intros Hds. unfold Os.resolve.
  by rewrite IsAbs_rooted_path, elements_rooted_path, clean_elements_plain.
Qed.












End RootedPaths.

Section Nested.

Context `{Toolchain}.








End Nested.

Section Extension.

Context `{Toolchain}.

Variables (outputDir : string) (tableTests : bool).

#[local] Abbreviation fn := (walkFn outputDir tableTests).

Implicit Types (w : world) (path dir name unit : string) (names : list string)
  (info : Os.FileInfo) (depth : nat).

Lemma extends_refl w : extends w w.
Proof. by split. Qed.

Lemma extends_trans w1 w2 w3 : extends w1 w2 -> extends w2 w3 -> extends w1 w3.
Proof. intros [Hc1 Hf1] [Hc2 Hf2]. split; [congruence | eauto]. Qed.

Lemma generate_preserves_cwd path w r w' :
  generateTestForFile path outputDir tableTests w = (r, w') -> cwd w' = cwd w.
Proof.
  unfold generateTestForFile, bind at 1, wrap at 1, ParseFile, bind at 1, Os.ReadFile.
  destruct (Os.lookup_node _ _) as [[src|sub]|]; [|by intros [= _ <-]..].
  destruct (parse_source path src) as [node|e0]; [|by intros [= _ <-]].
  destruct (length _ =? 0).
  { unfold bind, Os.Println, ret. by intros [= _ <-]. }
  unfold bind at 1.
  match goal with |- context [match ?m w with _ => _ end] =>
    destruct (m w) as [[out|e1] w1] eqn:Hprep end.
  - assert (cwd w1 = cwd w) as Hcwd.
    { destruct (String.eqb outputDir EmptyString).
      - unfold ret in Hprep. by simplify_eq.
      - unfold bind, wrap, Os.MkdirAll, ret in Hprep.
        destruct (Os.mkdir_all _ _) as [m1|] eqn:Hmk; by simplify_eq. }
    destruct (Os.Stat out w1) as [[info|e2] w2] eqn:Hstat.
    { unfold Os.Stat in Hstat.
      destruct (Os.lookup_node _ _) as [[d|sub]|]; simplify_eq; by intros [= _ <-]. }
    apply Stat_error_missing in Hstat as [_ ->].
    unfold bind at 1, wrap at 1, Os.Create.
    destruct (Os.put_file _ _ (root w1)) as [m2|]; [|by intros [= _ <-]].
    rewrite Execute_TestTemplate. cbv beta iota. unfold bind at 1, Os.Write.
    cbn [root cwd stdout].
    destruct (Os.lookup_node _ m2) as [[d|sub]|]; [|by intros [= _ <-]..].
    destruct (Os.put_file _ _ m2) as [m3|]; [|by intros [= _ <-]].
    unfold bind, Os.Println, ret. by intros [= _ <-].
  - intros [= _ <-]. destruct (String.eqb outputDir EmptyString).
    + by unfold ret in Hprep.
    + unfold bind, wrap, Os.MkdirAll, ret in Hprep.
      destruct (Os.mkdir_all _ _) as [m1|] eqn:Hmk; by simplify_eq.
Qed.

Lemma generate_extends path w r w' :
  generateTestForFile path outputDir tableTests w = (r, w') -> extends w w'.
Proof.
  intros Hrun. split; [by eapply generate_preserves_cwd|].
  intros es k. by eapply generate_preserves_files.
Qed.

Lemma walkFn_extends path (found : option Os.FileInfo) (err : option error) w r w' :
  fn path found err w = (r, w') -> extends w w'.
Proof.
  unfold walkFn. destruct err as [e|]; [intros [= _ <-]; apply extends_refl|].
  destruct found as [info|]; [|intros [= _ <-]; apply extends_refl].
  destruct (_ && _); [apply generate_extends|].
  intros [= _ <-]. apply extends_refl.
Qed.

Lemma walkNames_extends rec dir names w r w' :
  (forall path info w1 r1 w2, rec path info w1 = Some (r1, w2) -> extends w1 w2) ->
  walkNames rec fn dir names w = Some (r, w') -> extends w w'.
Proof.
  intros Hrec. revert w. induction names as [|name names IH]; intros w.
  { intros [= _ <-]. apply extends_refl. }
  cbn [walkNames].
  destruct (Os.Lstat (Filepath.Join dir name) w) as [[info|err] w1] eqn:Hstat;
    apply Lstat_world in Hstat as ->.
  - destruct (rec (Filepath.Join dir name) info w) as [[[[]|e] w2]|] eqn:Hentry;
      [| |done]; apply Hrec in Hentry.
    + intros Hrest%IH. by eapply extends_trans.
    + destruct (decide _); [by intros [= _ <-]|].
      intros Hrest%IH. by eapply extends_trans.
  - destruct (fn (Filepath.Join dir name) None (Some err) w) as [[[]|e] w2] eqn:Hentry;
      apply walkFn_extends in Hentry.
    + intros Hrest%IH. by eapply extends_trans.
    + destruct (decide _); [by intros [= _ <-]|].
      intros Hrest%IH. by eapply extends_trans.
Qed.

Lemma walk_extends depth path info w r w' :
  walk depth fn path info w = Some (r, w') -> extends w w'.
Proof.
  revert path info w r w'. induction depth as [|depth IH]; intros path info w r w';
    [done|].
  cbn [walk]. destruct (negb (Os.IsDir info)).
  { intros [= Hrun]. apply (walkFn_extends path (Some info) None w r w' Hrun). }
  unfold Os.readDirNames.
  destruct (Os.lookup_node _ _) as [[d|sub]|].
  - destruct (fn path (Some info) _ w) as [r1 w1] eqn:Hfn.
    apply walkFn_extends in Hfn. by intros [= _ <-].
  - destruct (fn path (Some info) None w) as [[[]|e] w1] eqn:Hfn;
      apply walkFn_extends in Hfn; [|by intros [= _ <-]].
    intros Hrest. eapply extends_trans; [done|].
    eapply walkNames_extends; [|done]. apply IH.
  - destruct (fn path (Some info) _ w) as [r1 w1] eqn:Hfn.
    apply walkFn_extends in Hfn. by intros [= _ <-].
Qed.




End Extension.

Section Outcome.

Context `{Toolchain}.

Implicit Types (w : world) (path outputDir src : string) (tableTests : bool).

Lemma companion_path_beside path stem :
  Filepath.Base path = stem +:+ ".go" ->
  companion_path path EmptyString
  = Filepath.Join (Filepath.Dir path) (stem +:+ "_test.go").
Proof.
  intros Hbase. unfold companion_path, companion_name.
  by rewrite Hbase, TrimSuffix_append.
Qed.

Lemma companion_path_override path outputDir stem :
  outputDir <> EmptyString ->
  Filepath.Base path = stem +:+ ".go" ->
  companion_path path outputDir = Filepath.Join outputDir (stem +:+ "_test.go").
Proof.
  intros Hne Hbase. unfold companion_path, companion_name.
  by rewrite Hbase, TrimSuffix_append, (proj2 (String.eqb_neq _ _) Hne).
Qed.

Lemma not_prefix_snoc {A} (l : list A) x : ~ (l ++ [x]) `prefix_of` l.
Proof. intros Hp%prefix_length. rewrite length_app in Hp. simpl in Hp. lia. Qed.

(** The directory of the companion file is a directory once the output
    directory is prepared. *)
Lemma prepared_directory w path outputDir src tree :
  file_at w path = Some (Regular src) ->
  Strings.HasSuffix path ".go" = true ->
  prepared w outputDir = Some tree ->
  exists ds,
    Os.resolve w (companion_path path outputDir) = ds ++ [companion_name path]
    /\ kind_at ds tree = Some Dir
    /\ kind_at (ds ++ [companion_name path]) tree
       = kind_at (ds ++ [companion_name path]) (root w)
    /\ (outputDir <> EmptyString -> ds = Os.resolve w outputDir).
Proof.
  intros Hfile Hgo Hprep. unfold prepared in Hprep.
  destruct (String.eqb_spec outputDir EmptyString) as [->|Hne].
  - simplify_eq. exists (Os.resolve w (Filepath.upto_last_separator path)).
    rewrite resolve_companion_beside by done.
    split; [done|]. split; [|done]. by eapply directory_of_file.
  - exists (Os.resolve w outputDir).
    rewrite resolve_companion_override by done.
    split; [done|]. rewrite !(mkdir_all_kind_at _ _ _ Hprep).
    rewrite decide_True by done.
    by rewrite decide_False by apply not_prefix_snoc.
Qed.

(** What [generateTestForFile] does on a unit that has an exported
    function, once the output directory is prepared. *)
Lemma generate_testable_outcome w path outputDir tableTests src node tree :
  file_at w path = Some (Regular src) ->
  parse_source path src = Ok node ->
  exportedFunctions tableTests (Ast.Decls node) <> [] ->
  Strings.HasSuffix path ".go" = true ->
  prepared w outputDir = Some tree ->
  match kind_at (Os.resolve w (companion_path path outputDir)) tree with
  | Some _ =>
      generateTestForFile path outputDir tableTests w
      = (Err (Errorf ("test file already exists: " +:+ companion_path path outputDir)),
         with_tree w tree)
      /\ tree = root w
  | None =>
      exists tree',
        Os.put_file (Os.resolve w (companion_path path outputDir))
          (companion_text tableTests node) tree = Some tree'
        /\ generateTestForFile path outputDir tableTests w
           = (Ok tt, with_line (with_tree w tree')
                       ("Generated test file: " +:+ companion_path path outputDir))
  end.
Proof.
  intros Hfile Hparse Hsome Hgo Hprep.
  destruct (prepared_directory _ _ _ _ _ Hfile Hgo Hprep) as (ds & Hres & Hdir & Hsame & Hds).
  rewrite Hres.
  destruct (kind_at (ds ++ [companion_name path]) tree) as [k|] eqn:Hk.
  - assert (file_at w (companion_path path outputDir) = Some k) as Hout
      by (unfold file_at; by rewrite Hres, <- Hsame).
    assert (tree = root w) as ->.
    { unfold prepared in Hprep.
      destruct (String.eqb_spec outputDir EmptyString) as [->|Hne]; [by simplify_eq|].
      rewrite mkdir_all_exists in Hprep; [by simplify_eq|].
      rewrite <- (Hds Hne). apply (kind_at_snoc_parent _ (companion_name path) _ k).
      by rewrite <- Hsame. }
    split; [|done]. rewrite with_tree_root. by eapply generate_collision.
  - destruct (put_file_new ds (companion_name path) (companion_text tableTests node) tree)
      as [tree' Hput]; [done|congruence|].
    exists tree'. split; [done|].
    eapply generate_created; try done; by rewrite Hres.
Qed.

End Outcome.

(** * The properties of the driver *)

Section Claims.

Context `{Toolchain}.

Implicit Types (w : world) (path outputDir src stem : string) (tableTests : bool)
  (node : Ast.File) (depth : nat).

(** C1 (amended): in a run whose root is a directory, the first failure of
    a candidate unit ends the run.  When the walk arrives at a unit whose
    processing fails with the message [msg], every entry before it having
    been walked without error, [GenerateTests] returns that very error, in
    the world that the failing unit left: no entry after it is walked. *)
Theorem C1_first_failure_aborts_the_batch depth path outputDir tableTests w msg w' :
  file_at (started w path) (abs_path w path) = Some Dir ->
  first_failure outputDir tableTests depth (abs_path w path) (started w path) msg w' ->
  GenerateTests depth path outputDir tableTests w = Some (Err (Errorf msg), w').
Proof.
  intros Hdir Hfail. rewrite GenerateTests_directory by done.
  unfold Walk. rewrite (Lstat_kind _ _ _ Hdir).
  rewrite (first_failure_walk _ _ _ _ _ _ _ _ Hfail (Lstat_kind _ _ _ Hdir)).
  by rewrite decide_False by (by intros [|]).
Qed.


(** C3: a candidate unit for which an output path is computed (it parses
    and has an exported function), and whose output path names something
    that exists, fails with the error [test file already exists], and
    the world is left as it was: the file that exists is neither opened
    nor written.  The output directory, when one is given, has no
    element [..].  Besides, whatever unit is processed and whatever the
    outcome, a regular file that was there keeps its contents. *)
Theorem C3_existing_companion_is_kept :
  (forall w path outputDir tableTests src node k,
     file_at w path = Some (Regular src) ->
     parse_source path src = Ok node ->
     exportedFunctions tableTests (Ast.Decls node) <> [] ->
     Strings.HasSuffix path ".go" = true ->
     ".." ∉ Filepath.elements outputDir ->
     file_at w (companion_path path outputDir) = Some k ->
     generateTestForFile path outputDir tableTests w
     = (Err (Errorf ("test file already exists: " +:+ companion_path path outputDir)), w))
  /\ (forall path outputDir tableTests w r w' es data,
        generateTestForFile path outputDir tableTests w = (r, w') ->
        kind_at es (root w) = Some (Regular data) ->
        kind_at es (root w') = Some (Regular data)).
Proof.
  split.
  - intros w path outputDir tableTests src node k Hfile Hparse Hsome Hgo _.
    by apply (generate_collision w path outputDir tableTests src node k).
  - intros path outputDir tableTests w r w' es data. apply generate_preserves_files.
Qed.

(** C4: a unit that parses and declares no exported function is skipped:
    the result is [nil], one line is printed, and the file tree is the one
    before the call, so that no file is written. *)
Theorem C4_unit_without_exported_functions_is_skipped
    w path outputDir tableTests src node :
  file_at w path = Some (Regular src) ->
  parse_source path src = Ok node ->
  exported_names (Ast.Decls node) = [] ->
  generateTestForFile path outputDir tableTests w
  = (Ok tt, with_line w ("No exported functions found in " +:+ path +:+ ", skipping"))
  /\ root (snd (generateTestForFile path outputDir tableTests w)) = root w.
Proof.
  intros Hfile Hparse Hnone.
  assert (exportedFunctions tableTests (Ast.Decls node) = []) as Hempty
    by (by rewrite exportedFunctions_names, Hnone).
  by rewrite (generate_skipped _ _ _ _ _ _ Hfile Hparse Hempty).
Qed.


(** C5: for every file, the functions selected are the function
    declarations with an exported name, in the order of the source, each
    with the flag of the call.  For the declarations of the package
    [shapes] (the functions [Area] and [perimeter] and the variable
    [DefaultColor]) the selection is [Area] alone, and the text written
    has one test, [TestArea]; it names neither [perimeter] nor
    [DefaultColor]. *)
Theorem C5_exported_functions_in_source_order :
  (forall tableTests decls,
     exportedFunctions tableTests decls
     = map (fun name => mkFunctionData name tableTests)
         (List.filter IsExported (declared_functions decls)))
  /\ (forall tableTests,
        exportedFunctions tableTests shapes_decls = [ mkFunctionData "Area" tableTests ]
        /\ Template.Execute TestTemplate
             (TestData_value (mkTestData "shapes" (exportedFunctions tableTests shapes_decls)))
           = (companion_text tableTests shapes_file, None)
        /\ Strings.Count (companion_text tableTests shapes_file) "func Test" = 1
        /\ Strings.Count (companion_text tableTests shapes_file) "func TestArea(t *testing.T) {" = 1
        /\ Strings.Contains (companion_text tableTests shapes_file) "perimeter" = false
        /\ Strings.Contains (companion_text tableTests shapes_file) "DefaultColor" = false).
Proof.
  split.
  - intros tableTests decls. apply exportedFunctions_names.
  - intros tableTests.
    assert (exportedFunctions tableTests shapes_decls = [ mkFunctionData "Area" tableTests ])
      as Hsel by (rewrite exportedFunctions_names; reflexivity).
    split; [done|]. split; [by rewrite Execute_TestTemplate|].
    unfold companion_text, shapes_file. cbn [Ast.Name Ast.Decls]. rewrite Hsel.
    by destruct tableTests; vm_compute.
Qed.

(** C6: with the flag set, the text written is the preamble followed by
    one table block for each function, and each block has two entries
    that name a case, one named [test case 1] and one named
    [test case 2], however many functions there are. *)
Theorem C6_table_block_has_two_named_cases (data : TestData) :
  Forall (fun fn => TableDriven fn = true /\ identifier_bytes (Name fn)) (Functions data) ->
  Template.Execute TestTemplate (TestData_value data)
  = (preamble (Package data)
     +:+ concat_strings (map (fun fn => table_block (Name fn)) (Functions data)) +:+ LF,
     None)
  /\ Forall (fun fn =>
               test_block fn = table_block (Name fn)
               /\ Strings.Count (test_block fn) case_entry = 2
               /\ Strings.Count (test_block fn) (named_case "test case 1") = 1
               /\ Strings.Count (test_block fn) (named_case "test case 2") = 1)
       (Functions data).
Proof.
  intros Hall.
  assert (Forall (fun fn => test_block fn = table_block (Name fn)) (Functions data)) as Hshape.
  { eapply Forall_impl; [exact Hall|]. intros [name flag] [Hflag _].
    cbn in Hflag. subst flag. apply test_block_table. }
  split.
  - rewrite Execute_TestTemplate. unfold rendered.
    by rewrite (map_ext_Forall _ _ Hshape).
  - eapply Forall_impl; [exact (proj2 (Forall_and _ _) (conj Hall Hshape))|].
    intros fn [[_ Hid] ->]. split; [done|]. by apply table_block_cases.
Qed.

(** C7: with the flag unset, the text written is the preamble followed by
    one flat block for each function: the line of the test function, one
    comment [// TODO: Write test for] followed by the name, and the
    closing brace.  A flat block has no entry that names a case, no
    declaration of cases and no loop over cases. *)
Theorem C7_flat_block_is_a_placeholder (data : TestData) :
  Forall (fun fn => TableDriven fn = false /\ identifier_bytes (Name fn)) (Functions data) ->
  Template.Execute TestTemplate (TestData_value data)
  = (preamble (Package data)
     +:+ concat_strings (map (fun fn => flat_block (Name fn)) (Functions data)) +:+ LF,
     None)
  /\ Forall (fun fn =>
               test_block fn
               = LF +:+ "func Test" +:+ Name fn +:+ "(t *testing.T) {" +:+ LF
                 +:+ TAB +:+ LF
                 +:+ TAB +:+ "// TODO: Write test for " +:+ Name fn +:+ LF
                 +:+ TAB +:+ LF
                 +:+ "}" +:+ LF
               /\ Strings.Count (test_block fn) "// TODO: Write test for " = 1
               /\ Strings.Count (test_block fn) "//" = 1
               /\ Strings.Count (test_block fn) case_entry = 0
               /\ Strings.Count (test_block fn) cases_declaration = 0
               /\ Strings.Count (test_block fn) cases_loop = 0)
       (Functions data).
Proof.
  intros Hall.
  assert (Forall (fun fn => test_block fn = flat_block (Name fn)) (Functions data)) as Hshape.
  { eapply Forall_impl; [exact Hall|]. intros [name flag] [Hflag _].
    cbn in Hflag. subst flag. apply test_block_flat. }
  split.
  - rewrite Execute_TestTemplate. unfold rendered.
    by rewrite (map_ext_Forall _ _ Hshape).
  - eapply Forall_impl; [exact (proj2 (Forall_and _ _) (conj Hall Hshape))|].
    intros fn [[_ Hid] Heq]. split.
    + rewrite Heq. unfold flat_block, flat_head, flat_tail.
      rewrite !append_assoc. reflexivity.
    + rewrite Heq. destruct (flat_block_marks (Name fn) Hid) as (? & ? & ? & ?).
      repeat split; try done. count_two_holes 0.
Qed.


(** C8: for a unit that has an exported function and whose base name is
    [stem.go], the output path is [stem_test.go] in the directory of the
    source when no output directory is given, and [stem_test.go] in the
    output directory otherwise; in that case the output directory, given
    without an element [..], and the directories above it are made when
    they are missing, and nothing else of the tree changes.  The
    existence check, the file written and the line printed are all at
    that path. *)
Theorem C8_companion_path w path outputDir tableTests src node stem tree :
  file_at w path = Some (Regular src) ->
  parse_source path src = Ok node ->
  exportedFunctions tableTests (Ast.Decls node) <> [] ->
  Strings.HasSuffix path ".go" = true ->
  Filepath.Base path = stem +:+ ".go" ->
  ".." ∉ Filepath.elements outputDir ->
  prepared w outputDir = Some tree ->
  let outputPath :=
    Filepath.Join (if String.eqb outputDir EmptyString then Filepath.Dir path else outputDir)
      (stem +:+ "_test.go") in
  (if String.eqb outputDir EmptyString then tree = root w
   else forall es, kind_at es tree
                   = if decide (es `prefix_of` Os.resolve w outputDir) then Some Dir
                     else kind_at es (root w))
  /\ match kind_at (Os.resolve w outputPath) tree with
     | Some _ =>
         generateTestForFile path outputDir tableTests w
         = (Err (Errorf ("test file already exists: " +:+ outputPath)), w)
     | None =>
         exists tree',
           generateTestForFile path outputDir tableTests w
           = (Ok tt, with_line (with_tree w tree') ("Generated test file: " +:+ outputPath))
           /\ forall es, kind_at es tree'
                         = if decide (es = Os.resolve w outputPath)
                           then Some (Regular (companion_text tableTests node))
                           else kind_at es tree
     end.
Proof.
  intros Hfile Hparse Hsome Hgo Hbase _ Hprep outputPath.
  assert (outputPath = companion_path path outputDir) as ->.
  { unfold outputPath, companion_path, companion_name.
    by rewrite Hbase, TrimSuffix_append. }
  split.
  - unfold prepared in Hprep.
    destruct (String.eqb outputDir EmptyString); [by simplify_eq|].
    by apply mkdir_all_kind_at.
  - pose proof (generate_testable_outcome _ _ _ _ _ _ _ Hfile Hparse Hsome Hgo Hprep) as Hout.
    destruct (kind_at (Os.resolve w (companion_path path outputDir)) tree) as [k|].
    + destruct Hout as [-> ->]. by rewrite with_tree_root.
    + destruct Hout as (tree' & Hput & ->). exists tree'. split; [done|].
      by apply put_file_kind_at.
Qed.

(** C9: a function declaration with an exported name is selected whether
    or not it has a receiver, under the name of the function alone, at
    its place in the order of the source; its test block is the block of
    that name. *)
Theorem C9_exported_methods_are_included tableTests decls1 recv name decls2 :
  IsExported name = true ->
  exportedFunctions tableTests (decls1 ++ Ast.FuncDecl recv name :: decls2)
  = exportedFunctions tableTests decls1
    ++ mkFunctionData name tableTests :: exportedFunctions tableTests decls2
  /\ exportedFunctions tableTests [ Ast.FuncDecl recv name ]
     = exportedFunctions tableTests [ Ast.FuncDecl None name ]
  /\ test_block (mkFunctionData name tableTests)
     = if tableTests then table_block name else flat_block name.
Proof.
  intros Hexp. split; [|split].
  - unfold exportedFunctions. rewrite fold_left_app. cbn [fold_left appendExported].
    rewrite Hexp, !fold_appendExported. cbn [app]. by rewrite <- app_assoc.
  - reflexivity.
  - destruct tableTests; [apply test_block_table | apply test_block_flat].
Qed.

(** C10 (amended): with an output directory, the output path is made of
    that directory and of the base name of the source, so that two
    sources with the same base name have the same output path.  When both
    parse and have an exported function, and the output directory, given
    without an element [..], can be made, then once the first is
    processed, the processing of the second, at once or after other units
    were processed (the world [w2] has all that the first one left),
    fails with the error [test file already exists] and leaves the world
    as it was. *)
Theorem C10_same_base_name_collides
    w path1 path2 outputDir tableTests src1 node1 src2 node2 tree r1 w1 w2 :
  outputDir <> EmptyString ->
  ".." ∉ Filepath.elements outputDir ->
  Filepath.Base path1 = Filepath.Base path2 ->
  Strings.HasSuffix path1 ".go" = true ->
  Strings.HasSuffix path2 ".go" = true ->
  file_at w path1 = Some (Regular src1) ->
  parse_source path1 src1 = Ok node1 ->
  exportedFunctions tableTests (Ast.Decls node1) <> [] ->
  file_at w path2 = Some (Regular src2) ->
  parse_source path2 src2 = Ok node2 ->
  exportedFunctions tableTests (Ast.Decls node2) <> [] ->
  prepared w outputDir = Some tree ->
  generateTestForFile path1 outputDir tableTests w = (r1, w1) ->
  extends w1 w2 ->
  companion_path path1 outputDir = companion_path path2 outputDir
  /\ companion_path path2 outputDir
     = Filepath.Join outputDir
         (Strings.TrimSuffix (Filepath.Base path2) ".go" +:+ "_test.go")
  /\ generateTestForFile path2 outputDir tableTests w2
     = (Err (Errorf ("test file already exists: " +:+ companion_path path2 outputDir)), w2).
Proof.
  intros Hne _ Hbase Hgo1 Hgo2 Hfile1 Hparse1 Hsome1 Hfile2 Hparse2 Hsome2 Hprep Hrun Hlater.
  assert (companion_path path1 outputDir = companion_path path2 outputDir) as Hsame
    by (unfold companion_path, companion_name;
        by rewrite Hbase, (proj2 (String.eqb_neq _ _) Hne)).
  split; [done|]. split.
  { unfold companion_path, companion_name.
    by rewrite (proj2 (String.eqb_neq _ _) Hne). }
  pose proof (generate_extends outputDir tableTests _ _ _ _ Hrun) as Hfirst.
  destruct Hfirst as [Hcwd1 Hkeep1]. destruct Hlater as [Hcwd2 Hkeep2].
  assert (forall p, Os.resolve w2 p = Os.resolve w p) as Hres
    by (intros p; unfold Os.resolve, Os.Getwd; by rewrite Hcwd2, Hcwd1).
  assert (file_at w2 path2 = Some (Regular src2)) as Hfile2'
    by (unfold file_at; rewrite Hres; apply Hkeep2, Hkeep1; exact Hfile2).
  assert (exists k, file_at w2 (companion_path path2 outputDir) = Some k) as [k Hk].
  { rewrite <- Hsame. unfold file_at. rewrite Hres.
    pose proof (generate_testable_outcome _ _ _ _ _ _ _ Hfile1 Hparse1 Hsome1 Hgo1 Hprep)
      as Hout.
    destruct (kind_at (Os.resolve w (companion_path path1 outputDir)) tree) as [k|] eqn:Hk.
    - destruct Hout as [Hout ->]. rewrite Hout in Hrun. simplify_eq.
      exists k. by apply Hkeep2.
    - destruct Hout as (tree' & Hput & Hout). rewrite Hout in Hrun. simplify_eq.
      exists (Regular (companion_text tableTests node1)). apply Hkeep2.
      cbn [root with_line with_tree].
      by rewrite (put_file_kind_at _ _ _ _ Hput), decide_True. }
  by eapply generate_collision.
Qed.

End Claims.

(** * The other functions *)

Section ProjectFacts.

Implicit Types (w : world) (path dir line prefix : string) (tree : gmap string fsnode).

Lemma bind_bind {A B C} (m : M A) (f : A -> M B) (g : B -> M C) w :
  bind (bind m f) g w = bind m (fun x => bind (f x) g) w.
Proof. unfold bind. by destruct (m w) as [[a|e] w1]. Qed.

Lemma bind_Println {A} line (k : unit -> M A) w :
  bind (Os.Println line) k w = k tt (with_line w line).
Proof. reflexivity. Qed.

Lemma bind_if_Println {A} (b : bool) line1 line2 (k : unit -> M A) w :
  bind (if b then Os.Println line1 else Os.Println line2) k w
  = k tt (with_line w (if b then line1 else line2)).
Proof. by destruct b. Qed.

Lemma bind_Abs {A} prefix path (k : string -> M A) w :
  bind (wrap prefix (Abs path)) k w = k (abs_path w path) w.
Proof. unfold bind, wrap, Abs, abs_path. by destruct (Filepath.IsAbs path). Qed.

Lemma bind_Getwd {A} prefix (k : string -> M A) w :
  bind (wrap prefix Getwd) k w = k (Os.Getwd w) w.
Proof. reflexivity. Qed.

Lemma abs_path_with_line w line path : abs_path (with_line w line) path = abs_path w path.
Proof. reflexivity. Qed.

Lemma resolve_with_line w line path : Os.resolve (with_line w line) path = Os.resolve w path.
Proof. reflexivity. Qed.

Lemma Getwd_with_line w line : Os.Getwd (with_line w line) = Os.Getwd w.
Proof. reflexivity. Qed.

Lemma lookup_node_kind es tree :
  kind_at es tree
  = match Os.lookup_node es tree with
    | Some (RegularFile data) => Some (Regular data)
    | Some (Directory _) => Some Dir
    | None => None
    end.
Proof. reflexivity. Qed.

(** Going back to the working directory of [w0]. *)
Lemma Chdir_back w0 w :
  settled w0 (root w) ->
  Os.Chdir (Os.Getwd w0) w = (Ok tt, returned w0 w).
Proof.
  intros [Hplain Hdir]. unfold Os.Chdir.
  change (Os.Getwd w0) with (rooted_path (cwd w0)).
  rewrite resolve_rooted_path by done.
  rewrite lookup_node_kind in Hdir.
  by destruct (Os.lookup_node (cwd w0) (root w)) as [[data|sub]|].
Qed.

(** Going back when the working directory has not been left. *)
Lemma Chdir_back_same w0 w :
  Forall plain (cwd w0) -> cwd w = cwd w0 ->
  snd (Os.Chdir (Os.Getwd w0) w) = w.
Proof.
  intros Hplain Hcwd. unfold Os.Chdir.
  change (Os.Getwd w0) with (rooted_path (cwd w0)).
  rewrite resolve_rooted_path by done.
  destruct (Os.lookup_node (cwd w0) (root w)) as [[data|sub]|]; [done| |done].
  destruct w. by simplify_eq/=.
Qed.

Lemma Chdir_entered w dir :
  file_at w dir = Some Dir -> Os.Chdir dir w = (Ok tt, entered w dir).
Proof.
  unfold file_at, Os.Chdir. rewrite lookup_node_kind.
  by destruct (Os.lookup_node (Os.resolve w dir) (root w)) as [[data|sub]|].
Qed.

Lemma Chdir_refused w dir :
  file_at w dir <> Some Dir ->
  exists detail, Os.Chdir dir w = (Err (Errorf detail), w).
Proof.
  unfold file_at, Os.Chdir. rewrite lookup_node_kind.
  destruct (Os.lookup_node (Os.resolve w dir) (root w)) as [[data|sub]|];
    [by eexists|done|by eexists].
Qed.

(** Moving to a directory that is there, and the deferred return. *)
Lemma defer_Chdir_entered w0 dir (body : M unit) w :
  file_at w dir = Some Dir ->
  defer (Os.Chdir (Os.Getwd w0))
    (do wrap "failed to change to project directory: " (Os.Chdir dir); body) w
  = (fst (body (entered w dir)),
     snd (Os.Chdir (Os.Getwd w0) (snd (body (entered w dir))))).
Proof.
  intros Hdir. unfold defer, bind, wrap. rewrite (Chdir_entered _ _ Hdir).
  destruct (body (entered w dir)) as [r w1]. cbn [fst snd].
  by destruct (Os.Chdir (Os.Getwd w0) w1).
Qed.

(** The same, with the outcome of the body and the return to the working
    directory. *)
Lemma defer_Chdir_run w0 dir (body : M unit) w r w1 :
  file_at w dir = Some Dir ->
  body (entered w dir) = (r, w1) ->
  settled w0 (root w1) ->
  defer (Os.Chdir (Os.Getwd w0))
    (do wrap "failed to change to project directory: " (Os.Chdir dir); body) w
  = (r, returned w0 w1).
Proof.
  intros Hdir Hbody Hsettled. rewrite defer_Chdir_entered by done.
  rewrite Hbody. cbn [fst snd]. by rewrite Chdir_back.
Qed.

(** Moving to what is not a directory fails, and nothing is done. *)
Lemma defer_Chdir_refused w0 dir (body : M unit) w :
  file_at w dir <> Some Dir ->
  Forall plain (cwd w0) -> cwd w = cwd w0 ->
  exists detail,
    defer (Os.Chdir (Os.Getwd w0))
      (do wrap "failed to change to project directory: " (Os.Chdir dir); body) w
    = (Err (Errorf ("failed to change to project directory: " +:+ detail)), w).
Proof.
  intros Hdir Hplain Hcwd. unfold defer, bind, wrap.
  destruct (Chdir_refused _ _ Hdir) as [detail ->]. exists detail.
  pose proof (Chdir_back_same w0 w Hplain Hcwd) as Hback.
  destruct (Os.Chdir (Os.Getwd w0) w) as [r0 w2]. cbn [snd] in Hback. by subst w2.
Qed.

(** A command whose outcome is known. *)
Lemma bind_output_of `{Commands} {A} command message (k : string -> M A) w output err tree :
  run_command command (cwd w) (root w) = (output, err, tree) ->
  bind (output_of command message) k w
  = match err with
    | Some e => (Err (Errorf (message e output)), mkWorld tree (cwd w) (stdout w))
    | None => k output (mkWorld tree (cwd w) (stdout w))
    end.
Proof.
  intros Hrun. unfold bind, output_of, Exec.CombinedOutput. rewrite Hrun.
  by destruct err.
Qed.

Lemma bind_output_of_at `{Commands} {A} command message (k : string -> M A) w
    (place : list string) tree0 output err tree :
  run_command command place tree0 = (output, err, tree) ->
  cwd w = place -> root w = tree0 ->
  bind (output_of command message) k w
  = match err with
    | Some e => (Err (Errorf (message e output)), mkWorld tree (cwd w) (stdout w))
    | None => k output (mkWorld tree (cwd w) (stdout w))
    end.
Proof. intros Hrun <- <-. by apply bind_output_of. Qed.

End ProjectFacts.

(** ** Facts on the package [dependency] *)

Section DependencyFacts.

Context `{Commands}.

Implicit Types (w : world) (path dir line : string) (tree : gmap string fsnode)
  (lines outdated : list string).

Lemma fold_appendOutdated lines outdated :
  fold_left appendOutdated lines outdated = outdated ++ List.filter bracketed lines.
Proof.
  revert outdated. induction lines as [|line lines IH]; intros outdated.
  - by rewrite app_nil_r.
  - cbn [fold_left]. rewrite IH. unfold appendOutdated.
    fold (bracketed line). cbn [List.filter].
    destruct (bracketed line); [by rewrite <- app_assoc|done].
Qed.

Lemma printOutdated_lines outdated w :
  printOutdated outdated w
  = (Ok tt, mkWorld (root w) (cwd w)
              (stdout w ++ map (fun dep => "- " +:+ dep) outdated)).
Proof.
  revert w. induction outdated as [|dep outdated IH]; intros w.
  - cbn. rewrite app_nil_r. by destruct w.
  - cbn [printOutdated]. rewrite bind_Println, IH. cbn [with_line root cwd stdout map].
    by rewrite <- app_assoc.
Qed.

(** The display of the results in [CheckOutdated]. *)
Lemma display_outdated outdated w :
  (do (if (0 <? length outdated)%nat then
         do Os.Println (LF +:+ "Outdated Dependencies:");
         do printOutdated outdated;
         Os.Println (LF +:+ "Use 'goforge dependency update' to update them.")
       else
         Os.Println (LF +:+ "All dependencies are up to date!"));
   ret tt) w
  = (Ok tt, mkWorld (root w) (cwd w) (stdout w ++ outdated_report outdated)).
Proof.
  destruct outdated as [|dep deps].
  - cbn [length Nat.ltb Nat.leb]. by rewrite !bind_Println.
  - cbn [length Nat.ltb Nat.leb]. rewrite !bind_bind, bind_Println.
    cbv beta. rewrite bind_bind. unfold bind at 1. rewrite printOutdated_lines.
    rewrite !bind_Println. unfold with_line, ret.
    cbn [root cwd stdout outdated_report]. by rewrite <- !app_assoc.
Qed.

(** X1. [CheckSecurity] looks at nothing in the project: for every project
    directory it prints the same lines, returns [nil], and leaves the file
    tree and the working directory as they were. *)
Theorem CheckSecurity_reports_the_same_for_every_project path w :
  settled w (root w) ->
  file_at w (abs_path w path) = Some Dir ->
  CheckSecurity path w
  = (Ok tt,
     mkWorld (root w) (cwd w)
       (stdout w
        ++ ("Checking dependencies for security vulnerabilities in: " +:+ path)
           :: security_report)).
Proof.
  intros Hsettled Hdir. unfold CheckSecurity.
  rewrite bind_Println, bind_Abs, bind_Getwd, abs_path_with_line, Getwd_with_line.
  erewrite defer_Chdir_run; [|exact Hdir|by rewrite !bind_Println|exact Hsettled].
  unfold returned, with_line, entered, security_report. cbn [root cwd stdout].
  by rewrite <- !app_assoc.
Qed.

(** X2. [CheckOutdated], when [go list] succeeds: the lines of its output
    that hold both brackets, wherever they stand in the line, are printed in
    their order between two lines of text, and when there is none the one
    line [All dependencies are up to date!] is printed; the result is [nil]
    and the working directory is the one before the call. *)
Theorem CheckOutdated_lists_the_bracketed_lines path w output tree :
  file_at w (abs_path w path) = Some Dir ->
  run_command [ "go"; "list"; "-m"; "-u"; "all" ]
    (Os.resolve w (abs_path w path)) (root w) = (output, None, tree) ->
  settled w tree ->
  CheckOutdated path w
  = (Ok tt,
     mkWorld tree (cwd w)
       (stdout w
        ++ ("Checking for outdated dependencies in: " +:+ path)
           :: outdated_report (List.filter bracketed (Strings.Split output "010"%char)))).
Proof.
  intros Hdir Hrun Hsettled. unfold CheckOutdated.
  rewrite bind_Println, bind_Abs, bind_Getwd, abs_path_with_line, Getwd_with_line.
  erewrite defer_Chdir_run; [|exact Hdir| |].
  2: { rewrite (bind_output_of _ _ _ (entered (with_line w _) _) output None tree Hrun).
       rewrite fold_appendOutdated. cbn [app]. apply display_outdated. }
  - unfold returned, with_line, entered. cbn [root cwd stdout].
    by rewrite <- !app_assoc.
  - exact Hsettled.
Qed.

(** X3. [CheckOutdated], when [go list] fails: the error is that of the
    command under [failed to check dependencies], what the command wrote is
    dropped, and nothing is printed after the first line. *)
Theorem CheckOutdated_drops_the_output_of_a_failed_command path w output e tree :
  file_at w (abs_path w path) = Some Dir ->
  run_command [ "go"; "list"; "-m"; "-u"; "all" ]
    (Os.resolve w (abs_path w path)) (root w) = (output, Some e, tree) ->
  settled w tree ->
  CheckOutdated path w
  = (Err (Errorf ("failed to check dependencies: " +:+ Error e)),
     mkWorld tree (cwd w)
       (stdout w ++ [ "Checking for outdated dependencies in: " +:+ path ])).
Proof.
  intros Hdir Hrun Hsettled. unfold CheckOutdated.
  rewrite bind_Println, bind_Abs, bind_Getwd, abs_path_with_line, Getwd_with_line.
  erewrite defer_Chdir_run; [|exact Hdir| |].
  2: { rewrite (bind_output_of _ _ _ (entered (with_line w _) _) output (Some e) tree Hrun).
       reflexivity. }
  - reflexivity.
  - exact Hsettled.
Qed.

(** X4. [Update], when [go get] fails: the error holds the error and the
    output of the command, [go mod tidy] is not run (the file tree is the
    one [go get] left), and nothing is printed after the first line. *)
Theorem Update_stops_when_the_update_fails path w output e tree :
  file_at w (abs_path w path) = Some Dir ->
  run_command [ "go"; "get"; "-u"; "./..." ]
    (Os.resolve w (abs_path w path)) (root w) = (output, Some e, tree) ->
  settled w tree ->
  Update path w
  = (Err (Errorf ("failed to update dependencies: " +:+ Error e
                  +:+ LF +:+ "Output: " +:+ output)),
     mkWorld tree (cwd w) (stdout w ++ [ "Updating dependencies in: " +:+ path ])).
Proof.
  intros Hdir Hrun Hsettled. unfold Update.
  rewrite bind_Println, bind_Abs, bind_Getwd, abs_path_with_line, Getwd_with_line.
  erewrite defer_Chdir_run; [|exact Hdir| |].
  2: { rewrite (bind_output_of _ _ _ (entered (with_line w _) _) output (Some e) tree Hrun).
       reflexivity. }
  - reflexivity.
  - exact Hsettled.
Qed.

(** X5. [Update], when [go get] succeeds: [go mod tidy] is run in the same
    directory on the file tree that [go get] left. When it fails its error
    is returned, although the line [Dependencies updated successfully!] has
    been printed; when it succeeds the result is [nil] and a last line is
    printed. *)
Theorem Update_tidies_what_the_update_left path w output1 tree1 output2 err2 tree2 :
  file_at w (abs_path w path) = Some Dir ->
  run_command [ "go"; "get"; "-u"; "./..." ]
    (Os.resolve w (abs_path w path)) (root w) = (output1, None, tree1) ->
  run_command [ "go"; "mod"; "tidy" ]
    (Os.resolve w (abs_path w path)) tree1 = (output2, err2, tree2) ->
  settled w tree2 ->
  Update path w
  = (match err2 with
     | Some e => Err (Errorf ("failed to tidy dependencies: " +:+ Error e
                              +:+ LF +:+ "Output: " +:+ output2))
     | None => Ok tt
     end,
     mkWorld tree2 (cwd w)
       (stdout w
        ++ [ "Updating dependencies in: " +:+ path;
             "Dependencies updated successfully!";
             LF +:+ "Running 'go mod tidy' to clean up go.mod and go.sum..." ]
        ++ match err2 with
           | Some _ => []
           | None => [ "Dependencies tidied successfully!" ]
           end)).
Proof.
  intros Hdir Hget Htidy Hsettled. unfold Update.
  rewrite bind_Println, bind_Abs, bind_Getwd, abs_path_with_line, Getwd_with_line.
  rewrite (defer_Chdir_run w _ _ _
             (match err2 with
              | Some e => Err (Errorf (with_output "failed to tidy dependencies: " e output2))
              | None => Ok tt
              end)
             (mkWorld tree2 (Os.resolve w (abs_path w path))
                (stdout w
                 ++ [ "Updating dependencies in: " +:+ path;
                      "Dependencies updated successfully!";
                      LF +:+ "Running 'go mod tidy' to clean up go.mod and go.sum..." ]
                 ++ match err2 with
                    | Some _ => []
                    | None => [ "Dependencies tidied successfully!" ]
                    end))).
  - done.
  - exact Hdir.
  - rewrite (bind_output_of _ _ _ (entered (with_line w _) _) output1 None tree1 Hget).
    rewrite !bind_Println.
    rewrite (bind_output_of_at _ _ _ _ _ _ _ _ _ Htidy) by reflexivity.
    unfold with_line, entered. cbn [root cwd stdout].
    destruct err2 as [e|].
    + by rewrite <- !app_assoc, app_nil_r.
    + rewrite bind_Println. unfold with_line, ret. cbn [root cwd stdout].
      by rewrite <- !app_assoc.
  - exact Hsettled.
Qed.

(** X6. When the path is not a directory, each of the three functions fails
    with the error [failed to change to project directory], having printed
    its first line; no command is run, and the working directory and the
    file tree are as before. *)
Theorem dependency_functions_need_a_directory path w :
  Forall plain (cwd w) ->
  file_at w (abs_path w path) <> Some Dir ->
  (exists detail,
     CheckOutdated path w
     = (Err (Errorf ("failed to change to project directory: " +:+ detail)),
        with_line w ("Checking for outdated dependencies in: " +:+ path)))
  /\ (exists detail,
        Update path w
        = (Err (Errorf ("failed to change to project directory: " +:+ detail)),
           with_line w ("Updating dependencies in: " +:+ path)))
  /\ (exists detail,
        CheckSecurity path w
        = (Err (Errorf ("failed to change to project directory: " +:+ detail)),
           with_line w ("Checking dependencies for security vulnerabilities in: " +:+ path))).
Proof.
  intros Hplain Hdir. unfold CheckOutdated, Update, CheckSecurity.
  rewrite !bind_Println, !bind_Abs, !bind_Getwd, !abs_path_with_line, !Getwd_with_line.
  repeat split; by apply defer_Chdir_refused.
Qed.

End DependencyFacts.

(** ** Facts on the coverage *)

Section CoverageFacts.

Context `{Commands} `{Float64}.

Implicit Types (w : world) (path dir line outputFile : string) (tree : gmap string fsnode)
  (threshold : float64).

Lemma Forall_plain_resolve w path : Forall plain (cwd w) -> Forall plain (Os.resolve w path).
Proof.
  intros Hcwd. apply Forall_plain_clean_elements, Forall_app. split.
  - destruct (Filepath.IsAbs path); [done|]. by apply Forall_plain_element.
  - apply Forall_element_elements.
Qed.

(** A name in the directory the program has moved to. *)
Lemma resolve_in_entered w dir name tree out :
  Forall plain (cwd w) -> plain name ->
  Os.resolve (mkWorld tree (Os.resolve w dir) out) name = Os.resolve w dir ++ [name].
Proof.
  intros Hcwd Hname. unfold Os.resolve at 1. cbn [cwd].
  rewrite IsAbs_element by apply Hname.
  rewrite elements_element by apply Hname.
  apply clean_elements_plain, Forall_app. split; [by apply Forall_plain_resolve|].
  by apply Forall_singleton.
Qed.

Lemma plain_coverage_out : plain "coverage.out".
Proof. by repeat split. Qed.

(** The check of the coverage file after the tests, in the project. *)
Lemma StatIsNotExist_coverage w path tree out :
  Forall plain (cwd w) ->
  Os.StatIsNotExist "coverage.out" (mkWorld tree (project w path) out)
  = Os.missing (project w path ++ [ "coverage.out" ]) tree.
Proof.
  intros Hcwd. unfold Os.StatIsNotExist, project.
  by rewrite resolve_in_entered by (done || apply plain_coverage_out).
Qed.

(** X7. [AnalyzeCoverage], when a test fails or the tests cannot be run: the
    error holds the error and the output of [go test], no coverage is
    computed, and nothing is printed after the first line. *)
Theorem AnalyzeCoverage_fails_when_the_tests_fail
    path threshold outputFile w output e tree :
  file_at w (abs_path w path) = Some Dir ->
  run_command [ "go"; "test"; "./..."; "-coverprofile=coverage.out" ]
    (project w path) (root w) = (output, Some e, tree) ->
  settled w tree ->
  AnalyzeCoverage path threshold outputFile w
  = (Err (Errorf ("failed to run tests with coverage: " +:+ Error e
                  +:+ LF +:+ "Output: " +:+ output)),
     mkWorld tree (cwd w) (stdout w ++ [ coverage_header path threshold ])).
Proof.
  intros Hdir Htest Hsettled. unfold AnalyzeCoverage.
  rewrite bind_Println, !bind_Abs, bind_Getwd, !abs_path_with_line, Getwd_with_line.
  erewrite defer_Chdir_run; [|exact Hdir| |].
  2: { rewrite (bind_output_of_at _ _ _ _ _ _ _ _ _ Htest) by reflexivity.
       reflexivity. }
  - reflexivity.
  - exact Hsettled.
Qed.

(** X8. [AnalyzeCoverage], when the tests pass and leave no file
    [coverage.out] in the project: the error is [coverage file was not
    created, ensure tests exist], and no other command is run. *)
Theorem AnalyzeCoverage_needs_the_coverage_file
    path threshold outputFile w output tree :
  file_at w (abs_path w path) = Some Dir ->
  run_command [ "go"; "test"; "./..."; "-coverprofile=coverage.out" ]
    (project w path) (root w) = (output, None, tree) ->
  Os.missing (project w path ++ [ "coverage.out" ]) tree = true ->
  settled w tree ->
  AnalyzeCoverage path threshold outputFile w
  = (Err (Errorf "coverage file was not created, ensure tests exist"),
     mkWorld tree (cwd w) (stdout w ++ [ coverage_header path threshold ])).
Proof.
  intros Hdir Htest Hmissing Hsettled. unfold AnalyzeCoverage.
  rewrite bind_Println, !bind_Abs, bind_Getwd, !abs_path_with_line, Getwd_with_line.
  erewrite defer_Chdir_run; [|exact Hdir| |].
  2: { rewrite (bind_output_of_at _ _ _ _ _ _ _ _ _ Htest) by reflexivity.
       unfold entered. cbn [root cwd stdout]. rewrite resolve_with_line.
       fold (project w path).
       rewrite StatIsNotExist_coverage by apply Hsettled.
       rewrite Hmissing. reflexivity. }
  - reflexivity.
  - exact Hsettled.
Qed.

(** X9. [AnalyzeCoverage], when the three commands succeed: the result is
    [nil] whether or not the total is below the threshold; the threshold
    decides the last line only, [WARNING] when the total is below it and
    [SUCCESS] otherwise. The total is read from the output of [go tool cover
    -func], and the report is written at the absolute path of [outputFile],
    taken before the program moves to the project. *)
Theorem AnalyzeCoverage_never_fails_on_the_threshold
    path threshold outputFile w output1 tree1 funcOutput tree2 output3 tree3 :
  file_at w (abs_path w path) = Some Dir ->
  run_command [ "go"; "test"; "./..."; "-coverprofile=coverage.out" ]
    (project w path) (root w) = (output1, None, tree1) ->
  Os.missing (project w path ++ [ "coverage.out" ]) tree1 = false ->
  run_command [ "go"; "tool"; "cover"; "-func=coverage.out" ]
    (project w path) tree1 = (funcOutput, None, tree2) ->
  run_command [ "go"; "tool"; "cover"; "-html=coverage.out"; "-o"; abs_path w outputFile ]
    (project w path) tree2 = (output3, None, tree3) ->
  settled w tree3 ->
  let total := scanTotal (Strings.Split funcOutput "010"%char) in
  AnalyzeCoverage path threshold outputFile w
  = (Ok tt,
     mkWorld tree3 (cwd w)
       (stdout w
        ++ [ coverage_header path threshold;
             LF +:+ "Coverage Results:";
             funcOutput;
             LF +:+ "Total coverage: " +:+ Sprintf_1f total +:+ "%";
             "Coverage HTML report generated at: " +:+ abs_path w outputFile;
             verdict total threshold ])).
Proof.
  intros Hdir Htest Hfile Hfunc Hhtml Hsettled total. unfold AnalyzeCoverage.
  rewrite bind_Println, !bind_Abs, bind_Getwd, !abs_path_with_line, Getwd_with_line.
  erewrite defer_Chdir_run; [|exact Hdir| |].
  2: { rewrite (bind_output_of_at _ _ _ _ _ _ _ _ _ Htest) by reflexivity.
       unfold entered. cbn [root cwd stdout]. rewrite resolve_with_line.
       fold (project w path).
       rewrite StatIsNotExist_coverage by apply Hsettled.
       rewrite Hfile.
       rewrite (bind_output_of_at _ _ _ _ _ _ _ _ _ Hfunc) by reflexivity.
       cbv beta iota. rewrite !bind_Println.
       rewrite (bind_output_of_at _ _ _ _ _ _ _ _ _ Hhtml) by reflexivity.
       cbv beta iota zeta. fold total. rewrite !bind_Println.
       rewrite bind_if_Println. fold (verdict total threshold). reflexivity. }
  - unfold returned, with_line, coverage_header. cbn [root cwd stdout].
    by rewrite <- !app_assoc.
  - exact Hsettled.
Qed.

End CoverageFacts.

(** ** Facts on the fields *)

Section FieldsFacts.

Implicit Types (s rest : string) (c : ascii) (field : option string).

Lemma runes_ascii c s :
  (nat_of_ascii c <? 128)%nat = true ->
  runes (String c s) = (Utf8.byte_of c, String c EmptyString) :: runes s.
Proof.
  intros Hc. unfold runes. cbn [String.length runes_upto].
  assert (Utf8.first (Utf8.byte_of c) = Some (1, 0, 0)%Z) as Hfirst.
  { unfold Utf8.first, Utf8.byte_of.
    apply Nat.ltb_lt in Hc.
    by rewrite (proj2 (Z.ltb_lt _ _)) by lia. }
  unfold Utf8.DecodeRuneInString. rewrite Hfirst. reflexivity.
Qed.

Lemma fields_word_byte field c s :
  word_byte c = true ->
  fields_from field (runes (String c s))
  = fields_from (Some (match field with
                       | Some f => f +:+ String c EmptyString
                       | None => String c EmptyString
                       end)) (runes s).
Proof.
  intros [Hc Hw]%andb_true_iff. rewrite runes_ascii by done.
  cbn [fields_from]. by rewrite (negb_true_iff _) in Hw; rewrite Hw.
Qed.

Lemma fields_space_byte field c s :
  space_byte c = true ->
  fields_from field (runes (String c s))
  = match field with
    | Some f => f :: fields_from None (runes s)
    | None => fields_from None (runes s)
    end.
Proof.
  intros [Hc Hw]%andb_true_iff. rewrite runes_ascii by done.
  cbn [fields_from]. by rewrite Hw.
Qed.

(** A word that goes on. *)
Lemma fields_word_bytes f s rest :
  all_bytes word_byte s = true ->
  fields_from (Some f) (runes (s +:+ rest)) = fields_from (Some (f +:+ s)) (runes rest).
Proof.
  revert f. induction s as [|c s IH]; intros f Hs.
  - by rewrite append_nil_l, append_nil_r.
  - cbn [all_bytes] in Hs. apply andb_true_iff in Hs as [Hc Hs].
    rewrite append_cons, fields_word_byte by done. rewrite IH by done.
    by rewrite append_assoc.
Qed.

(** A word that begins. *)
Lemma fields_word s rest :
  word s -> fields_from None (runes (s +:+ rest)) = fields_from (Some s) (runes rest).
Proof.
  intros [Hne Hs]. destruct s as [|c s]; [done|].
  cbn [all_bytes] in Hs. apply andb_true_iff in Hs as [Hc Hs].
  rewrite append_cons, fields_word_byte by done. by rewrite fields_word_bytes.
Qed.

(** White space after nothing. *)
Lemma fields_space_bytes s rest :
  all_bytes space_byte s = true ->
  fields_from None (runes (s +:+ rest)) = fields_from None (runes rest).
Proof.
  induction s as [|c s IH]; intros Hs; [by rewrite append_nil_l|].
  cbn [all_bytes] in Hs. apply andb_true_iff in Hs as [Hc Hs].
  rewrite append_cons, fields_space_byte by done. by apply IH.
Qed.

(** White space that ends a field. *)
Lemma fields_blanks f s rest :
  blanks s ->
  fields_from (Some f) (runes (s +:+ rest)) = f :: fields_from None (runes rest).
Proof.
  intros [Hne Hs]. destruct s as [|c s]; [done|].
  cbn [all_bytes] in Hs. apply andb_true_iff in Hs as [Hc Hs].
  rewrite append_cons, fields_space_byte by done. by rewrite fields_space_bytes.
Qed.

(** A word that ends the text. *)
Lemma fields_last_word s : word s -> fields_from None (runes s) = [ s ].
Proof.
  intros Hs. transitivity (fields_from None (runes (s +:+ EmptyString))).
  - by rewrite append_nil_r.
  - by rewrite fields_word.
Qed.

(** The fields of three words. *)
Lemma Fields_three_words (a ws1 b ws2 d : string) :
  word a -> blanks ws1 -> word b -> blanks ws2 -> word d ->
  Fields (a +:+ ws1 +:+ b +:+ ws2 +:+ d) = [ a; b; d ].
Proof.
  intros Ha H1 Hb H2 Hd. unfold Fields.
  rewrite fields_word, fields_blanks, fields_word, fields_blanks by done.
  by rewrite fields_last_word.
Qed.

Lemma word_append (a b : string) : word a -> all_bytes word_byte b = true -> word (a +:+ b).
Proof.
  intros [Hne Ha] Hb. split; [by destruct a|].
  clear Hne. induction a as [|x a IH]; [by rewrite append_nil_l|].
  cbn [all_bytes] in Ha. apply andb_true_iff in Ha as [Hx Ha].
  rewrite append_cons. cbn [all_bytes]. by rewrite Hx, IH.
Qed.

End FieldsFacts.

(** ** Facts on the total *)

Section TotalFacts.

Context `{Float64}.

Implicit Types (line pct : string) (lines before after : list string).

Lemma scanTotal_passed_over line lines :
  passed_over line -> scanTotal (line :: lines) = scanTotal lines.
Proof.
  intros [Hno|Hshort]; cbn [scanTotal].
  - by rewrite Hno.
  - destruct (Strings.Contains line "total:"); [|done].
    by rewrite (proj2 (Nat.leb_gt _ _)).
Qed.

Lemma scanTotal_app before lines :
  Forall passed_over before -> scanTotal (before ++ lines) = scanTotal lines.
Proof.
  induction 1 as [|line before Hline _ IH]; [done|].
  cbn [app]. by rewrite scanTotal_passed_over.
Qed.

Lemma Contains_prefix (s pattern : string) :
  s <> EmptyString -> Strings.HasPrefix s pattern = true -> Strings.Contains s pattern = true.
Proof.
  intros Hne Hp. destruct s as [|c s]; [done|].
  unfold Strings.Contains. rewrite Count_cons, Hp. reflexivity.
Qed.

(** X10. Without a line that holds [total:] and has three fields, and so for
    an empty output, the total is zero. *)
Theorem scanTotal_is_zero_without_a_total_line lines :
  Forall passed_over lines -> scanTotal lines = float64_zero.
Proof.
  intros Hlines. rewrite <- (app_nil_r lines). by rewrite scanTotal_app.
Qed.

(** X11. The total is read from the first line that holds [total:] and has
    three fields: for the line that [go tool cover -func] writes last,
    [total:], [(statements)] and a percentage between white space, it is the
    number that [Sscanf] reads in the percentage without its sign, and zero
    when [Sscanf] reads none; what comes after that line is not looked at. *)
Theorem scanTotal_reads_the_first_total_line before ws1 ws2 pct after :
  Forall passed_over before ->
  blanks ws1 -> blanks ws2 -> word pct ->
  scanTotal
    (before ++ ("total:" +:+ ws1 +:+ "(statements)" +:+ ws2 +:+ pct +:+ "%") :: after)
  = match Sscanf_f pct with
    | Some x => x
    | None => float64_zero
    end.
Proof.
  intros Hbefore H1 H2 Hpct. rewrite scanTotal_app by done. cbn [scanTotal].
  rewrite Contains_prefix; [|done|by apply (HasPrefix_append "total:")].
  rewrite (Fields_three_words "total:" ws1 "(statements)" ws2 (pct +:+ "%"));
    [|done|done|done|done|by apply word_append].
  cbn [length Nat.leb List.last]. by rewrite TrimSuffix_append.
Qed.

End TotalFacts.

(** ** More facts on [GenerateTests] and [generateTestForFile] *)

Section DriverFacts.

Context `{Toolchain}.

Implicit Types (w : world) (path outputDir src : string) (tableTests : bool)
  (node : Ast.File) (depth : nat).

Lemma GenerateTests_missing depth path outputDir tableTests w :
  file_at w (abs_path w path) = None ->
  exists detail,
    GenerateTests depth path outputDir tableTests w
    = Some (Err (Errorf ("failed to stat path: " +:+ detail)), started w path).
Proof.
  intros Hnone. unfold GenerateTests, Os.Println, wrap, Abs.
  change (mkWorld (root w) (cwd w) (stdout w ++ ["Generating tests for: " +:+ path]))
    with (started w path).
  change (Os.Getwd (started w path)) with (Os.Getwd w).
  assert (file_at (started w path) (abs_path w path) = None) as Hnone' by exact Hnone.
  destruct (Stat_missing _ _ Hnone') as [e Hstat].
  exists (Error e). unfold abs_path in *.
  destruct (Filepath.IsAbs path); by rewrite Hstat.
Qed.

Lemma GenerateTests_other depth path outputDir tableTests w data :
  file_at w (abs_path w path) = Some (Regular data) ->
  is_candidate (abs_path w path) = false ->
  GenerateTests depth path outputDir tableTests w
  = Some (Err (Errorf "path must be a directory or a Go file"), started w path).
Proof.
  intros Hfile Hcand. unfold GenerateTests, Os.Println, wrap, Abs.
  change (mkWorld (root w) (cwd w) (stdout w ++ ["Generating tests for: " +:+ path]))
    with (started w path).
  change (Os.Getwd (started w path)) with (Os.Getwd w).
  assert (file_at (started w path) (abs_path w path) = Some (Regular data)) as Hfile'
    by exact Hfile.
  unfold abs_path, is_candidate in *.
  destruct (Filepath.IsAbs path); rewrite (Stat_kind _ _ _ Hfile'); cbn [Os.IsDir];
    by rewrite Hcand.
Qed.

Lemma extends_started w path : extends w (started w path).
Proof. by split. Qed.

Lemma GenerateTests_extends depth path outputDir tableTests w r w' :
  GenerateTests depth path outputDir tableTests w = Some (r, w') -> extends w w'.
Proof.
  intros Hrun.
  destruct (file_at w (abs_path w path)) as [[data|]|] eqn:Hkind.
  - destruct (is_candidate (abs_path w path)) eqn:Hcand.
    + rewrite (GenerateTests_file outputDir tableTests depth path w data) in Hrun by done.
      injection Hrun as Hgen. apply generate_extends in Hgen.
      eapply extends_trans; [apply (extends_started w path)|done].
    + rewrite (GenerateTests_other _ _ _ _ _ _ Hkind Hcand) in Hrun.
      injection Hrun as _ <-. apply extends_started.
  - rewrite (GenerateTests_directory outputDir tableTests depth path w) in Hrun by done.
    unfold Walk in Hrun.
    rewrite (Lstat_kind (abs_path w path) (started w path) Dir) in Hrun by done.
    eapply extends_trans; [apply (extends_started w path)|].
    destruct (walk depth _ _ _ _) as [[[[]|e] wa]|] eqn:Hwalk; [| |done];
      apply walk_extends in Hwalk.
    + by injection Hrun as _ <-.
    + by destruct (decide _); injection Hrun as _ <-.
  - destruct (GenerateTests_missing depth path outputDir tableTests w Hkind) as [d Hd].
    rewrite Hd in Hrun. injection Hrun as _ <-. apply extends_started.
Qed.

(** X12. [GenerateTests] on a path that names nothing: the error is that of
    [os.Stat] under [failed to stat path], whatever the depth given to the
    walk, and nothing is done after the first line. *)
Theorem GenerateTests_fails_on_a_missing_path depth path outputDir tableTests w :
  file_at w (abs_path w path) = None ->
  exists detail,
    GenerateTests depth path outputDir tableTests w
    = Some (Err (Errorf ("failed to stat path: " +:+ detail)), started w path).
Proof. apply GenerateTests_missing. Qed.

(** X13. [GenerateTests] on a regular file that is not a Go file, or that is
    a test file: the error is [path must be a directory or a Go file], the
    file is not read and nothing is written. *)
Theorem GenerateTests_refuses_other_files depth path outputDir tableTests w data :
  file_at w (abs_path w path) = Some (Regular data) ->
  is_candidate (abs_path w path) = false ->
  GenerateTests depth path outputDir tableTests w
  = Some (Err (Errorf "path must be a directory or a Go file"), started w path).
Proof. apply GenerateTests_other. Qed.

(** X14. Whatever [GenerateTests] does and whatever it returns, what exists
    stays: no entry is removed, no directory is replaced, no regular file
    has its contents changed, and the working directory is kept. *)
Theorem GenerateTests_keeps_what_exists depth path outputDir tableTests w r w' es k :
  GenerateTests depth path outputDir tableTests w = Some (r, w') ->
  kind_at es (root w) = Some k ->
  kind_at es (root w') = Some k /\ cwd w' = cwd w.
Proof.
  intros Hrun Hk. destruct (GenerateTests_extends _ _ _ _ _ _ _ Hrun) as [Hcwd Hkeep].
  split; [by apply Hkeep|done].
Qed.

(** X15. [generateTestForFile] on a path that cannot be read as a file or
    whose text does not parse: the error is under [failed to parse Go file],
    and nothing is done: with an output directory given, that directory is
    not made. *)
Theorem generate_fails_before_any_effect path outputDir tableTests w :
  (forall src node, file_at w path = Some (Regular src) -> parse_source path src <> Ok node) ->
  exists detail,
    generateTestForFile path outputDir tableTests w
    = (Err (Errorf ("failed to parse Go file: " +:+ detail)), w).
Proof.
  intros Hbad. unfold generateTestForFile, bind, wrap, ParseFile, bind, Os.ReadFile.
  unfold file_at in Hbad. rewrite lookup_node_kind in Hbad.
  destruct (Os.lookup_node (Os.resolve w path) (root w)) as [[src|sub]|];
    [|by eexists..].
  destruct (parse_source path src) as [node|e] eqn:Hparse; [|by eexists].
  by destruct (Hbad src node).
Qed.

(** X16. [generateTestForFile] with an output directory, given without an
    element [..], that cannot be made, a regular file being on its way: the
    error is under [failed to create output directory], and nothing is
    written. *)
Theorem generate_fails_when_the_directory_cannot_be_made
    path outputDir tableTests w src node :
  file_at w path = Some (Regular src) ->
  parse_source path src = Ok node ->
  exportedFunctions tableTests (Ast.Decls node) <> [] ->
  outputDir <> EmptyString ->
  ".." ∉ Filepath.elements outputDir ->
  Os.mkdir_all (Os.resolve w outputDir) (root w) = None ->
  exists detail,
    generateTestForFile path outputDir tableTests w
    = (Err (Errorf ("failed to create output directory: " +:+ detail)), w).
Proof.
  intros Hfile Hparse Hsome Hne _ Hmk. eexists.
  unfold generateTestForFile, bind at 1, wrap at 1, ParseFile, bind at 1.
  rewrite (ReadFile_regular _ _ _ Hfile), Hparse.
  destruct (exportedFunctions tableTests (Ast.Decls node)) as [|fn fns]; [done|].
  cbn [length Nat.eqb]. rewrite (proj2 (String.eqb_neq _ _) Hne).
  unfold bind, wrap, Os.MkdirAll. by rewrite Hmk.
Qed.

(** X17. A unit is not generated twice: once [generateTestForFile] has been
    called on a unit that parses and has an exported function, with no
    output directory or with one, given without an element [..], that can
    be made, the same call fails with [test file already exists], at once
    or after other units were processed, and changes nothing; this whether
    the first call wrote the file or found one there. *)
Theorem generate_refuses_the_second_run
    path outputDir tableTests w src node tree r1 w1 w2 :
  file_at w path = Some (Regular src) ->
  parse_source path src = Ok node ->
  exportedFunctions tableTests (Ast.Decls node) <> [] ->
  Strings.HasSuffix path ".go" = true ->
  ".." ∉ Filepath.elements outputDir ->
  prepared w outputDir = Some tree ->
  generateTestForFile path outputDir tableTests w = (r1, w1) ->
  extends w1 w2 ->
  generateTestForFile path outputDir tableTests w2
  = (Err (Errorf ("test file already exists: " +:+ companion_path path outputDir)), w2).
Proof.
  intros Hfile Hparse Hsome Hgo _ Hprep Hrun Hlater.
  pose proof (generate_extends outputDir tableTests _ _ _ _ Hrun) as Hfirst.
  destruct Hfirst as [Hcwd1 Hkeep1]. destruct Hlater as [Hcwd2 Hkeep2].
  assert (forall p, Os.resolve w2 p = Os.resolve w p) as Hres
    by (intros p; unfold Os.resolve, Os.Getwd; by rewrite Hcwd2, Hcwd1).
  assert (file_at w2 path = Some (Regular src)) as Hfile2
    by (unfold file_at; rewrite Hres; apply Hkeep2, Hkeep1; exact Hfile).
  assert (exists k, file_at w2 (companion_path path outputDir) = Some k) as [k Hk].
  { unfold file_at. rewrite Hres.
    pose proof (generate_testable_outcome _ _ _ _ _ _ _ Hfile Hparse Hsome Hgo Hprep)
      as Hout.
    destruct (kind_at (Os.resolve w (companion_path path outputDir)) tree) as [k|] eqn:Hk.
    - destruct Hout as [Hout ->]. rewrite Hout in Hrun. simplify_eq.
      exists k. by apply Hkeep2.
    - destruct Hout as (tree' & Hput & Hout). rewrite Hout in Hrun. simplify_eq.
      exists (Regular (companion_text tableTests node)). apply Hkeep2.
      cbn [root with_line with_tree].
      by rewrite (put_file_kind_at _ _ _ _ Hput), decide_True. }
  by eapply generate_collision.
Qed.

Lemma Join_snoc (l : list string) (e : string) :
  Strings.Join (l ++ [e]) "/"
  = match l with
    | [] => e
    | _ => Strings.Join l "/" +:+ "/" +:+ e
    end.
Proof.
  induction l as [|a l IH]; [done|].
  destruct l as [|b l]; [done|].
  change (Strings.Join ((a :: b :: l) ++ [e]) "/")
    with (a +:+ "/" +:+ Strings.Join ((b :: l) ++ [e]) "/").
  rewrite IH. change (Strings.Join (a :: b :: l) "/")
    with (a +:+ "/" +:+ Strings.Join (b :: l) "/").
  by rewrite !append_assoc.
Qed.

Lemma HasSuffix_append_l (a e suffix : string) :
  Strings.HasSuffix e suffix = true -> Strings.HasSuffix (a +:+ e) suffix = true.
Proof.
  intros He%HasSuffix_inv. rewrite He, <- append_assoc. apply HasSuffix_append.
Qed.

(** A path joined with a plain name ends with that name. *)
Lemma HasSuffix_Join (a e suffix : string) :
  a <> EmptyString -> plain e ->
  Strings.HasSuffix e suffix = true ->
  Strings.HasSuffix (Filepath.Join a e) suffix = true.
Proof.
  intros Ha He Hs. unfold Filepath.Join.
  rewrite (proj2 (String.eqb_neq _ _) Ha). cbn [negb].
  unfold Filepath.Clean.
  rewrite decide_False by (by destruct a).
  rewrite elements_append_separator, (elements_element e) by apply He.
  rewrite clean_elements_snoc by done.
  destruct (Filepath.IsAbs _).
  - rewrite Join_snoc.
    destruct (Filepath.clean_elements true (Filepath.elements a));
      by repeat apply HasSuffix_append_l.
  - destruct (Filepath.clean_elements false (Filepath.elements a)) as [|x l] eqn:Hl;
      [done|].
    cbn [app]. change (x :: l ++ [e]) with ((x :: l) ++ [e]).
    rewrite Join_snoc. by repeat apply HasSuffix_append_l.
Qed.

(** X18. The file that [generateTestForFile] writes for a Go file is a test
    file, in whatever directory it is written: the walk passes over it, and
    [GenerateTests] on it is refused. *)
Theorem companion_is_never_a_candidate path outputDir :
  Strings.HasSuffix path ".go" = true ->
  Strings.HasSuffix (companion_path path outputDir) "_test.go" = true
  /\ is_candidate (companion_path path outputDir) = false.
Proof.
  intros Hgo.
  assert (Strings.HasSuffix (companion_path path outputDir) "_test.go" = true) as Hs.
  { unfold companion_path. apply HasSuffix_Join.
    - destruct (String.eqb_spec outputDir EmptyString); [apply Clean_not_nil|done].
    - by apply companion_name_plain.
    - apply HasSuffix_append. }
  split; [done|]. unfold is_candidate. by rewrite Hs, andb_false_r.
Qed.

End DriverFacts.

(** ** More facts on the rendered text *)

Section CountFacts.

Implicit Types (name package rest : string) (fn : FunctionData) (fns : list FunctionData).

(** One test function begins in a block. *)
Lemma Count_test_block fn rest :
  identifier_bytes (Name fn) ->
  Strings.Count (test_block fn +:+ rest) "func Test" = S (Strings.Count rest "func Test").
Proof.
  intros Hid. destruct fn as [name []]; cbn [Name] in Hid.
  - rewrite test_block_table. unfold table_block.
    rewrite (append_assoc (LF +:+ "func Test")), (append_assoc name),
      (append_assoc table_head), (append_assoc name).
    rewrite (Count_two_holes 4) by (done || (vm_compute; reflexivity)).
    rewrite (Count_append table_tail) by (vm_compute; reflexivity).
    vm_compute (Strings.Count (LF +:+ "func Test") _).
    vm_compute (Strings.Count table_head _).
    vm_compute (Strings.Count table_tail _). lia.
  - rewrite test_block_flat. unfold flat_block.
    rewrite (append_assoc (LF +:+ "func Test")), (append_assoc name),
      (append_assoc flat_head), (append_assoc name).
    rewrite (Count_two_holes 4) by (done || (vm_compute; reflexivity)).
    rewrite (Count_append flat_tail) by (vm_compute; reflexivity).
    vm_compute (Strings.Count (LF +:+ "func Test") _).
    vm_compute (Strings.Count flat_head _).
    vm_compute (Strings.Count flat_tail _). lia.
Qed.

Lemma Count_test_blocks fns rest :
  Forall (fun fn => identifier_bytes (Name fn)) fns ->
  Strings.Count (concat_strings (map test_block fns) +:+ rest) "func Test"
  = length fns + Strings.Count rest "func Test".
Proof.
  induction 1 as [|fn fns Hfn _ IH]; [by rewrite append_nil_l|].
  cbn [map concat_strings foldr length].
  change (foldr String.append EmptyString (map test_block fns))
    with (concat_strings (map test_block fns)).
  rewrite append_assoc, Count_test_block, IH by done. lia.
Qed.

Lemma Count_preamble package rest :
  identifier_bytes package ->
  Strings.Count (preamble package +:+ rest) "func Test" = Strings.Count rest "func Test".
Proof.
  intros Hid. unfold preamble.
  rewrite (append_assoc "package "), (append_assoc package).
  match goal with
  | |- Strings.Count (_ +:+ _ +:+ ?t +:+ _) _ = _ => set (middle := t)
  end.
  rewrite (Count_append "package ") by (vm_compute; reflexivity).
  rewrite (Count_after_identifier 4) by (done || (vm_compute; reflexivity)).
  rewrite (Count_append middle) by (vm_compute; reflexivity).
  vm_compute (Strings.Count "package " _). vm_compute (Strings.Count middle _). lia.
Qed.

End CountFacts.

Section TestCount.

Context `{Toolchain}.

(** X19. The text written for a file has one test function for each exported
    function of the file, methods included: [func Test] occurs as many times
    as the file has function declarations with an exported name. *)
Theorem companion_text_has_one_test_per_function tableTests node :
  identifier_bytes (Ast.Name node) ->
  Forall identifier_bytes (declared_functions (Ast.Decls node)) ->
  Strings.Count (companion_text tableTests node) "func Test"
  = length (List.filter IsExported (declared_functions (Ast.Decls node))).
Proof.
  intros Hpackage Hnames. unfold companion_text, rendered. cbn [Package Functions].
  rewrite Count_preamble by done.
  rewrite Count_test_blocks.
  - rewrite exportedFunctions_names, length_map. unfold exported_names.
    vm_compute (Strings.Count LF _). lia.
  - rewrite exportedFunctions_names. apply Forall_map. cbn [Name].
    unfold exported_names.
    apply Forall_forall. intros name Hin%list_elem_of_In%filter_In.
    rewrite Forall_forall in Hnames. apply Hnames, list_elem_of_In, Hin.
Qed.

End TestCount.

(** ** Relations that the walk keeps *)

Section WalkInvariant.

Context `{Toolchain}.

Variables (outputDir : string) (tableTests : bool).

(** A preorder on worlds that every processing of a candidate keeps. *)
Variable R : world -> world -> Prop.

Hypothesis R_refl : forall w, R w w.
Hypothesis R_trans : forall w1 w2 w3, R w1 w2 -> R w2 w3 -> R w1 w3.
Hypothesis R_generate :
  forall path w r w',
    is_candidate path = true ->
    generateTestForFile path outputDir tableTests w = (r, w') -> R w w'.

#[local] Abbreviation fn := (walkFn outputDir tableTests).

Implicit Types (w : world) (path dir name : string) (names : list string)
  (info : Os.FileInfo) (depth : nat).

Lemma walkFn_keeps path (found : option Os.FileInfo) (err : option error) w r w' :
  fn path found err w = (r, w') -> R w w'.
Proof.
  unfold walkFn. destruct err as [e|]; [intros [= _ <-]; apply R_refl|].
  destruct found as [info|]; [|intros [= _ <-]; apply R_refl].
  destruct (negb (Os.IsDir info)); cbn [andb]; [|intros [= _ <-]; apply R_refl].
  fold (is_candidate path). destruct (is_candidate path) eqn:Hcand.
  - by apply R_generate.
  - intros [= _ <-]. apply R_refl.
Qed.

Lemma walkNames_keeps rec dir names w r w' :
  (forall path info w1 r1 w2, rec path info w1 = Some (r1, w2) -> R w1 w2) ->
  walkNames rec fn dir names w = Some (r, w') -> R w w'.
Proof.
  intros Hrec. revert w. induction names as [|name names IH]; intros w.
  { intros [= _ <-]. apply R_refl. }
  cbn [walkNames].
  destruct (Os.Lstat (Filepath.Join dir name) w) as [[info|err] w1] eqn:Hstat;
    apply Lstat_world in Hstat as ->.
  - destruct (rec (Filepath.Join dir name) info w) as [[[[]|e] w2]|] eqn:Hentry;
      [| |done]; apply Hrec in Hentry.
    + intros Hrest%IH. by eapply R_trans.
    + destruct (decide _); [by intros [= _ <-]|].
      intros Hrest%IH. by eapply R_trans.
  - destruct (fn (Filepath.Join dir name) None (Some err) w) as [[[]|e] w2] eqn:Hentry;
      apply walkFn_keeps in Hentry.
    + intros Hrest%IH. by eapply R_trans.
    + destruct (decide _); [by intros [= _ <-]|].
      intros Hrest%IH. by eapply R_trans.
Qed.

Lemma walk_keeps depth path info w r w' :
  walk depth fn path info w = Some (r, w') -> R w w'.
Proof.
  revert path info w r w'. induction depth as [|depth IH]; intros path info w r w';
    [done|].
  cbn [walk]. destruct (negb (Os.IsDir info)).
  { intros [= Hrun]. apply (walkFn_keeps path (Some info) None w r w' Hrun). }
  unfold Os.readDirNames.
  destruct (Os.lookup_node _ _) as [[d|sub]|].
  - destruct (fn path (Some info) _ w) as [r1 w1] eqn:Hfn.
    apply walkFn_keeps in Hfn. by intros [= _ <-].
  - destruct (fn path (Some info) None w) as [[[]|e] w1] eqn:Hfn;
      apply walkFn_keeps in Hfn; [|by intros [= _ <-]].
    intros Hrest. eapply R_trans; [done|].
    eapply walkNames_keeps; [|done]. apply IH.
  - destruct (fn path (Some info) _ w) as [r1 w1] eqn:Hfn.
    apply walkFn_keeps in Hfn. by intros [= _ <-].
Qed.

(** When moreover the first line of [GenerateTests] keeps the relation,
    the whole run keeps it. *)
Lemma GenerateTests_keeps depth path w r w' :
  (forall w0 line, R w0 (with_line w0 line)) ->
  GenerateTests depth path outputDir tableTests w = Some (r, w') -> R w w'.
Proof.
  intros R_line Hrun.
  assert (R w (started w path)) as Hstart by apply R_line.
  destruct (file_at w (abs_path w path)) as [[data|]|] eqn:Hkind.
  - destruct (is_candidate (abs_path w path)) eqn:Hcand.
    + rewrite (GenerateTests_file outputDir tableTests depth path w data) in Hrun by done.
      injection Hrun as Hgen. apply R_generate in Hgen; [|done].
      by eapply R_trans.
    + rewrite (GenerateTests_other _ _ _ _ _ _ Hkind Hcand) in Hrun.
      by injection Hrun as _ <-.
  - rewrite (GenerateTests_directory outputDir tableTests depth path w) in Hrun by done.
    unfold Walk in Hrun.
    rewrite (Lstat_kind (abs_path w path) (started w path) Dir) in Hrun by done.
    eapply R_trans; [exact Hstart|].
    destruct (walk depth _ _ _ _) as [[[[]|e] wa]|] eqn:Hwalk; [| |done];
      apply walk_keeps in Hwalk.
    + by injection Hrun as _ <-.
    + by destruct (decide _); injection Hrun as _ <-.
  - destruct (GenerateTests_missing depth path outputDir tableTests w Hkind) as [d Hd].
    rewrite Hd in Hrun. by injection Hrun as _ <-.
Qed.

End WalkInvariant.

Section Growth.

Context `{Toolchain}.

Implicit Types (w : world) (path outputDir src : string) (tableTests : bool)
  (es : list string).

Lemma grows_refl w : grows w w.
Proof. split; [apply extends_refl|]. intros es data Hk Hnone. congruence. Qed.

Lemma grows_trans w1 w2 w3 : grows w1 w2 -> grows w2 w3 -> grows w1 w3.
Proof.
  intros [He1 Hn1] [He2 Hn2]. split; [by eapply extends_trans|].
  intros es data Hk Hnone.
  destruct (kind_at es (root w2)) as [k|] eqn:Hk2; [|by eapply Hn2].
  pose proof (proj2 He2 es k Hk2) as Hk3. rewrite Hk in Hk3. simplify_eq.
  by eapply Hn1.
Qed.

Lemma grows_with_line w line : grows w (with_line w line).
Proof. split; [by split|]. intros es data Hk Hnone. cbn in Hk. congruence. Qed.

(** Either [generateTestForFile] leaves the file tree as it is, or the
    unit has an exported function and the output directory is made. *)
Lemma generate_root path outputDir tableTests w :
  root (snd (generateTestForFile path outputDir tableTests w)) = root w
  \/ exists src node tree,
       file_at w path = Some (Regular src)
       /\ parse_source path src = Ok node
       /\ exportedFunctions tableTests (Ast.Decls node) <> []
       /\ prepared w outputDir = Some tree.
Proof.
  destruct (file_at w path) as [[src|]|] eqn:Hfile.
  2,3: left; unfold generateTestForFile, bind, wrap, ParseFile, bind, Os.ReadFile;
       unfold file_at in Hfile; rewrite lookup_node_kind in Hfile;
       by destruct (Os.lookup_node (Os.resolve w path) (root w)) as [[?|?]|].
  destruct (parse_source path src) as [node|e] eqn:Hparse.
  2: { left. by rewrite (generate_parse_error _ _ _ _ _ _ Hfile Hparse). }
  destruct (exportedFunctions tableTests (Ast.Decls node)) as [|fn fns] eqn:Hfns.
  { left. by rewrite (generate_skipped _ _ _ _ _ _ Hfile Hparse Hfns). }
  destruct (prepared w outputDir) as [tree|] eqn:Hprep.
  { right. exists src, node, tree. by rewrite Hfns. }
  left. unfold prepared in Hprep.
  destruct (String.eqb outputDir EmptyString) eqn:Hod; [done|].
  unfold generateTestForFile, bind at 1, wrap at 1, ParseFile, bind at 1.
  rewrite (ReadFile_regular _ _ _ Hfile), Hparse, Hfns. cbn [length Nat.eqb].
  rewrite Hod. unfold bind, wrap, Os.MkdirAll. by rewrite Hprep.
Qed.

Lemma generate_grows path outputDir tableTests w r w' :
  is_candidate path = true ->
  generateTestForFile path outputDir tableTests w = (r, w') -> grows w w'.
Proof.
  intros Hcand Hrun. split; [by eapply generate_extends|].
  intros es data Hk Hnone.
  assert (Strings.HasSuffix path ".go" = true) as Hgo
    by (unfold is_candidate in Hcand; by apply andb_true_iff in Hcand as [? _]).
  destruct (generate_root path outputDir tableTests w)
    as [Hroot|(src & node & tree & Hfile & Hparse & Hsome & Hprep)].
  { rewrite Hrun in Hroot. cbn [snd] in Hroot. congruence. }
  destruct (prepared_directory _ _ _ _ _ Hfile Hgo Hprep) as (ds & Hres & Hdir & Hsame & Hds).
  pose proof (generate_testable_outcome _ _ _ _ _ _ _ Hfile Hparse Hsome Hgo Hprep) as Hout.
  destruct (kind_at (Os.resolve w (companion_path path outputDir)) tree) as [k|].
  { destruct Hout as [Hout ->]. rewrite Hout in Hrun. simplify_eq.
    cbn [root with_tree] in Hk. congruence. }
  destruct Hout as (tree' & Hput & Hout). rewrite Hout in Hrun. simplify_eq.
  cbn [root with_line with_tree] in Hk.
  rewrite (put_file_kind_at _ _ _ _ Hput) in Hk.
  destruct (decide (es = Os.resolve w (companion_path path outputDir))) as [->|Hne].
  - exists (companion_name path). rewrite Hres. split; [by rewrite last_snoc|].
    apply HasSuffix_append.
  - exfalso. unfold prepared in Hprep.
    destruct (String.eqb outputDir EmptyString); [by simplify_eq; congruence|].
    rewrite (mkdir_all_kind_at _ _ _ Hprep) in Hk.
    destruct (decide (es `prefix_of` _)); [done|congruence].
Qed.

(** X20. Whatever [GenerateTests] does and whatever it returns, a regular
    file that is there afterwards and was not there before has a name that
    ends in [_test.go]: beside test files, a run adds directories only. *)
Theorem GenerateTests_adds_test_files_only depth path outputDir tableTests w r w' es data :
  GenerateTests depth path outputDir tableTests w = Some (r, w') ->
  kind_at es (root w') = Some (Regular data) ->
  kind_at es (root w) = None ->
  exists name, last es = Some name /\ Strings.HasSuffix name "_test.go" = true.
Proof.
  intros Hrun Hk Hnone.
  assert (grows w w') as [_ Hnew].
  { eapply (GenerateTests_keeps outputDir tableTests grows);
      [apply grows_refl|apply grows_trans| |apply grows_with_line|exact Hrun].
    intros p w0 r0 w1. apply generate_grows. }
  by eapply Hnew.
Qed.

End Growth.

(** * Runs on the example trees *)

Section Examples.

#[local] Existing Instance Fragment.toolchain.

(** C1, refuted as stated: [a.go] does not parse, and the candidate
    [b.go], which comes after it and would be generated, is not
    processed: the run returns the parse error and the world has the
    first line only. *)
Lemma C1_later_candidate_is_not_processed :
  GenerateTests 3 "/p" EmptyString false broken_first
  = Some (Err (Errorf "failed to parse Go file: /p/a.go: expected declaration"),
          started broken_first "/p")
  /\ is_candidate "/p/b.go" = true
  /\ file_at broken_first "/p/b.go" = Some (Regular parse_source_text)
  /\ fst (generateTestForFile "/p/b.go" EmptyString false (started broken_first "/p")) = Ok tt
  /\ GenerateTests 3 "/p" EmptyString false collision_first
     = Some (Err (Errorf "test file already exists: /p/a_test.go"),
             started collision_first "/p")
  /\ is_candidate "/p/b.go" = true
  /\ file_at collision_first "/p/b.go" = Some (Regular shapes_source)
  /\ fst (generateTestForFile "/p/b.go" EmptyString false (started collision_first "/p")) = Ok tt.
Proof. repeat split; vm_compute; reflexivity. Qed.


(** A unit without an exported function is skipped before any output
    path is computed: [a.go] is skipped although [a_test.go] is there. *)
Lemma skipped_before_the_existence_check :
  is_candidate "/p/a.go" = true
  /\ companion_path "/p/a.go" EmptyString = "/p/a_test.go"
  /\ file_at helper_with_companion "/p/a_test.go" = Some (Regular handwritten)
  /\ generateTestForFile "/p/a.go" EmptyString false helper_with_companion
     = (Ok tt, with_line helper_with_companion
                 "No exported functions found in /p/a.go, skipping").
Proof. repeat split; vm_compute; reflexivity. Qed.

(** C10, refuted as stated: [/p/a/x.go] and [/p/b/x.go] have the same
    output path, and the one processed second is generated, the first
    having no exported function. *)
Lemma C10_second_unit_is_generated :
  Filepath.Base "/p/a/x.go" = Filepath.Base "/p/b/x.go"
  /\ companion_path "/p/a/x.go" "/out" = "/out/x_test.go"
  /\ companion_path "/p/b/x.go" "/out" = "/out/x_test.go"
  /\ GenerateTests 4 "/p" "/out" false equal_base_names = Some (Ok tt, equal_base_names_after)
  /\ file_at equal_base_names_after "/out/x_test.go" = Some (Regular parse_test_text).
Proof. repeat split; vm_compute; reflexivity. Qed.

(** The run over [broken_first] is an instance of C1. *)
Lemma C1_first_failure_aborts_the_batch_witness :
  GenerateTests 3 "/p" EmptyString false broken_first
  = Some (Err (Errorf "failed to parse Go file: /p/a.go: expected declaration"),
          started broken_first "/p").
Proof.
  apply (C1_first_failure_aborts_the_batch (H := Fragment.toolchain)).
  - vm_compute; reflexivity.
  - apply (failure_below (H := Fragment.toolchain) EmptyString false 2
             (abs_path broken_first "/p") (started broken_first "/p")
             (Os.mkFileInfo "p" true) [] "a.go" [ "b.go" ] (started broken_first "/p")).
    + vm_compute; reflexivity.
    + reflexivity.
    + vm_compute; reflexivity.
    + reflexivity.
    + apply (failure_here (H := Fragment.toolchain) EmptyString false 1 _ _
               (Os.mkFileInfo "a.go" false)).
      * vm_compute; reflexivity.
      * reflexivity.
      * vm_compute; reflexivity.
      * vm_compute; reflexivity.
Defined.


(** Instances of C3 on [collision_first], where [a_test.go] is there:
    without an output directory, and with the output directory [/p]. *)
Lemma C3_existing_companion_is_kept_witness :
  generateTestForFile "/p/a.go" EmptyString false collision_first
  = (Err (Errorf ("test file already exists: " +:+ companion_path "/p/a.go" EmptyString)),
     collision_first)
  /\ generateTestForFile "/p/a.go" "/p" false collision_first
     = (Err (Errorf ("test file already exists: " +:+ companion_path "/p/a.go" "/p")),
        collision_first)
  /\ kind_at [ "p"; "a_test.go" ]
       (root (snd (generateTestForFile "/p/a.go" EmptyString false collision_first)))
     = Some (Regular handwritten).
Proof.
  split; [|split].
  - apply (proj1 (C3_existing_companion_is_kept (H := Fragment.toolchain))
             collision_first "/p/a.go" EmptyString false parse_source_text parse_file
             (Regular handwritten)).
    + vm_compute; reflexivity.
    + vm_compute; reflexivity.
    + discriminate.
    + vm_compute; reflexivity.
    + apply (bool_decide_unpack _); vm_compute; exact I.
    + vm_compute; reflexivity.
  - apply (proj1 (C3_existing_companion_is_kept (H := Fragment.toolchain))
             collision_first "/p/a.go" "/p" false parse_source_text parse_file
             (Regular handwritten)).
    + vm_compute; reflexivity.
    + vm_compute; reflexivity.
    + discriminate.
    + vm_compute; reflexivity.
    + apply (bool_decide_unpack _); vm_compute; exact I.
    + vm_compute; reflexivity.
  - apply (proj2 (C3_existing_companion_is_kept (H := Fragment.toolchain))
             "/p/a.go" EmptyString false collision_first
             (fst (generateTestForFile "/p/a.go" EmptyString false collision_first))).
    + by destruct (generateTestForFile "/p/a.go" EmptyString false collision_first).
    + vm_compute; reflexivity.
Defined.

(** An instance of C4: [a.go] of [helper_with_companion]. *)
Lemma C4_unit_without_exported_functions_is_skipped_witness :
  generateTestForFile "/p/a.go" "gen" true helper_with_companion
  = (Ok tt, with_line helper_with_companion
              ("No exported functions found in " +:+ "/p/a.go" +:+ ", skipping"))
  /\ root (snd (generateTestForFile "/p/a.go" "gen" true helper_with_companion))
     = root helper_with_companion.
Proof.
  apply (C4_unit_without_exported_functions_is_skipped (H := Fragment.toolchain)
           helper_with_companion "/p/a.go" "gen" true helper_source
           (Ast.mkFile "a" [ Ast.FuncDecl None "helper" ])).
  - vm_compute; reflexivity.
  - vm_compute; reflexivity.
  - vm_compute; reflexivity.
Defined.

(** An instance of C6: two functions. *)
Lemma C6_table_block_has_two_named_cases_witness :
  Template.Execute TestTemplate (TestData_value (two_functions true))
  = (preamble "shapes" +:+ (table_block "Area" +:+ table_block "Scale" +:+ EmptyString) +:+ LF,
     None)
  /\ Forall (fun fn =>
               test_block fn = table_block (Name fn)
               /\ Strings.Count (test_block fn) case_entry = 2
               /\ Strings.Count (test_block fn) (named_case "test case 1") = 1
               /\ Strings.Count (test_block fn) (named_case "test case 2") = 1)
       (Functions (two_functions true)).
Proof.
  apply (C6_table_block_has_two_named_cases (two_functions true)).
  repeat constructor.
Defined.

(** An instance of C7: two functions. *)
Lemma C7_flat_block_is_a_placeholder_witness :
  Template.Execute TestTemplate (TestData_value (two_functions false))
  = (preamble "shapes" +:+ (flat_block "Area" +:+ flat_block "Scale" +:+ EmptyString) +:+ LF,
     None)
  /\ Forall (fun fn =>
               test_block fn
               = LF +:+ "func Test" +:+ Name fn +:+ "(t *testing.T) {" +:+ LF
                 +:+ TAB +:+ LF
                 +:+ TAB +:+ "// TODO: Write test for " +:+ Name fn +:+ LF
                 +:+ TAB +:+ LF
                 +:+ "}" +:+ LF
               /\ Strings.Count (test_block fn) "// TODO: Write test for " = 1
               /\ Strings.Count (test_block fn) "//" = 1
               /\ Strings.Count (test_block fn) case_entry = 0
               /\ Strings.Count (test_block fn) cases_declaration = 0
               /\ Strings.Count (test_block fn) cases_loop = 0)
       (Functions (two_functions false)).
Proof.
  apply (C7_flat_block_is_a_placeholder (two_functions false)).
  repeat constructor.
Defined.

(** An instance of C9: the method [Area] on [Circle]. *)
Lemma C9_exported_methods_are_included_witness :
  exportedFunctions false geometry_decls = [ mkFunctionData "Area" false ]
  /\ exportedFunctions false [ Ast.FuncDecl (Some "Circle") "Area" ]
     = exportedFunctions false [ Ast.FuncDecl None "Area" ]
  /\ test_block (mkFunctionData "Area" false) = flat_block "Area".
Proof.
  apply (C9_exported_methods_are_included (H := Fragment.toolchain) false
           [ Ast.GenDecl Ast.TYPE [ "Circle" ] ] (Some "Circle") "Area" []).
  reflexivity.
Defined.

(** Instances of C8 on [shapes_world], whose working directory is [/p]:
    without an output directory, and with the output directory [gen],
    which is made in [/p]. *)
Lemma C8_companion_path_witness :
  (root shapes_world = root shapes_world
   /\ exists tree',
        generateTestForFile "/p/shapes.go" EmptyString false shapes_world
        = (Ok tt, with_line (with_tree shapes_world tree')
                    ("Generated test file: " +:+ "/p/shapes_test.go"))
        /\ forall es, kind_at es tree'
                      = if decide (es = [ "p"; "shapes_test.go" ])
                        then Some (Regular (companion_text false shapes_file))
                        else kind_at es (root shapes_world))
  /\ ((forall es, kind_at es shapes_tree_prepared
                  = if decide (es `prefix_of` [ "p"; "gen" ]) then Some Dir
                    else kind_at es (root shapes_world))
      /\ exists tree',
           generateTestForFile "/p/shapes.go" "gen" false shapes_world
           = (Ok tt, with_line (with_tree shapes_world tree')
                       ("Generated test file: " +:+ "gen/shapes_test.go"))
           /\ forall es, kind_at es tree'
                         = if decide (es = [ "p"; "gen"; "shapes_test.go" ])
                           then Some (Regular (companion_text false shapes_file))
                           else kind_at es shapes_tree_prepared).
Proof.
  split.
  - apply (C8_companion_path (H := Fragment.toolchain) shapes_world "/p/shapes.go"
             EmptyString false shapes_source shapes_file "shapes" (root shapes_world)).
    + vm_compute; reflexivity.
    + vm_compute; reflexivity.
    + discriminate.
    + vm_compute; reflexivity.
    + vm_compute; reflexivity.
    + apply (bool_decide_unpack _); vm_compute; exact I.
    + reflexivity.
  - apply (C8_companion_path (H := Fragment.toolchain) shapes_world "/p/shapes.go"
             "gen" false shapes_source shapes_file "shapes" shapes_tree_prepared).
    + vm_compute; reflexivity.
    + vm_compute; reflexivity.
    + discriminate.
    + vm_compute; reflexivity.
    + vm_compute; reflexivity.
    + apply (bool_decide_unpack _); vm_compute; exact I.
    + vm_compute; reflexivity.
Defined.

(** An instance of C10 on [equal_base_names_testable]. *)
Lemma C10_same_base_name_collides_witness :
  companion_path "/p/a/x.go" "/out" = companion_path "/p/b/x.go" "/out"
  /\ companion_path "/p/b/x.go" "/out"
     = Filepath.Join "/out" (Strings.TrimSuffix (Filepath.Base "/p/b/x.go") ".go" +:+ "_test.go")
  /\ generateTestForFile "/p/b/x.go" "/out" false
       (snd (generateTestForFile "/p/a/x.go" "/out" false equal_base_names_testable))
     = (Err (Errorf ("test file already exists: " +:+ companion_path "/p/b/x.go" "/out")),
        snd (generateTestForFile "/p/a/x.go" "/out" false equal_base_names_testable)).
Proof.
  apply (C10_same_base_name_collides (H := Fragment.toolchain) equal_base_names_testable
           "/p/a/x.go" "/p/b/x.go" "/out" false shapes_source shapes_file
           parse_source_text parse_file
           (<[ "out" := directory [] ]> (root equal_base_names_testable))
           (fst (generateTestForFile "/p/a/x.go" "/out" false equal_base_names_testable))
           (snd (generateTestForFile "/p/a/x.go" "/out" false equal_base_names_testable))
           (snd (generateTestForFile "/p/a/x.go" "/out" false equal_base_names_testable))).
  - discriminate.
  - apply (bool_decide_unpack _); vm_compute; exact I.
  - vm_compute; reflexivity.
  - vm_compute; reflexivity.
  - vm_compute; reflexivity.
  - vm_compute; reflexivity.
  - vm_compute; reflexivity.
  - discriminate.
  - vm_compute; reflexivity.
  - vm_compute; reflexivity.
  - discriminate.
  - vm_compute; reflexivity.
  - by destruct (generateTestForFile "/p/a/x.go" "/out" false equal_base_names_testable).
  - apply extends_refl.
Defined.

(** The run over the file [shapes.go]: the source is parsed into
    [shapes_file], and [shapes_test.go] is written with the test of
    [Area]. *)
Lemma shapes_run :
  parse_source "/p/shapes.go" shapes_source = Ok shapes_file
  /\ GenerateTests 0 "shapes.go" EmptyString false shapes_world
     = Some (Ok tt,
             mkWorld
               (list_to_map
                  [ ("p", directory [ ("shapes.go", RegularFile shapes_source);
                                      ("shapes_test.go", RegularFile shapes_test_text) ]) ])
               [ "p" ]
               [ "Generating tests for: shapes.go";
                 "Generated test file: /p/shapes_test.go" ])
  /\ shapes_test_text = companion_text false shapes_file.
Proof. repeat split; vm_compute; reflexivity. Qed.

(** The run over the file [geometry.go], which declares the method
    [Area]: [geometry_test.go] is written with the test [TestArea]. *)
Lemma geometry_run :
  parse_source "/g/geometry.go" geometry_source = Ok (Ast.mkFile "geometry" geometry_decls)
  /\ GenerateTests 0 "/g/geometry.go" EmptyString false
       (tree_of [ ("g", directory [ ("geometry.go", RegularFile geometry_source) ]) ])
     = Some (Ok tt,
             mkWorld
               (list_to_map
                  [ ("g", directory
                            [ ("geometry.go", RegularFile geometry_source);
                              ("geometry_test.go",
                               RegularFile (preamble "geometry" +:+ flat_block "Area" +:+ LF)) ]) ])
               []
               [ "Generating tests for: /g/geometry.go";
                 "Generated test file: /g/geometry_test.go" ]).
Proof. repeat split; vm_compute; reflexivity. Qed.

(** The run over [equal_base_names_testable] with the output directory
    [/out]: [/p/a/x.go] is generated, and [/p/b/x.go] ends the run. *)
Lemma equal_base_names_run :
  GenerateTests 3 "/p" "/out" false equal_base_names_testable
  = Some (Err (Errorf "test file already exists: /out/x_test.go"),
          mkWorld
            (list_to_map
               [ ("out", directory [ ("x_test.go", RegularFile shapes_test_text) ]);
                 ("p", directory
                         [ ("a", directory [ ("x.go", RegularFile shapes_source) ]);
                           ("b", directory [ ("x.go", RegularFile parse_source_text) ]) ]) ])
            []
            [ "Generating tests for: /p"; "Generated test file: /out/x_test.go" ]).
Proof. vm_compute; reflexivity. Qed.

End Examples.

(** ** Runs of the other functions on the example trees *)

Section MoreExamples.

#[local] Existing Instance Fragment.toolchain.
#[local] Existing Instance Sample.tenths.

Lemma settled_project_world : settled project_world (root project_world).
Proof. split; [|vm_compute; reflexivity]. repeat constructor; discriminate. Qed.

Lemma CheckSecurity_reports_the_same_for_every_project_witness :
  CheckSecurity "/p" project_world
  = (Ok tt,
     mkWorld (root project_world) [ "home" ]
       (("Checking dependencies for security vulnerabilities in: " +:+ "/p")
        :: security_report)).
Proof.
  apply (CheckSecurity_reports_the_same_for_every_project "/p" project_world).
  - apply settled_project_world.
  - vm_compute; reflexivity.
Defined.

Lemma CheckOutdated_lists_the_bracketed_lines_witness :
  @CheckOutdated Sample.commands "/p" project_world
  = (Ok tt,
     mkWorld (root project_world) [ "home" ]
       [ "Checking for outdated dependencies in: " +:+ "/p";
         LF +:+ "Outdated Dependencies:";
         "- example.com/alpha v1.0.0 [v1.2.0]";
         LF +:+ "Use 'goforge dependency update' to update them." ]).
Proof.
  apply (@CheckOutdated_lists_the_bracketed_lines Sample.commands
           "/p" project_world Sample.list_output (root project_world)).
  - vm_compute; reflexivity.
  - vm_compute; reflexivity.
  - apply settled_project_world.
Defined.

Lemma CheckOutdated_drops_the_output_of_a_failed_command_witness :
  @CheckOutdated Sample.no_commands "/p" project_world
  = (Err (Errorf ("failed to check dependencies: " +:+ "exit status 127")),
     mkWorld (root project_world) [ "home" ]
       [ "Checking for outdated dependencies in: " +:+ "/p" ]).
Proof.
  apply (@CheckOutdated_drops_the_output_of_a_failed_command Sample.no_commands
           "/p" project_world "go: command not found" (Errorf "exit status 127")
           (root project_world)).
  - vm_compute; reflexivity.
  - vm_compute; reflexivity.
  - apply settled_project_world.
Defined.

Lemma Update_stops_when_the_update_fails_witness :
  @Update Sample.no_commands "../p" project_world
  = (Err (Errorf ("failed to update dependencies: " +:+ "exit status 127"
                  +:+ LF +:+ "Output: " +:+ "go: command not found")),
     mkWorld (root project_world) [ "home" ]
       [ "Updating dependencies in: " +:+ "../p" ]).
Proof.
  apply (@Update_stops_when_the_update_fails Sample.no_commands
           "../p" project_world "go: command not found" (Errorf "exit status 127")
           (root project_world)).
  - vm_compute; reflexivity.
  - vm_compute; reflexivity.
  - apply settled_project_world.
Defined.

Lemma Update_tidies_what_the_update_left_witness :
  @Update Sample.commands "/p" project_world
  = (Ok tt,
     mkWorld (project_tree_with "go.sum" "alpha v1.2.0 h1:") [ "home" ]
       ([ "Updating dependencies in: " +:+ "/p";
          "Dependencies updated successfully!";
          LF +:+ "Running 'go mod tidy' to clean up go.mod and go.sum..." ]
        ++ [ "Dependencies tidied successfully!" ])).
Proof.
  apply (@Update_tidies_what_the_update_left Sample.commands
           "/p" project_world EmptyString (project_tree_with "go.sum" "alpha v1.2.0")
           EmptyString None (project_tree_with "go.sum" "alpha v1.2.0 h1:")).
  - vm_compute; reflexivity.
  - vm_compute; reflexivity.
  - vm_compute; reflexivity.
  - split; [|vm_compute; reflexivity]. repeat constructor; discriminate.
Defined.

Lemma dependency_functions_need_a_directory_witness :
  (exists detail,
     @CheckOutdated Sample.commands "/p/go.mod" project_world
     = (Err (Errorf ("failed to change to project directory: " +:+ detail)),
        with_line project_world ("Checking for outdated dependencies in: " +:+ "/p/go.mod")))
  /\ (exists detail,
        @Update Sample.commands "/p/go.mod" project_world
        = (Err (Errorf ("failed to change to project directory: " +:+ detail)),
           with_line project_world ("Updating dependencies in: " +:+ "/p/go.mod")))
  /\ (exists detail,
        CheckSecurity "/p/go.mod" project_world
        = (Err (Errorf ("failed to change to project directory: " +:+ detail)),
           with_line project_world
             ("Checking dependencies for security vulnerabilities in: " +:+ "/p/go.mod"))).
Proof.
  apply (@dependency_functions_need_a_directory Sample.commands "/p/go.mod" project_world).
  - repeat constructor; discriminate.
  - vm_compute. discriminate.
Defined.

Lemma AnalyzeCoverage_fails_when_the_tests_fail_witness :
  @AnalyzeCoverage Sample.no_commands Sample.tenths "/p" 800%Z "cover.html" project_world
  = (Err (Errorf ("failed to run tests with coverage: " +:+ "exit status 127"
                  +:+ LF +:+ "Output: " +:+ "go: command not found")),
     mkWorld (root project_world) [ "home" ]
       [ "Analyzing test coverage for /p (threshold: 80.0%)" ]).
Proof.
  apply (@AnalyzeCoverage_fails_when_the_tests_fail Sample.no_commands Sample.tenths
           "/p" 800%Z "cover.html" project_world "go: command not found"
           (Errorf "exit status 127") (root project_world)).
  - vm_compute; reflexivity.
  - vm_compute; reflexivity.
  - apply settled_project_world.
Defined.

Lemma AnalyzeCoverage_needs_the_coverage_file_witness :
  @AnalyzeCoverage Sample.quiet_commands Sample.tenths "/p" 800%Z "cover.html" project_world
  = (Err (Errorf "coverage file was not created, ensure tests exist"),
     mkWorld (root project_world) [ "home" ]
       [ "Analyzing test coverage for /p (threshold: 80.0%)" ]).
Proof.
  apply (@AnalyzeCoverage_needs_the_coverage_file Sample.quiet_commands Sample.tenths
           "/p" 800%Z "cover.html" project_world EmptyString (root project_world)).
  - vm_compute; reflexivity.
  - vm_compute; reflexivity.
  - vm_compute; reflexivity.
  - apply settled_project_world.
Defined.

Lemma AnalyzeCoverage_never_fails_on_the_threshold_witness :
  @AnalyzeCoverage Sample.commands Sample.tenths "/p" 900%Z "/p/cover.html" project_world
  = (Ok tt,
     mkWorld
       (list_to_map
          [ ("home", directory []);
            ("p", directory [ ("go.mod", RegularFile "module example.com/project");
                              ("coverage.out", RegularFile "mode: set");
                              ("cover.html", RegularFile "<html>") ]) ])
       [ "home" ]
       [ "Analyzing test coverage for /p (threshold: 90.0%)";
         LF +:+ "Coverage Results:";
         Sample.func_output;
         LF +:+ "Total coverage: 85.0%";
         "Coverage HTML report generated at: /p/cover.html";
         LF +:+ "WARNING: Coverage (85.0%) is below threshold (90.0%)" ]).
Proof.
  apply (@AnalyzeCoverage_never_fails_on_the_threshold Sample.commands Sample.tenths
           "/p" 900%Z "/p/cover.html" project_world
           "ok  example.com/project 0.1s" (project_tree_with "coverage.out" "mode: set")
           Sample.func_output (project_tree_with "coverage.out" "mode: set")
           EmptyString).
  - vm_compute; reflexivity.
  - vm_compute; reflexivity.
  - vm_compute; reflexivity.
  - vm_compute; reflexivity.
  - vm_compute; reflexivity.
  - split; [|vm_compute; reflexivity]. repeat constructor; discriminate.
Defined.

Lemma scanTotal_is_zero_without_a_total_line_witness :
  @scanTotal Sample.tenths (Strings.Split EmptyString "010"%char) = 0%Z
  /\ @scanTotal Sample.tenths [ "total: 85.0%"; "ok" ] = 0%Z.
Proof.
  split.
  - apply (@scanTotal_is_zero_without_a_total_line Sample.tenths).
    apply Forall_cons. split; [by left|constructor].
  - apply (@scanTotal_is_zero_without_a_total_line Sample.tenths).
    apply Forall_cons. split; [right; vm_compute; lia|].
    apply Forall_cons. split; [by left|constructor].
Defined.

Lemma scanTotal_reads_the_first_total_line_witness :
  @scanTotal Sample.tenths (Strings.Split Sample.func_output "010"%char) = 850%Z.
Proof.
  apply (@scanTotal_reads_the_first_total_line Sample.tenths
           [ "example.com/project/shapes.go:3:" +:+ TAB +:+ "Area" +:+ TAB +:+ "85.0%" ]
           (TAB +:+ TAB) TAB "85.0" [ EmptyString ]).
  - apply Forall_cons. split; [left; vm_compute; reflexivity|constructor].
  - split; [discriminate|vm_compute; reflexivity].
  - split; [discriminate|vm_compute; reflexivity].
  - split; [discriminate|vm_compute; reflexivity].
Defined.

Lemma GenerateTests_fails_on_a_missing_path_witness :
  exists detail,
    GenerateTests 0 "nowhere" "gen" true shapes_world
    = Some (Err (Errorf ("failed to stat path: " +:+ detail)),
            started shapes_world "nowhere").
Proof.
  apply (GenerateTests_fails_on_a_missing_path 0 "nowhere" "gen" true shapes_world).
  vm_compute; reflexivity.
Defined.

Lemma GenerateTests_refuses_other_files_witness :
  GenerateTests 0 "/p/a_test.go" EmptyString false collision_first
  = Some (Err (Errorf "path must be a directory or a Go file"),
          started collision_first "/p/a_test.go").
Proof.
  apply (GenerateTests_refuses_other_files 0 "/p/a_test.go" EmptyString false
           collision_first handwritten).
  - vm_compute; reflexivity.
  - vm_compute; reflexivity.
Defined.

Lemma GenerateTests_keeps_what_exists_witness :
  kind_at [ "p"; ".draft.go" ] (root hidden_entries_after) = Some (Regular shapes_source)
  /\ cwd hidden_entries_after = cwd hidden_entries.
Proof.
  apply (GenerateTests_keeps_what_exists 3 "/p" EmptyString false hidden_entries (Ok tt)).
  - vm_compute; reflexivity.
  - vm_compute; reflexivity.
Defined.

Lemma GenerateTests_adds_test_files_only_witness :
  exists name,
    last [ "p"; ".cache"; "gen_test.go" ] = Some name
    /\ Strings.HasSuffix name "_test.go" = true.
Proof.
  apply (GenerateTests_adds_test_files_only 3 "/p" EmptyString false hidden_entries (Ok tt)
           hidden_entries_after [ "p"; ".cache"; "gen_test.go" ] parse_test_text).
  - vm_compute; reflexivity.
  - vm_compute; reflexivity.
  - vm_compute; reflexivity.
Defined.

Lemma generate_fails_before_any_effect_witness :
  exists detail,
    generateTestForFile "/p/a.go" "/out" false broken_first
    = (Err (Errorf ("failed to parse Go file: " +:+ detail)), broken_first).
Proof.
  apply (generate_fails_before_any_effect "/p/a.go" "/out" false broken_first).
  intros src node Hfile. vm_compute in Hfile. injection Hfile as <-.
  vm_compute. discriminate.
Defined.

Lemma generate_fails_when_the_directory_cannot_be_made_witness :
  exists detail,
    generateTestForFile "/p/b.go" "/p/a.go/gen" false collision_first
    = (Err (Errorf ("failed to create output directory: " +:+ detail)), collision_first).
Proof.
  apply (generate_fails_when_the_directory_cannot_be_made "/p/b.go" "/p/a.go/gen" false
           collision_first shapes_source shapes_file).
  - vm_compute; reflexivity.
  - vm_compute; reflexivity.
  - discriminate.
  - discriminate.
  - apply (bool_decide_unpack _); vm_compute; exact I.
  - vm_compute; reflexivity.
Defined.

Lemma generate_refuses_the_second_run_witness :
  generateTestForFile "/p/shapes.go" EmptyString true
    (snd (generateTestForFile "/p/shapes.go" EmptyString true shapes_world))
  = (Err (Errorf ("test file already exists: " +:+ companion_path "/p/shapes.go" EmptyString)),
     snd (generateTestForFile "/p/shapes.go" EmptyString true shapes_world))
  /\ generateTestForFile "/p/shapes.go" "gen" true
       (snd (generateTestForFile "/p/shapes.go" "gen" true shapes_world))
     = (Err (Errorf ("test file already exists: " +:+ companion_path "/p/shapes.go" "gen")),
        snd (generateTestForFile "/p/shapes.go" "gen" true shapes_world)).
Proof.
  split.
  - apply (generate_refuses_the_second_run "/p/shapes.go" EmptyString true shapes_world
             shapes_source shapes_file (root shapes_world)
             (fst (generateTestForFile "/p/shapes.go" EmptyString true shapes_world))
             (snd (generateTestForFile "/p/shapes.go" EmptyString true shapes_world))).
    + vm_compute; reflexivity.
    + vm_compute; reflexivity.
    + discriminate.
    + vm_compute; reflexivity.
    + apply (bool_decide_unpack _); vm_compute; exact I.
    + reflexivity.
    + by destruct (generateTestForFile "/p/shapes.go" EmptyString true shapes_world).
    + apply extends_refl.
  - apply (generate_refuses_the_second_run "/p/shapes.go" "gen" true shapes_world
             shapes_source shapes_file shapes_tree_prepared
             (fst (generateTestForFile "/p/shapes.go" "gen" true shapes_world))
             (snd (generateTestForFile "/p/shapes.go" "gen" true shapes_world))).
    + vm_compute; reflexivity.
    + vm_compute; reflexivity.
    + discriminate.
    + vm_compute; reflexivity.
    + apply (bool_decide_unpack _); vm_compute; exact I.
    + vm_compute; reflexivity.
    + by destruct (generateTestForFile "/p/shapes.go" "gen" true shapes_world).
    + apply extends_refl.
Defined.

Lemma companion_is_never_a_candidate_witness :
  Strings.HasSuffix (companion_path "/p/shapes.go" "gen") "_test.go" = true
  /\ is_candidate (companion_path "/p/shapes.go" "gen") = false.
Proof.
  apply (companion_is_never_a_candidate "/p/shapes.go" "gen").
  vm_compute; reflexivity.
Defined.

Lemma companion_text_has_one_test_per_function_witness :
  Strings.Count (companion_text true (Ast.mkFile "geometry" geometry_decls)) "func Test"
  = length (List.filter IsExported (declared_functions geometry_decls)).
Proof.
  apply (companion_text_has_one_test_per_function true
           (Ast.mkFile "geometry" geometry_decls)).
  - vm_compute; reflexivity.
  - repeat constructor.
Defined.

End MoreExamples.
